(** * CARG connector: fetch, map, validate

    A shallow embedding of the Python sources of the CARG Port Ocean
    integration (client.py, main.py, extract_port_simple.py,
    extract_port_json.py, extract_port_objects.py,
    validate_port_objects.py) together with the
    properties of its paginated fetch, its mapping engine and its
    validators.

    Conventions.
    - JSON documents and the Python values built from them are values of
      [json]; a Python [dict] is an association list in insertion order.
    - A Python exception is an outcome, [Raised e], never a missing case.
    - Loops that the source writes as [while True] or as unbounded
      recursion take a [fuel] argument; running out of fuel is its own
      outcome and is never confused with a normal return. *)

From Stdlib Require Import ZArith Lia Ascii.
From stdpp Require Import base option list strings pretty gmap.

(** ** Python values *)

#[local] Unset Elimination Schemes.
Inductive json : Type :=
| JNull
| JBool (b : bool)
| JInt (n : Z)
| JFloat (m e : Z)        (* the decimal literal m * 10^e *)
| JStr (s : string)
| JList (l : list json)
| JDict (d : list (string * json)).
#[local] Set Elimination Schemes.

(** A Python [dict] with string keys, in insertion order. *)
Abbreviation dict := (list (string * json)).

Inductive exn : Type :=
| AttributeError
| TypeError
| ValueError
| KeyError.

(** Outcome of a call that may raise. *)
Inductive exc (A : Type) : Type :=
| Returned (a : A)
| Raised (e : exn).
Arguments Returned {A} a.
Arguments Raised {A} e.

#[global] Instance exc_ret : MRet exc := fun A a => Returned a.
#[global] Instance exc_fmap : FMap exc := fun A B f x =>
  match x with
  | Returned a => Returned (f a)
  | Raised e => Raised e
  end.
#[global] Instance exc_bind : MBind exc := fun A B k x =>
  match x with
  | Returned a => k a
  | Raised e => Raised e
  end.

Module Py.

(** [bool(v)]: what [if v:] and [not v] test. *)
Definition truthy (v : json) : bool :=
  match v with
  | JNull => false
  | JBool b => b
  | JInt n => negb (n =? 0)%Z
  | JFloat m _ => negb (m =? 0)%Z
  | JStr s => negb (String.eqb s "")
  | JList l => match l with [] => false | _ => true end
  | JDict d => match d with [] => false | _ => true end
  end.

(** [type(v).__name__] *)
Definition type_name (v : json) : string :=
  match v with
  | JNull => "NoneType"
  | JBool _ => "bool"
  | JInt _ => "int"
  | JFloat _ _ => "float"
  | JStr _ => "str"
  | JList _ => "list"
  | JDict _ => "dict"
  end.

Definition is_none (v : json) : bool :=
  match v with JNull => true | _ => false end.
Definition is_str (v : json) : bool :=
  match v with JStr _ => true | _ => false end.
Definition is_bool (v : json) : bool :=
  match v with JBool _ => true | _ => false end.
Definition is_list (v : json) : bool :=
  match v with JList _ => true | _ => false end.
Definition is_dict (v : json) : bool :=
  match v with JDict _ => true | _ => false end.
(** [isinstance(v, (int, float))]; [bool] is a subclass of [int]. *)
Definition is_number (v : json) : bool :=
  match v with JInt _ | JFloat _ _ | JBool _ => true | _ => false end.

(** Lists and dicts cannot be hashed, so they cannot be looked up as
    keys of a [dict]: [v in d] raises TypeError for them. *)
Definition hashable (v : json) : bool :=
  match v with JList _ | JDict _ => false | _ => true end.

(** [len(v)]; numbers, booleans and None have no length. *)
Definition len (v : json) : exc Z :=
  match v with
  | JStr s => Returned (Z.of_nat (String.length s))
  | JList l => Returned (Z.of_nat (length l))
  | JDict d => Returned (Z.of_nat (length d))
  | _ => Raised TypeError
  end.

(** [d.get(k)] as an option, [k in d], [d.get(k, default)] and
    [d[k] = v]. *)
Fixpoint get (k : string) (d : dict) : option json :=
  match d with
  | [] => None
  | (k', v) :: d' => if String.eqb k k' then Some v else get k d'
  end.

Definition mem (k : string) (d : dict) : bool :=
  match get k d with Some _ => true | None => false end.

Definition get_or (k : string) (default : json) (d : dict) : json :=
  match get k d with Some v => v | None => default end.

Fixpoint set (k : string) (v : json) (d : dict) : dict :=
  match d with
  | [] => [(k, v)]
  | (k', v') :: d' =>
      if String.eqb k k' then (k, v) :: d' else (k', v') :: set k v d'
  end.

(** Comparison of an integer with a number: [n >= v] and [v > 0].
    Anything but a number on the right raises TypeError. *)
Definition int_ge (n : Z) (v : json) : exc bool :=
  match v with
  | JInt t => Returned (t <=? n)%Z
  | JBool b => Returned ((if b then 1 else 0) <=? n)%Z
  | JFloat m e =>
      Returned (if (0 <=? e)%Z then (m * 10 ^ e <=? n)%Z
                else (m <=? n * 10 ^ (- e))%Z)
  | _ => Raised TypeError
  end.

Definition gt_zero (v : json) : exc bool :=
  match v with
  | JInt t => Returned (0 <? t)%Z
  | JBool b => Returned b
  | JFloat m _ => Returned (0 <? m)%Z
  | _ => Raised TypeError
  end.

(** *** [str(v)]

    Exact on None, booleans, integers and strings.  A float prints as
    the plain decimal expansion of its literal (Python switches to
    exponent notation for very large and very small magnitudes), and
    strings nested in lists and dicts are quoted without escapes. *)
Definition float_str (m e : Z) : string :=
  if (0 <=? e)%Z then pretty (m * 10 ^ e)%Z +:+ ".0"
  else
    let scale := (10 ^ (- e))%Z in
    let a := Z.abs m in
    let frac := pretty (a mod scale)%Z in
    let pad := String.concat ""
                 (replicate (Z.to_nat (- e) - String.length frac) "0") in
    (if (m <? 0)%Z then "-" else "") +:+ pretty (a / scale)%Z
      +:+ "." +:+ pad +:+ frac.

Fixpoint repr (v : json) : string :=
  match v with
  | JNull => "None"
  | JBool b => if b then "True" else "False"
  | JInt n => pretty n
  | JFloat m e => float_str m e
  | JStr s => "'" +:+ s +:+ "'"
  | JList l => "[" +:+ String.concat ", " (map repr l) +:+ "]"
  | JDict d =>
      "{" +:+ String.concat ", "
                (map (fun kv => "'" +:+ fst kv +:+ "': " +:+ repr (snd kv)) d)
          +:+ "}"
  end.

Definition str (v : json) : string :=
  match v with
  | JStr s => s
  | _ => repr v
  end.

(** *** [int(s)] on a string

    Surrounding ASCII whitespace is dropped, one sign is allowed, then
    decimal digits, with single underscores allowed between digits.
    Anything else raises ValueError. *)
Definition is_space (c : Ascii.ascii) : bool :=
  let n := Ascii.nat_of_ascii c in
  (n =? 32) || ((9 <=? n) && (n <=? 13)) || ((28 <=? n) && (n <=? 31)).

Definition digit_of (c : Ascii.ascii) : option Z :=
  let n := Ascii.nat_of_ascii c in
  if (48 <=? n) && (n <=? 57) then Some (Z.of_nat (n - 48)) else None.

Fixpoint lstrip (s : string) : string :=
  match s with
  | String c s' => if is_space c then lstrip s' else s
  | EmptyString => s
  end.

Fixpoint rstrip (s : string) : string :=
  match s with
  | String c s' =>
      match rstrip s' with
      | EmptyString => if is_space c then EmptyString else String c EmptyString
      | r => String c r
      end
  | EmptyString => s
  end.

Definition strip (s : string) : string := rstrip (lstrip s).

Inductive scan := AtStart | AfterDigit | AfterUnderscore.

Fixpoint digits (st : scan) (acc : Z) (s : string) : option Z :=
  match s with
  | EmptyString =>
      match st with AfterDigit => Some acc | _ => None end
  | String c s' =>
      match digit_of c with
      | Some d => digits AfterDigit (10 * acc + d)%Z s'
      | None =>
          if Ascii.eqb c "_"%char then
            match st with
            | AfterDigit => digits AfterUnderscore acc s'
            | _ => None
            end
          else None
      end
  end.

Definition int_of_str (s : string) : exc Z :=
  let body := strip s in
  let '(neg, rest) :=
    match body with
    | String "-"%char r => (true, r)
    | String "+"%char r => (false, r)
    | _ => (false, body)
    end in
  match digits AtStart 0 rest with
  | Some n => Returned (if neg then (- n)%Z else n)
  | None => Raised ValueError
  end.

(** ASCII lower-casing, for case-insensitive header names. *)
Definition lower_char (c : Ascii.ascii) : Ascii.ascii :=
  let n := Ascii.nat_of_ascii c in
  if (65 <=? n) && (n <=? 90) then Ascii.ascii_of_nat (n + 32) else c.

Fixpoint lower (s : string) : string :=
  match s with
  | EmptyString => EmptyString
  | String c s' => String (lower_char c) (lower s')
  end.

End Py.

(** ** client.py: the resource fetcher *)

Module Client.

Definition PAGE_SIZE : Z := 100.
Definition RETRY_DELAY : Z := 60.

(** *** Mock data *)

Definition MOCK_USERS : dict :=
  [ ("john", JDict [("email", JStr "john.doe@company.com");
                    ("username", JStr "johndoe")]);
    ("jane", JDict [("email", JStr "jane.smith@company.com");
                    ("username", JStr "janesmith")]);
    ("bob", JDict [("email", JStr "bob.wilson@company.com");
                   ("username", JStr "bobwilson")]) ].

Definition mock_user (name : string) : json := Py.get_or name JNull MOCK_USERS.

Definition _get_mock_projects : list json :=
  [ JDict [ ("id", JInt 1);
            ("name", JStr "E-Commerce Platform");
            ("status", JStr "Active");
            ("description",
              JStr "Main e-commerce platform with microservices architecture");
            ("owner", mock_user "john");
            ("budget", JInt 500000);
            ("start_date", JStr "2024-01-15");
            ("end_date", JStr "2024-12-31");
            ("tags", JList [JStr "microservices"; JStr "e-commerce";
                            JStr "critical"]);
            ("azure_devops",
              JDict [("project_name", JStr "ECommercePlatform")]) ];
    JDict [ ("id", JInt 2);
            ("name", JStr "Data Analytics Pipeline");
            ("status", JStr "Planning");
            ("description",
              JStr "Real-time data analytics and reporting system");
            ("owner", mock_user "jane");
            ("budget", JInt 250000);
            ("start_date", JStr "2024-03-01");
            ("end_date", JStr "2024-08-31");
            ("tags", JList [JStr "analytics"; JStr "pipeline"; JStr "data"]);
            ("azure_devops",
              JDict [("project_name", JStr "DataAnalytics")]) ] ].

(** [current_time] stands for [datetime.now().isoformat()]. *)
Definition mock_service (id : Z) (name status health version repo language : string)
    (cpu memory : json) (current_time pipeline : string) (project_id : Z) : json :=
  JDict [ ("id", JInt id);
          ("name", JStr name);
          ("status", JStr status);
          ("health_status", JStr health);
          ("version", JStr version);
          ("repository", JDict [("url", JStr repo)]);
          ("language", JStr language);
          ("metrics", JDict [("cpu_usage", cpu); ("memory_usage_mb", memory)]);
          ("last_deployment", JDict [("timestamp", JStr current_time)]);
          ("azure_devops", JDict [("pipeline_name", JStr pipeline)]);
          ("project_id", JInt project_id) ].

Definition _get_mock_services (current_time : string) : list json :=
  [ mock_service 101 "User Authentication Service" "Running" "Healthy" "v2.1.3"
      "https://github.com/company/auth-service" "Python"
      (JFloat 452 (-1)) (JInt 512) current_time "auth-service-ci-cd" 1;
    mock_service 102 "Payment Processing Service" "Running" "Healthy" "v1.8.1"
      "https://github.com/company/payment-service" "Java"
      (JFloat 321 (-1)) (JInt 768) current_time "payment-service-ci-cd" 1;
    mock_service 103 "Analytics Ingestion Service" "Deploying" "Unknown"
      "v0.5.2-beta" "https://github.com/company/analytics-ingest" "Go"
      (JInt 0) (JInt 0) current_time "analytics-ingest-ci-cd" 2 ].

Definition mock_component (id : Z) (name type description user complexity : string)
    (test_coverage : json) (service_id : Z) : json :=
  JDict [ ("id", JInt id);
          ("name", JStr name);
          ("type", JStr type);
          ("status", JStr "Active");
          ("description", JStr description);
          ("maintainer", mock_user user);
          ("complexity", JStr complexity);
          ("test_coverage", test_coverage);
          ("service_id", JInt service_id) ].

Definition _get_mock_components : list json :=
  [ mock_component 201 "JWT Token Manager" "Library"
      "Handles JWT token generation and validation" "john" "Medium"
      (JFloat 855 (-1)) 101;
    mock_component 202 "User Database" "Database"
      "PostgreSQL database for user data" "jane" "Low"
      (JFloat 920 (-1)) 101;
    mock_component 203 "Payment Gateway API" "API"
      "REST API for payment processing" "bob" "High"
      (JFloat 783 (-1)) 102 ].

Definition mock_deployment (id : Z) (service_name status environment version user
    current_time : string) (duration : Z) (run_id logs : string) (service_id : Z)
    : json :=
  JDict [ ("id", JInt id);
          ("service_name", JStr service_name);
          ("status", JStr status);
          ("environment", JStr environment);
          ("version", JStr version);
          ("deployed_by", mock_user user);
          ("deployment_time", JStr current_time);
          ("duration_seconds", JInt duration);
          ("azure_devops", JDict [("run_id", JStr run_id)]);
          ("logs", JStr logs);
          ("service_id", JInt service_id) ].

Definition _get_mock_deployments (current_time : string) : list json :=
  [ mock_deployment 301 "User Authentication Service" "Success" "Production"
      "v2.1.3" "john" current_time 180 "20241005.1"
      "```
Deployment successful
All health checks passed
Service is running
```" 101;
    mock_deployment 302 "Payment Processing Service" "Success" "Production"
      "v1.8.1" "jane" current_time 240 "20241005.2"
      "```
Deployment completed
Database migration successful
All tests passed
```" 102;
    mock_deployment 303 "Analytics Ingestion Service" "In Progress" "Staging"
      "v0.5.2-beta" "bob" current_time 0 "20241005.3"
      "```
Deployment in progress...
Building container image...
```" 103 ].

Definition _get_mock_data_for_endpoint (current_time endpoint : string) : json :=
  if String.prefix "projects" endpoint then
    JDict [("data", JList _get_mock_projects)]
  else if String.prefix "services" endpoint then
    JDict [("data", JList (_get_mock_services current_time))]
  else if String.prefix "components" endpoint then
    JDict [("data", JList _get_mock_components)]
  else if String.prefix "deployments" endpoint then
    JDict [("data", JList (_get_mock_deployments current_time))]
  else JDict [("data", JList [])].

(** *** The HTTP transport

    What one [self.client.request(...)] followed by
    [raise_for_status()] and [response.json()] can do. *)

Record request : Type := {
  req_method : string;
  req_url : string;
  req_params : option dict;
  req_json : option json }.

Inductive outcome : Type :=
| Ok (body : json)
    (* the status is a success and the body decodes to [body] *)
| Undecodable
    (* the status is a success and response.json() raises *)
| HTTPStatusError (status_code : Z) (headers : list (string * string))
    (* raise_for_status() raises *)
| TransportFailure.
    (* the request itself raises: timeout, refused connection, ... *)

(** [headers.get(name, default)]: header names compare without case, and
    the values of a repeated header are joined with a comma. *)
Definition headers_get (name default : string) (headers : list (string * string))
    : string :=
  match filter (fun kv => String.eqb (Py.lower (fst kv)) (Py.lower name) = true)
               headers with
  | [] => default
  | found => String.concat ", " (map snd found)
  end.

Inductive event : Type :=
| Sent (r : request)
| Slept (seconds : Z).

(** What a call of [_send_api_request] comes to. *)
Inductive reply : Type :=
| Reply (body : json)
| Failure (e : exn)
| Retrying.   (* the fuel ran out while the request was still being retried *)

Record CargAPIClient : Type := {
  base_url : string;
  api_token : string }.

Definition configured (self : CargAPIClient) : bool :=
  negb (String.eqb (base_url self) "") && negb (String.eqb (api_token self) "").

(** The request that [self.client.request(method=..., url=..., params=...,
    json=...)] sends. *)
Definition request_of (self : CargAPIClient) (method endpoint : string)
    (params : option dict) (json_data : option json) : request :=
  {| req_method := method;
     req_url := base_url self +:+ "/api/v1/" +:+ endpoint;
     req_params := params; req_json := json_data |}.

Section Remote.

(** The remote system: a state, the answer it gives to a request in a
    state, and the wall clock read by the mock data. *)
Context {world : Type}.
Variable respond : world -> request -> outcome * world.
Variable clock : world -> string.

(** The [async with self._semaphore] gate only bounds the number of
    requests in flight; one task runs here, so it is transparent. *)
Fixpoint _send_api_request (fuel : nat) (self : CargAPIClient)
    (method endpoint : string) (params : option dict) (json_data : option json)
    (w : world) : reply * world * list event :=
  if negb (configured self) then
    (Reply (_get_mock_data_for_endpoint (clock w) endpoint), w, [])
  else
    match fuel with
    | O => (Retrying, w, [])
    | S fuel' =>
        let r := request_of self method endpoint params json_data in
        let '(out, w1) := respond w r in
        match out with
        | Ok body => (Reply body, w1, [Sent r])
        | HTTPStatusError status_code headers =>
            if (status_code =? 429)%Z then
              match Py.int_of_str
                      (headers_get "Retry-After" (pretty RETRY_DELAY) headers) with
              | Raised e => (Failure e, w1, [Sent r])
              | Returned retry_after =>
                  let '(res, w2, evs) :=
                    _send_api_request fuel' self method endpoint params json_data w1 in
                  (res, w2, Sent r :: Slept retry_after :: evs)
              end
            else
              (Reply (_get_mock_data_for_endpoint (clock w1) endpoint), w1, [Sent r])
        | Undecodable | TransportFailure =>
            (Reply (_get_mock_data_for_endpoint (clock w1) endpoint), w1, [Sent r])
        end
    end.

(** *** Pagination *)

(** How a run of the generator ends. *)
Inductive ending : Type :=
| Exhausted                (* the loop was left by [break] *)
| Propagated (e : exn)     (* an exception left the generator *)
| Unfinished.              (* the fuel ran out *)

Record run : Type := {
  pages : list json;        (* the values yielded, in order *)
  ended : ending;
  events : list event;      (* requests sent and sleeps, in order *)
  final_world : world;
  final_params : dict }.    (* the caller's [params] dict, as mutated *)

(** "Handle different response structures": items, total, has_more. *)
Definition read_response (response : json) : json * json * json :=
  match response with
  | JDict d =>
      (Py.get_or "data" (Py.get_or "items" (JList []) d) d,
       Py.get_or "total" (JInt 0) d,
       Py.get_or "hasMore" (JBool false) d)
  | JList l => (response, JInt (Z.of_nat (length l)), JBool false)
  | _ => (JList [], JInt 0, JBool false)
  end.

(** [params["skip"]] as the integer the loop itself stored there. *)
Definition skip_of (params : dict) : exc Z :=
  match Py.get "skip" params with
  | Some (JInt n) => Returned n
  | Some _ => Raised TypeError
  | None => Raised KeyError
  end.

(** "Check if we have more pages": [true] when the loop breaks after
    the page it has just yielded. *)
Definition last_page (page_size : Z) (params : dict) (items total has_more : json)
    : exc bool :=
  final ← (if Py.truthy has_more then Returned false else Py.gt_zero total);
  if (final : bool) then
    skip ← skip_of params;
    n ← Py.len items;
    Py.int_ge (skip + n) total
  else
    n ← Py.len items;
    Returned (n <? page_size)%Z.

Definition cons_page (items : json) (evs : list event) (r : run) : run :=
  {| pages := items :: pages r; ended := ended r;
     events := evs ++ events r;
     final_world := final_world r; final_params := final_params r |}.

(** The [while True] loop, from the current [params]. *)
Fixpoint fetch_loop (page_size : Z) (fuel : nat) (self : CargAPIClient)
    (endpoint : string) (params : dict) (w : world) : run :=
  match fuel with
  | O => {| pages := []; ended := Unfinished; events := [];
            final_world := w; final_params := params |}
  | S fuel' =>
      let '(res, w1, evs) :=
        _send_api_request fuel self "GET" endpoint (Some params) None w in
      let stop e := {| pages := []; ended := e; events := evs;
                       final_world := w1; final_params := params |} in
      match res with
      | Retrying => stop Unfinished
      | Failure e => stop (Propagated e)
      | Reply response =>
          let '(items, total, has_more) := read_response response in
          if negb (Py.truthy items) then stop Exhausted
          else
            match last_page page_size params items total has_more with
            | Raised e => cons_page items [] (stop (Propagated e))
            | Returned true => cons_page items [] (stop Exhausted)
            | Returned false =>
                match skip_of params with
                | Raised e => cons_page items [] (stop (Propagated e))
                | Returned skip =>
                    cons_page items evs
                      (fetch_loop page_size fuel' self endpoint
                         (Py.set "skip" (JInt (skip + page_size)) params) w1)
                end
            end
      end
  end.

(** [get_paginated_resources], for a page size [page_size]. *)
Definition get_paginated_resources_sized (page_size : Z) (fuel : nat)
    (self : CargAPIClient) (resource_kind : string) (params : option dict)
    (endpoint_override : option string) (w : world) : run :=
  let endpoint :=
    match endpoint_override with
    | Some e => if String.eqb e "" then resource_kind +:+ "s" else e
    | None => resource_kind +:+ "s"
    end in
  let params := match params with Some p => p | None => [] end in
  let params := Py.set "skip" (JInt 0) params in
  let params := Py.set "take" (JInt page_size) params in
  fetch_loop page_size fuel self endpoint params w.

(** The generator of the source: the page size is [PAGE_SIZE]. *)
Definition get_paginated_resources :=
  get_paginated_resources_sized PAGE_SIZE.

End Remote.

(** *** A remote that serves a finite data set page by page

    The collaborator of the specification: it answers [skip]/[take]
    with that slice of its data set, in a mapping that holds the items
    under [data] or [items] and, depending on the deployment, the
    [total] count and the [hasMore] flag. *)

Inductive items_field := UnderData | UnderItems.

Record api_style : Type := {
  items_under : items_field;
  with_total : bool;
  with_hasMore : bool }.

Definition int_param (k : string) (r : request) : Z :=
  match req_params r with
  | Some d => match Py.get k d with Some (JInt n) => n | _ => 0%Z end
  | None => 0%Z
  end.

Definition slice (db : list json) (skip take_n : Z) : list json :=
  take (Z.to_nat take_n) (drop (Z.to_nat skip) db).

Definition page_body (style : api_style) (db : list json) (skip take_n : Z) : json :=
  JDict
    ((match items_under style with UnderData => "data" | UnderItems => "items" end,
      JList (slice db skip take_n))
     :: (if with_total style then [("total", JInt (Z.of_nat (length db)))] else [])
     ++ (if with_hasMore style
         then [("hasMore", JBool (skip + take_n <? Z.of_nat (length db))%Z)]
         else [])).

Definition paged_remote (style : api_style) (db : list json)
    : unit -> request -> outcome * unit :=
  fun _ r => (Ok (page_body style db (int_param "skip" r) (int_param "take" r)), tt).

(** The stop rule in the words of the specification: after a page, stop
    when hasMore is false, total > 0 and offset + len(items) >= total, or
    when the batch is smaller than the page size; otherwise go on. *)
Definition stop_rule (page_size offset batch total : Z) (has_more : bool) : bool :=
  (negb has_more && (0 <? total)%Z && (total <=? offset + batch)%Z)
  || (batch <? page_size)%Z.

(** The [skip] offsets of the requests sent during a run. *)
Definition sent_skips (evs : list event) : list Z :=
  flat_map (fun ev => match ev with
                      | Sent r => [int_param "skip" r]
                      | Slept _ => []
                      end) evs.

(** The items of all pages, in order. *)
Definition page_items (pages : list json) : list json :=
  flat_map (fun page => match page with JList l => l | _ => [] end) pages.

(** [n] offsets from [k] on, [page_size] apart. *)
Definition offsets (page_size k : Z) (n : nat) : list Z :=
  map (fun i => (k + Z.of_nat i * page_size)%Z) (seq 0 n).

(** [l] cut into consecutive pieces of [size] elements, the last one
    possibly shorter. *)
Fixpoint chunks_fuel {A} (n size : nat) (l : list A) : list (list A) :=
  match n with
  | O => []
  | S n' =>
      match l with
      | [] => []
      | _ => take size l :: chunks_fuel n' size (drop size l)
      end
  end.

Definition chunks {A} (size : nat) (l : list A) : list (list A) :=
  chunks_fuel (length l) size l.

(** A remote that plays a fixed script of outcomes, then keeps
    answering with [rest]. *)
Definition scripted (rest : outcome) : list outcome -> request -> outcome * list outcome :=
  fun script _ =>
    match script with
    | [] => (rest, [])
    | o :: script' => (o, script')
    end.

End Client.

(** ** extract_port_simple.py: the expression mapping *)

Module ExpressionMapping.

Section Jq.

(** The jq binding is an external library.  [jq_first program item]
    stands for [jq.compile(program).input(item).first()]: [Some v] is
    the first output (JSON null arrives as [JNull], Python's None),
    [None] means that the call raised: the program does not compile,
    its evaluation fails, or it has no output. *)
Variable jq_first : string -> json -> option json.

(** A mapping entry that is not a string cannot be compiled. *)
Definition evaluate (expr : json) (item : json) : option json :=
  match expr with
  | JStr program => jq_first program item
  | _ => None
  end.

(** The loop over [jq_expr.items()] that fills [relations]. *)
Fixpoint transform_relations (rels : dict) (item : json) (relations : dict) : dict :=
  match rels with
  | [] => relations
  | (rel_name, rel_expr) :: rest =>
      let relations :=
        match evaluate rel_expr item with
        | Some value =>
            if Py.is_none value then relations
            else Py.set rel_name value relations
        | None => relations          (* except Exception: pass *)
        end in
      transform_relations rest item relations
  end.

(** The loop over [mappings.items()] that fills [result].  The
    relations entry is iterated outside of any [try]: when it is not a
    mapping, [jq_expr.items()] raises AttributeError. *)
Fixpoint transform_fields (mappings : dict) (item : json) (result : dict)
    : exc dict :=
  match mappings with
  | [] => Returned result
  | (field, jq_expr) :: rest =>
      if String.eqb field "relations" then
        match jq_expr with
        | JDict rels =>
            let relations := transform_relations rels item [] in
            transform_fields rest item
              (if Py.truthy (JDict relations)
               then Py.set field (JDict relations) result
               else result)
        | _ => Raised AttributeError
        end
      else
        let result :=
          match evaluate jq_expr item with
          | Some value =>
              if Py.is_none value then result
              else Py.set field value result
          | None => result           (* except Exception: pass *)
          end in
        transform_fields rest item result
  end.

Definition _transform_item (item : json) (mappings : dict) : exc dict :=
  transform_fields mappings item [].

(** What one expression contributes: its first output unless that is
    null; nothing when it yields null or its evaluation raises. *)
Definition yielded (expr : json) (item : json) : option json :=
  match evaluate expr item with
  | Some value => if Py.is_none value then None else Some value
  | None => None
  end.

(** What one entry of the mapping contributes to the result. *)
Definition field_value (field : string) (expr : json) (item : json) : option json :=
  if String.eqb field "relations" then
    match expr with
    | JDict rels =>
        let relations := transform_relations rels item [] in
        if Py.truthy (JDict relations) then Some (JDict relations) else None
    | _ => None
    end
  else yielded expr item.

End Jq.

(** A small evaluator for the jq programs that are paths of field
    names, [.] and [.a.b.c]: a missing field and a field of null give
    null, a field of anything but an object or null fails, and any
    other program is refused.  It is the part of jq that a
    configuration of plain field lookups relies on. *)
Fixpoint split_path (acc : string) (s : string) : list string :=
  match s with
  | EmptyString => [acc]
  | String c s' =>
      if Ascii.eqb c "."%char then acc :: split_path "" s'
      else split_path (acc +:+ String c EmptyString) s'
  end.

Definition name_char (c : Ascii.ascii) : bool :=
  let n := Ascii.nat_of_ascii c in
  ((48 <=? n) && (n <=? 57)) || ((65 <=? n) && (n <=? 90))
  || ((97 <=? n) && (n <=? 122)) || (n =? 95).

Fixpoint is_name (started : bool) (s : string) : bool :=
  match s with
  | EmptyString => started
  | String c s' => name_char c && is_name true s'
  end.

Fixpoint follow (path : list string) (v : json) : option json :=
  match path with
  | [] => Some v
  | name :: path' =>
      match v with
      | JDict d => follow path' (Py.get_or name JNull d)
      | JNull => follow path' JNull
      | _ => None
      end
  end.

Definition jq_paths (program : string) (item : json) : option json :=
  match program with
  | String "."%char rest =>
      if String.eqb rest "" then Some item
      else
        let names := split_path "" rest in
        if forallb (is_name false) names
        then follow names item else None
  | _ => None
  end.

End ExpressionMapping.

(** ** extract_port_json.py: the direct mapping *)

Module DirectMapping.

(** [v.get(k)] on a value that should be a dict. *)
Definition dot_get (k : string) (v : json) : exc json :=
  match v with
  | JDict d => Returned (Py.get_or k JNull d)
  | _ => Raised AttributeError
  end.

(** [item.get(outer, {}).get(inner)] *)
Definition nested (outer inner : string) (item : dict) : exc json :=
  dot_get inner (Py.get_or outer (JDict []) item).

(** [item.get(outer, {}).get(first) or item.get(outer, {}).get(second)] *)
Definition nested_or (outer first second : string) (item : dict) : exc json :=
  a ← nested outer first item;
  if Py.truthy a then Returned a else nested outer second item.

Definition get (k : string) (item : dict) : json := Py.get_or k JNull item.

Definition _transform_project (project : dict) : exc dict :=
  owner ← nested_or "owner" "email" "username" project;
  azure ← nested "azure_devops" "project_name" project;
  Returned
    [ ("identifier", JStr (Py.str (Py.get_or "id" (JStr "") project)));
      ("title", Py.get_or "name" (JStr "") project);
      ("blueprint", JStr "cargProject");
      ("properties",
        JDict [ ("status", get "status" project);
                ("description", get "description" project);
                ("owner", owner);
                ("budget", get "budget" project);
                ("startDate", get "start_date" project);
                ("endDate", get "end_date" project);
                ("tags", Py.get_or "tags" (JList []) project);
                ("azureDevOpsProject", azure) ]) ].

Definition _transform_service (service : dict) : exc dict :=
  repository ← nested "repository" "url" service;
  cpu ← nested "metrics" "cpu_usage" service;
  memory ← nested "metrics" "memory_usage_mb" service;
  last ← nested "last_deployment" "timestamp" service;
  pipeline ← nested "azure_devops" "pipeline_name" service;
  Returned
    [ ("identifier", JStr (Py.str (Py.get_or "id" (JStr "") service)));
      ("title", Py.get_or "name" (JStr "") service);
      ("blueprint", JStr "cargService");
      ("properties",
        JDict [ ("status", get "status" service);
                ("healthStatus", Py.get_or "health_status" (JStr "Unknown") service);
                ("version", get "version" service);
                ("repository", repository);
                ("language", get "language" service);
                ("cpu", cpu);
                ("memory", memory);
                ("lastDeployment", last);
                ("azurePipeline", pipeline) ]);
      ("relations",
        JDict [ ("project",
                 JStr (Py.str (Py.get_or "project_id" (JStr "") service))) ]) ].

Definition _transform_component (component : dict) : exc dict :=
  maintainer ← nested_or "maintainer" "email" "username" component;
  Returned
    [ ("identifier", JStr (Py.str (Py.get_or "id" (JStr "") component)));
      ("title", Py.get_or "name" (JStr "") component);
      ("blueprint", JStr "cargComponent");
      ("properties",
        JDict [ ("type", get "type" component);
                ("status", get "status" component);
                ("description", get "description" component);
                ("maintainer", maintainer);
                ("complexity", get "complexity" component);
                ("testCoverage", get "test_coverage" component) ]);
      ("relations",
        JDict [ ("service",
                 JStr (Py.str (Py.get_or "service_id" (JStr "") component))) ]) ].

Definition _transform_deployment (deployment : dict) : exc dict :=
  let service_name := Py.get_or "service_name" (JStr "") deployment in
  let environment := Py.get_or "environment" (JStr "") deployment in
  let version := Py.get_or "version" (JStr "") deployment in
  let title := Py.str service_name +:+ " - " +:+ Py.str environment
                 +:+ " - " +:+ Py.str version in
  deployed_by ← nested_or "deployed_by" "email" "username" deployment;
  run_id ← nested "azure_devops" "run_id" deployment;
  Returned
    [ ("identifier", JStr (Py.str (Py.get_or "id" (JStr "") deployment)));
      ("title", JStr title);
      ("blueprint", JStr "cargDeployment");
      ("properties",
        JDict [ ("status", get "status" deployment);
                ("environment", get "environment" deployment);
                ("version", get "version" deployment);
                ("deployedBy", deployed_by);
                ("deploymentTime", get "deployment_time" deployment);
                ("duration", get "duration_seconds" deployment);
                ("azurePipelineRun", run_id);
                ("logs", get "logs" deployment) ]);
      ("relations",
        JDict [ ("service",
                 JStr (Py.str (Py.get_or "service_id" (JStr "") deployment))) ]) ].

(** [obj["relations"]["project"]], when there is one. *)
Definition project_relation (obj : dict) : option json :=
  match Py.get "relations" obj with
  | Some (JDict rels) => Py.get "project" rels
  | _ => None
  end.

(** The rule of the specification for a missing source, on the direct
    mapping: a service without [project_id] maps to an object without
    [relations.project]. *)
Definition omits_missing_project (transform : dict -> exc dict) : Prop :=
  forall service obj,
    Py.get "project_id" service = None ->
    transform service = Returned obj ->
    project_relation obj = None.

(** The four resource kinds and their transform. *)
Inductive kind := Project | Service | Component | Deployment.

Definition transform (k : kind) : dict -> exc dict :=
  match k with
  | Project => _transform_project
  | Service => _transform_service
  | Component => _transform_component
  | Deployment => _transform_deployment
  end.

Definition blueprint_of (k : kind) : string :=
  match k with
  | Project => "cargProject"
  | Service => "cargService"
  | Component => "cargComponent"
  | Deployment => "cargDeployment"
  end.

End DirectMapping.

(** ** Blueprints *)

(** Modelled from the spec: the blueprint registry is read from
    .port/resources/blueprints.json, which is not part of the sources.  A
    BlueprintSchema is "identifier: string, schema.properties:
    mapping<name, {type}>, relations: set<name>"; the schema and the
    relation set are optional because the code tests for their presence,
    and so is the type of one property, read with [.get("type")]. *)
Record blueprint : Type := {
  bp_identifier : string;
  bp_schema_properties : option (list (string * option string));
  bp_relations : option (list string) }.

(** ** validate_port_objects.py: PortObjectValidator *)

Module Validator.

Record kind_results : Type := {
  count : nat;
  valid_objects : nat;
  errors : list string;
  warnings : list string }.

Record results : Type := {
  valid : bool;
  total_objects : nat;
  validation_errors : list string;
  validation_warnings : list string;
  summary : list (string * kind_results) }.

(** [summary[kind] = kind_results] *)
Fixpoint summary_set (kind : string) (kr : kind_results)
    (s : list (string * kind_results)) : list (string * kind_results) :=
  match s with
  | [] => [(kind, kr)]
  | (k, v) :: s' =>
      if String.eqb kind k then (kind, kr) :: s' else (k, v) :: summary_set kind kr s'
  end.

Definition required_fields : list string := ["identifier"; "title"; "blueprint"].

Definition missing_or_empty (obj_id field : string) : string :=
  obj_id +:+ ": Missing or empty required field '" +:+ field +:+ "'".
Definition unknown_blueprint (obj_id : string) (name : json) : string :=
  obj_id +:+ ": Unknown blueprint '" +:+ Py.str name +:+ "'".
Definition identifier_not_string (obj_id : string) (identifier : json) : string :=
  obj_id +:+ ": Identifier must be string, got " +:+ Py.type_name identifier.
Definition properties_not_dict (obj_id : string) : string :=
  obj_id +:+ ": Properties must be a dictionary".
Definition property_null (obj_id prop_name : string) : string :=
  obj_id +:+ ": Property '" +:+ prop_name +:+ "' is null".
Definition relations_not_dict (obj_id : string) : string :=
  obj_id +:+ ": Relations must be a dictionary".
Definition relation_not_string (obj_id rel_name : string) : string :=
  obj_id +:+ ": Relation '" +:+ rel_name +:+ "' must be string identifier".

Section Registry.

(** [self.blueprints], keyed by blueprint identifier. *)
Variable blueprints : list blueprint.

Definition known (name : string) : bool :=
  bool_decide (name ∈ map bp_identifier blueprints).

(** "Check required fields" *)
Definition check_required (obj : dict) (obj_id : string) : list string :=
  flat_map
    (fun field =>
       if negb (Py.mem field obj) || negb (Py.truthy (Py.get_or field JNull obj))
       then [missing_or_empty obj_id field] else [])
    required_fields.

(** "Validate blueprint exists".  The registry keys are strings, so a
    name of another hashable type is never found; a list or a dict
    cannot be hashed and the membership test raises. *)
Definition check_blueprint (obj : dict) (obj_id : string) : exc (list string) :=
  let blueprint_name := Py.get_or "blueprint" JNull obj in
  if Py.truthy blueprint_name then
    match blueprint_name with
    | JStr name =>
        Returned (if known name then [] else [unknown_blueprint obj_id blueprint_name])
    | JList _ | JDict _ => Raised TypeError
    | _ => Returned [unknown_blueprint obj_id blueprint_name]
    end
  else Returned [].

(** "Validate identifier format" *)
Definition check_identifier (obj : dict) (obj_id : string) : list string :=
  let identifier := Py.get_or "identifier" JNull obj in
  if Py.truthy identifier && negb (Py.is_str identifier)
  then [identifier_not_string obj_id identifier] else [].

(** "Check properties structure": errors, then warnings. *)
Definition check_properties (obj : dict) (obj_id : string)
    : list string * list string :=
  match Py.get "properties" obj with
  | None => ([], [])
  | Some (JDict props) =>
      ([], flat_map
             (fun kv => if Py.is_none (snd kv)
                        then [property_null obj_id (fst kv)] else [])
             props)
  | Some _ => ([properties_not_dict obj_id], [])
  end.

(** "Check relations structure" *)
Definition check_relations (obj : dict) (obj_id : string) : list string :=
  match Py.get "relations" obj with
  | None => []
  | Some (JDict rels) =>
      flat_map
        (fun kv => if Py.is_str (snd kv) then []
                   else [relation_not_string obj_id (fst kv)])
        rels
  | Some _ => [relations_not_dict obj_id]
  end.

Definition _validate_single_object (obj : dict) (obj_id : string)
    : exc (list string * list string) :=
  let errors := check_required obj obj_id in
  unknown ← check_blueprint obj obj_id;
  let errors := errors ++ unknown in
  let errors := errors ++ check_identifier obj obj_id in
  let '(perrors, warnings) := check_properties obj obj_id in
  let errors := errors ++ perrors in
  let errors := errors ++ check_relations obj obj_id in
  Returned (errors, warnings).

Definition obj_id_of (kind : string) (i : nat) : string :=
  kind +:+ "[" +:+ pretty i +:+ "]".

(** The inner loop, [for i, obj in enumerate(objects)], from index [i]. *)
Fixpoint validate_objects (kind : string) (i : nat) (objects : list dict)
    (kr : kind_results) (res : results) : exc (kind_results * results) :=
  match objects with
  | [] => Returned (kr, res)
  | obj :: rest =>
      '(obj_errors, obj_warnings) ← _validate_single_object obj (obj_id_of kind i);
      let '(kr, res) :=
        match obj_errors with
        | _ :: _ =>
            ({| count := count kr; valid_objects := valid_objects kr;
                errors := errors kr ++ obj_errors; warnings := warnings kr |},
             {| valid := false; total_objects := total_objects res;
                validation_errors := validation_errors res ++ obj_errors;
                validation_warnings := validation_warnings res;
                summary := summary res |})
        | [] =>
            ({| count := count kr; valid_objects := valid_objects kr + 1;
                errors := errors kr; warnings := warnings kr |}, res)
        end in
      let '(kr, res) :=
        match obj_warnings with
        | _ :: _ =>
            ({| count := count kr; valid_objects := valid_objects kr;
                errors := errors kr; warnings := warnings kr ++ obj_warnings |},
             {| valid := valid res; total_objects := total_objects res;
                validation_errors := validation_errors res;
                validation_warnings := validation_warnings res ++ obj_warnings;
                summary := summary res |})
        | [] => (kr, res)
        end in
      validate_objects kind (S i) rest kr res
  end.

(** The outer loop, [for kind, objects in port_objects.items()]. *)
Fixpoint validate_kinds (port_objects : list (string * list dict)) (res : results)
    : exc results :=
  match port_objects with
  | [] => Returned res
  | (kind, objects) :: rest =>
      let kr := {| count := length objects; valid_objects := 0;
                   errors := []; warnings := [] |} in
      '(kr, res) ← validate_objects kind 0 objects kr res;
      validate_kinds rest
        {| valid := valid res;
           total_objects := total_objects res + length objects;
           validation_errors := validation_errors res;
           validation_warnings := validation_warnings res;
           summary := summary_set kind kr (summary res) |}
  end.

Definition validate_port_objects (port_objects : list (string * list dict))
    : exc results :=
  validate_kinds port_objects
    {| valid := true; total_objects := 0; validation_errors := [];
       validation_warnings := []; summary := [] |}.

End Registry.

End Validator.

(** ** extract_port_objects.py: validation against one blueprint *)

Module BlueprintValidator.

Definition missing_required (obj_path field : string) : string :=
  obj_path +:+ ": Missing required field '" +:+ field +:+ "'".
Definition should_be (obj_path prop_name expected : string) (value : json) : string :=
  obj_path +:+ ": Property '" +:+ prop_name +:+ "' should be " +:+ expected
    +:+ ", got " +:+ Py.type_name value.
Definition unknown_relation (obj_path relation_name : string) : string :=
  obj_path +:+ ": Unknown relation '" +:+ relation_name +:+ "'".

Definition check_required (obj : dict) (obj_path : string) : list string :=
  flat_map
    (fun field => if Py.mem field obj then [] else [missing_required obj_path field])
    Validator.required_fields.

(** "Basic type validation" of one property against its declared type. *)
Definition check_type (obj_path prop_name : string) (prop_type : option string)
    (prop_value : json) : list string :=
  match prop_type with
  | Some t =>
      if String.eqb t "string" then
        if Py.is_str prop_value then [] else [should_be obj_path prop_name "string" prop_value]
      else if String.eqb t "number" then
        if Py.is_number prop_value then [] else [should_be obj_path prop_name "number" prop_value]
      else if String.eqb t "boolean" then
        if Py.is_bool prop_value then [] else [should_be obj_path prop_name "boolean" prop_value]
      else if String.eqb t "array" then
        if Py.is_list prop_value then [] else [should_be obj_path prop_name "array" prop_value]
      else []
  | None => []
  end.

(** [schema_props[prop_name]], when [prop_name in schema_props]. *)
Fixpoint declared (prop_name : string) (schema_props : list (string * option string))
    : option (option string) :=
  match schema_props with
  | [] => None
  | (n, t) :: rest => if String.eqb prop_name n then Some t else declared prop_name rest
  end.

Definition check_properties (obj : dict) (bp : blueprint) (obj_path : string)
    : exc (list string) :=
  match Py.get "properties" obj, bp_schema_properties bp with
  | Some obj_props, Some schema_props =>
      match obj_props with
      | JDict props =>
          Returned
            (flat_map
               (fun kv =>
                  match declared (fst kv) schema_props with
                  | Some prop_type => check_type obj_path (fst kv) prop_type (snd kv)
                  | None => []
                  end)
               props)
      | _ => Raised AttributeError      (* obj_props.items() *)
      end
  | _, _ => Returned []
  end.

Definition check_relations (obj : dict) (bp : blueprint) (obj_path : string)
    : exc (list string) :=
  match Py.get "relations" obj, bp_relations bp with
  | Some obj_relations, Some blueprint_relations =>
      match obj_relations with
      | JDict rels =>
          Returned
            (flat_map
               (fun kv =>
                  if bool_decide (fst kv ∈ blueprint_relations) then []
                  else [unknown_relation obj_path (fst kv)])
               rels)
      | _ => Raised AttributeError      (* obj_relations.items() *)
      end
  | _, _ => Returned []
  end.

Definition validate_object_against_blueprint (obj : dict) (bp : blueprint)
    (obj_path : string) : exc (list string) :=
  let errors := check_required obj obj_path in
  perrors ← check_properties obj bp obj_path;
  rerrors ← check_relations obj bp obj_path;
  Returned (errors ++ perrors ++ rerrors).

End BlueprintValidator.

(** ** Raw items with all recognized fields populated *)

Module RoundTrip.
Import DirectMapping.

(** A field is populated when the item has it with a value that is not
    empty, in the sense in which the validator tests emptiness:
    [bool(value)] is True. *)
Definition populated (field : string) (item : dict) : bool :=
  match Py.get field item with
  | Some v => Py.truthy v
  | None => false
  end.

(** A nested field is populated when the item has the outer field, a
    record, with one of the inner fields that the transform may read
    populated. *)
Definition populated_in (outer : string) (inners : list string) (item : dict) : bool :=
  match Py.get outer item with
  | Some (JDict d) => existsb (fun inner => populated inner d) inners
  | _ => false
  end.

(** The source fields that the transform of each kind reads. *)
Definition plain_fields (k : kind) : list string :=
  match k with
  | Project =>
      ["id"; "name"; "status"; "description"; "budget"; "start_date"; "end_date"; "tags"]
  | Service =>
      ["id"; "name"; "status"; "health_status"; "version"; "language"; "project_id"]
  | Component =>
      ["id"; "name"; "type"; "status"; "description"; "complexity"; "test_coverage";
       "service_id"]
  | Deployment =>
      ["id"; "service_name"; "status"; "environment"; "version"; "deployment_time";
       "duration_seconds"; "logs"; "service_id"]
  end.

Definition nested_fields (k : kind) : list (string * list string) :=
  match k with
  | Project => [("owner", ["email"; "username"]); ("azure_devops", ["project_name"])]
  | Service =>
      [("repository", ["url"]); ("metrics", ["cpu_usage"]);
       ("metrics", ["memory_usage_mb"]); ("last_deployment", ["timestamp"]);
       ("azure_devops", ["pipeline_name"])]
  | Component => [("maintainer", ["email"; "username"])]
  | Deployment => [("deployed_by", ["email"; "username"]); ("azure_devops", ["run_id"])]
  end.

Definition all_populated (k : kind) (item : dict) : bool :=
  forallb (fun f => populated f item) (plain_fields k)
  && forallb (fun on => populated_in (fst on) (snd on) item) (nested_fields k).

End RoundTrip.

(** ** The validation rules of the specification

    The rules of the specification, as properties of a validator given
    as a function from an object and its label to the errors and the
    warnings it records.  The two validators of the sources are compared
    with them. *)

Module Rules.

Definition validator : Type := dict -> string -> exc (list string * list string).

(** PortObjectValidator._validate_single_object *)
Definition port_validator (blueprints : list blueprint) : validator :=
  Validator._validate_single_object blueprints.

(** PortObjectExtractor.validate_object_against_blueprint, which records
    errors only. *)
Definition blueprint_validator (bp : blueprint) : validator :=
  fun obj obj_path =>
    errors ← BlueprintValidator.validate_object_against_blueprint obj bp obj_path;
    Returned (errors, []).

(** The registry lookup needs a blueprint value that can be hashed: the
    value is absent or empty, or it is not a list or a dict. *)
Definition blueprint_hashable (obj : dict) : Prop :=
  Py.truthy (Py.get_or "blueprint" JNull obj) = true ->
  Py.hashable (Py.get_or "blueprint" JNull obj) = true.

(** What [_validate_single_object] reports for the objects of one kind,
    from index [i] on, and for all kinds. *)
Definition report (blueprints : list blueprint) (kind : string) (i : nat) (obj : dict)
    : list string * list string :=
  match Validator._validate_single_object blueprints obj (Validator.obj_id_of kind i) with
  | Returned r => r
  | Raised _ => ([], [])
  end.

Fixpoint reports (blueprints : list blueprint) (kind : string) (i : nat)
    (objects : list dict) : list (list string * list string) :=
  match objects with
  | [] => []
  | obj :: rest => report blueprints kind i obj :: reports blueprints kind (S i) rest
  end.

Definition all_reports (blueprints : list blueprint)
    (port_objects : list (string * list dict)) : list (list string * list string) :=
  flat_map (fun ko => reports blueprints (fst ko) 0 (snd ko)) port_objects.

Definition no_errors (r : list string * list string) : bool :=
  match fst r with [] => true | _ => false end.

(** A field is missing or empty. *)
Definition missing_or_empty (field : string) (obj : dict) : Prop :=
  match Py.get field obj with
  | Some v => Py.truthy v = false
  | None => True
  end.

(** "Missing or empty identifier, title, or blueprint -> error." *)
Definition requires_fields (V : validator) : Prop :=
  forall obj obj_id errors warnings field,
    field ∈ Validator.required_fields ->
    missing_or_empty field obj ->
    V obj obj_id = Returned (errors, warnings) ->
    errors <> [].

(** The runtime type that a declared type asks for; a declared type
    other than these four asks for nothing. *)
Definition conforms (declared_type : string) (v : json) : bool :=
  if String.eqb declared_type "string" then Py.is_str v
  else if String.eqb declared_type "number" then Py.is_number v
  else if String.eqb declared_type "boolean" then Py.is_bool v
  else if String.eqb declared_type "array" then Py.is_list v
  else true.

Definition declared_type (bp : blueprint) (prop_name : string) : option string :=
  match bp_schema_properties bp with
  | Some schema_props =>
      match BlueprintValidator.declared prop_name schema_props with
      | Some t => t
      | None => None
      end
  | None => None
  end.

(** "properties, if present, must be a mapping" *)
Definition properties_must_be_mapping (V : validator) : Prop :=
  forall obj obj_id v errors warnings,
    Py.get "properties" obj = Some v -> Py.is_dict v = false ->
    V obj obj_id = Returned (errors, warnings) ->
    errors <> [].

(** "each declared value's runtime type is checked against the schema's
    declared type; mismatches -> error" *)
Definition checks_declared_types (bp : blueprint) (V : validator) : Prop :=
  forall obj obj_id props name value t errors warnings,
    Py.get "properties" obj = Some (JDict props) ->
    Py.get name props = Some value ->
    value <> JNull ->
    declared_type bp name = Some t ->
    conforms t value = false ->
    V obj obj_id = Returned (errors, warnings) ->
    errors <> [].

(** "A property present but null-valued -> warning, not error": the
    warning is there, and an object with nothing else to report has no
    error. *)
Definition null_property_warns (V : validator) : Prop :=
  forall obj obj_id props name errors warnings,
    Py.get "properties" obj = Some (JDict props) ->
    Py.get name props = Some JNull ->
    V obj obj_id = Returned (errors, warnings) ->
    warnings <> [].

Definition null_property_is_no_error (V : validator) : Prop :=
  forall identifier title blueprint_name name obj_id errors warnings,
    V [ ("identifier", JStr identifier); ("title", JStr title);
        ("blueprint", JStr blueprint_name) ] obj_id = Returned ([], []) ->
    V [ ("identifier", JStr identifier); ("title", JStr title);
        ("blueprint", JStr blueprint_name);
        ("properties", JDict [(name, JNull)]) ] obj_id = Returned (errors, warnings) ->
    errors = [].

Definition property_rules (bp : blueprint) (V : validator) : Prop :=
  properties_must_be_mapping V
  /\ checks_declared_types bp V
  /\ null_property_warns V
  /\ null_property_is_no_error V.

(** "relations, if present, must be a mapping of string values only" *)
Definition relations_must_be_mapping (V : validator) : Prop :=
  forall obj obj_id v errors warnings,
    Py.get "relations" obj = Some v -> Py.is_dict v = false ->
    V obj obj_id = Returned (errors, warnings) ->
    errors <> [].

Definition relation_values_are_strings (V : validator) : Prop :=
  forall obj obj_id rels name value errors warnings,
    Py.get "relations" obj = Some (JDict rels) ->
    Py.get name rels = Some value ->
    Py.is_str value = false ->
    V obj obj_id = Returned (errors, warnings) ->
    errors <> [].

(** "any relation name not declared in the blueprint's relation set ->
    error" *)
Definition relation_names_are_declared (bp : blueprint) (V : validator) : Prop :=
  forall obj obj_id rels name value declared errors warnings,
    Py.get "relations" obj = Some (JDict rels) ->
    Py.get name rels = Some value ->
    bp_relations bp = Some declared ->
    name ∉ declared ->
    V obj obj_id = Returned (errors, warnings) ->
    errors <> [].

Definition relation_rules (bp : blueprint) (V : validator) : Prop :=
  relations_must_be_mapping V
  /\ relation_values_are_strings V
  /\ relation_names_are_declared bp V.

End Rules.

(** ** validate_port_objects.py over a store

    The same validator with its effects: Python containers live in a
    store and are reached through references, so that two names can
    denote one object.  Every statement of the source that mutates a
    container ([append], [extend], item assignment, [+=]) is a [store]
    here; reading is a [load]. *)

Module Store.

Abbreviation loc := positive.

(** A value held by a variable or a container slot: [Imm j] is held
    directly (a scalar, or a container that nothing else refers to),
    [Ref l] is a reference to the container at [l]. *)
Inductive value : Type :=
| Imm (j : json)
| Ref (l : loc).

Inductive cell : Type :=
| ListCell (items : list value)
| DictCell (entries : list (string * value)).

Abbreviation heap := (gmap loc cell).

(** Computations that read and write the store and may raise. *)
Definition M (A : Type) : Type := heap -> exc A * heap.

#[global] Instance M_ret : MRet M := fun A a h => (Returned a, h).
#[global] Instance M_bind : MBind M := fun A B k m h =>
  match m h with
  | (Returned a, h') => k a h'
  | (Raised e, h') => (Raised e, h')
  end.

Definition raise {A} (e : exn) : M A := fun h => (Raised e, h).

Definition alloc (c : cell) : M loc :=
  fun h => let l := fresh (dom h) in (Returned l, <[l := c]> h).

(** A reference always denotes a live object in Python; on a store
    where it does not, the model stops with an error. *)
Definition load (l : loc) : M cell :=
  fun h => match h !! l with
           | Some c => (Returned c, h)
           | None => (Raised KeyError, h)
           end.

Definition store (l : loc) (c : cell) : M unit :=
  fun h => (Returned tt, <[l := c]> h).

Definition observe {A} (f : heap -> A) : M A :=
  fun h => (Returned (f h), h).

(** What is seen of a value down to [depth] levels of references:
    below that, the elements of a container are not looked at and
    appear as null, so that its type and its length are still right. *)
Fixpoint view (depth : nat) (h : heap) (v : value) : json :=
  match v with
  | Imm j => j
  | Ref l =>
      let inner :=
        match depth with
        | O => fun _ => JNull
        | S d => view d h
        end in
      match h !! l with
      | Some (ListCell items) => JList (map inner items)
      | Some (DictCell entries) =>
          JDict (map (fun kv => (fst kv, inner (snd kv))) entries)
      | None => JNull
      end
  end.

Definition strings (l : list string) : list value :=
  map (fun s => Imm (JStr s)) l.

(** [d[k]] and [d[k] = v] on the dict at [d]. *)
Fixpoint entries_get (k : string) (es : list (string * value)) : option value :=
  match es with
  | [] => None
  | (k', v) :: es' => if String.eqb k k' then Some v else entries_get k es'
  end.

Fixpoint entries_set (k : string) (v : value) (es : list (string * value))
    : list (string * value) :=
  match es with
  | [] => [(k, v)]
  | (k', v') :: es' =>
      if String.eqb k k' then (k, v) :: es' else (k', v') :: entries_set k v es'
  end.

Definition getitem (d : loc) (k : string) : M value :=
  c ← load d;
  match c with
  | DictCell es =>
      match entries_get k es with
      | Some v => mret v
      | None => raise KeyError
      end
  | ListCell _ => raise TypeError
  end.

Definition setitem (d : loc) (k : string) (v : value) : M unit :=
  c ← load d;
  match c with
  | DictCell es => store d (DictCell (entries_set k v es))
  | ListCell _ => raise TypeError
  end.

(** [d[k].extend(src)], both lists. *)
Definition extend_item (d : loc) (k : string) (src : loc) : M unit :=
  target ← getitem d k;
  match target with
  | Ref t =>
      tc ← load t;
      sc ← load src;
      match tc, sc with
      | ListCell xs, ListCell ys => store t (ListCell (xs ++ ys))
      | _, _ => raise AttributeError
      end
  | Imm _ => raise AttributeError
  end.

(** [d[k] += n] on an integer slot. *)
Definition add_item (d : loc) (k : string) (n : nat) : M unit :=
  old ← getitem d k;
  match old with
  | Imm (JInt z) => setitem d k (Imm (JInt (z + Z.of_nat n)))
  | _ => raise TypeError
  end.

(** [port_objects.items()] and the elements of one [objects] list.  The
    parameter is declared [Dict[str, List[Dict]]]; on a value of another
    shape the model stops with an error. *)
Definition items_of (v : value) : M (list (string * value)) :=
  match v with
  | Imm (JDict d) => mret (map (fun kv => (fst kv, Imm (snd kv))) d)
  | Imm _ => raise AttributeError
  | Ref l =>
      c ← load l;
      match c with
      | DictCell es => mret es
      | ListCell _ => raise AttributeError
      end
  end.

Definition elements_of (v : value) : M (list value) :=
  match v with
  | Imm (JList l) => mret (map Imm l)
  | Imm _ => raise TypeError
  | Ref l =>
      c ← load l;
      match c with
      | ListCell xs => mret xs
      | DictCell _ => raise TypeError
      end
  end.

(** *** Frame conditions

    With respect to an initial store [h0]: a value is new when it is held
    directly or refers to a location that [h0] does not have, and a store
    extends [h0] when it has every cell of [h0] unchanged and its other
    cells hold new values only. *)
Definition new_value (h0 : heap) (v : value) : Prop :=
  match v with
  | Imm _ => True
  | Ref l => h0 !! l = None
  end.

Definition new_cell (h0 : heap) (c : cell) : Prop :=
  match c with
  | ListCell items => Forall (new_value h0) items
  | DictCell entries => Forall (fun kv => new_value h0 (snd kv)) entries
  end.

Definition extends (h0 h : heap) : Prop :=
  h0 ⊆ h /\ forall l c, h0 !! l = None -> h !! l = Some c -> new_cell h0 c.

(** [m], run in a store that extends [h0], leaves a store that extends
    [h0], and what it returns satisfies [Q]. *)
Definition keeps {A} (h0 : heap) (m : M A) (Q : A -> Prop) : Prop :=
  forall h, extends h0 h ->
            extends h0 (m h).2 /\ forall a, (m h).1 = Returned a -> Q a.

(** The object as [_validate_single_object] reads it.  Two levels are
    enough: the fields, and the entries of [properties] and
    [relations], of which only the type is tested. *)
Definition as_dict (h : heap) (obj : value) : exc dict :=
  match view 2 h obj with
  | JDict d => Returned d
  | JStr _ | JList _ => Raised AttributeError
  | _ => Raised TypeError
  end.

Section Registry.

Variable blueprints : list blueprint.

(** [errors] and [warnings] are two new lists; what is appended to
    them is what the validator computes from the fields it reads. *)
Definition _validate_single_object (obj : value) (obj_id : string)
    : M (loc * loc) :=
  errors ← alloc (ListCell []);
  warnings ← alloc (ListCell []);
  seen ← observe (fun h => as_dict h obj);
  match seen ≫= (fun d => Validator._validate_single_object blueprints d obj_id) with
  | Raised e => raise e
  | Returned (es, ws) =>
      _ ← store errors (ListCell (strings es));
      _ ← store warnings (ListCell (strings ws));
      mret (errors, warnings)
  end.

Definition nonempty (c : cell) : bool :=
  match c with
  | ListCell (_ :: _) | DictCell (_ :: _) => true
  | _ => false
  end.

Fixpoint validate_objects (results kind_results : loc) (kind : string)
    (i : nat) (objects : list value) : M unit :=
  match objects with
  | [] => mret tt
  | obj :: rest =>
      '(obj_errors, obj_warnings) ←
        _validate_single_object obj (Validator.obj_id_of kind i);
      es ← load obj_errors;
      _ ← (if nonempty es then
             _ ← extend_item kind_results "errors" obj_errors;
             _ ← extend_item results "validation_errors" obj_errors;
             setitem results "valid" (Imm (JBool false))
           else add_item kind_results "valid_objects" 1);
      ws ← load obj_warnings;
      _ ← (if nonempty ws then
             _ ← extend_item kind_results "warnings" obj_warnings;
             extend_item results "validation_warnings" obj_warnings
           else mret tt);
      validate_objects results kind_results kind (S i) rest
  end.

Fixpoint validate_kinds (results : loc) (kinds : list (string * value)) : M unit :=
  match kinds with
  | [] => mret tt
  | (kind, objects) :: rest =>
      objs ← elements_of objects;
      kerrors ← alloc (ListCell []);
      kwarnings ← alloc (ListCell []);
      kind_results ← alloc (DictCell
        [ ("count", Imm (JInt (Z.of_nat (length objs))));
          ("valid_objects", Imm (JInt 0));
          ("errors", Ref kerrors);
          ("warnings", Ref kwarnings) ]);
      _ ← validate_objects results kind_results kind 0 objs;
      _ ← add_item results "total_objects" (length objs);
      summary ← getitem results "summary";
      _ ← match summary with
          | Ref s => setitem s kind (Ref kind_results)
          | Imm _ => raise TypeError
          end;
      validate_kinds results rest
  end.

Definition validate_port_objects (port_objects : value) : M value :=
  verrors ← alloc (ListCell []);
  vwarnings ← alloc (ListCell []);
  summary ← alloc (DictCell []);
  results ← alloc (DictCell
    [ ("valid", Imm (JBool true));
      ("total_objects", Imm (JInt 0));
      ("validation_errors", Ref verrors);
      ("validation_warnings", Ref vwarnings);
      ("summary", Ref summary) ]);
  kinds ← items_of port_objects;
  _ ← validate_kinds results kinds;
  mret (Ref results).

End Registry.

End Store.

(** ** Sample inputs *)

Module Samples.
Import Client.

Definition client : CargAPIClient :=
  {| base_url := "https://carg.example"; api_token := "secret" |}.

Definition noon : string := "2024-10-05T12:00:00".

Definition five : list json := map JInt [1; 2; 3; 4; 5]%Z.

Definition full_style : api_style :=
  {| items_under := UnderData; with_total := true; with_hasMore := true |}.

(** A Retry-After header in its HTTP-date form. *)
Definition retry_after_date : list (string * string) :=
  [("Retry-After", "Wed, 21 Oct 2015 07:28:00 GMT")].

(** A service that carries no [project_id]. *)
Definition orphan_service : dict :=
  [ ("id", JInt 101); ("name", JStr "User Authentication Service");
    ("status", JStr "Running") ].

(** A mapping of plain field lookups, with one relation. *)
Definition service_mapping : dict :=
  [ ("identifier", JStr ".id");
    ("title", JStr ".name");
    ("properties", JStr ".status");
    ("relations", JDict [("project", JStr ".project_id")]) ].

Definition project_blueprint : blueprint :=
  {| bp_identifier := "cargProject";
     bp_schema_properties :=
       Some [ ("status", Some "string"); ("budget", Some "number");
              ("tags", Some "array"); ("owner", Some "string") ];
     bp_relations := Some [] |}.

Definition service_blueprint : blueprint :=
  {| bp_identifier := "cargService";
     bp_schema_properties :=
       Some [ ("status", Some "string"); ("cpu", Some "number") ];
     bp_relations := Some ["project"] |}.

Definition component_blueprint : blueprint :=
  {| bp_identifier := "cargComponent";
     bp_schema_properties := Some [("type", Some "string"); ("testCoverage", Some "number")];
     bp_relations := Some ["service"] |}.

Definition deployment_blueprint : blueprint :=
  {| bp_identifier := "cargDeployment";
     bp_schema_properties := Some [("status", Some "string"); ("duration", Some "number")];
     bp_relations := Some ["service"] |}.

Definition registry : list blueprint :=
  [project_blueprint; service_blueprint; component_blueprint; deployment_blueprint].

(** The records of a list of raw items. *)
Definition records (items : list json) : list dict :=
  flat_map (fun item => match item with JDict d => [d] | _ => [] end) items.

(** The first project of the mock data. *)
Definition first_project : dict :=
  match records _get_mock_projects with
  | p :: _ => p
  | [] => []
  end.

(** Every item is transformed and then validated with no error and no
    warning. *)
Definition round_trips (k : DirectMapping.kind) (items : list json) : bool :=
  forallb
    (fun item =>
       match DirectMapping.transform k item with
       | Returned obj =>
           match Validator._validate_single_object registry obj "item" with
           | Returned ([], []) => true
           | _ => false
           end
       | Raised _ => false
       end)
    (records items).

Definition project_with (extra : dict) : dict :=
  [ ("identifier", JStr "1"); ("title", JStr "E-Commerce Platform");
    ("blueprint", JStr "cargProject") ] ++ extra.

Definition service_with (extra : dict) : dict :=
  [ ("identifier", JStr "101"); ("title", JStr "User Authentication Service");
    ("blueprint", JStr "cargService") ] ++ extra.

(** An object whose identifier is there and empty. *)
Definition unnamed_project : dict :=
  [ ("identifier", JStr ""); ("title", JStr "E-Commerce Platform");
    ("blueprint", JStr "cargProject") ].

(** An object whose blueprint is a list. *)
Definition listed_blueprint : dict :=
  [ ("identifier", JStr "101"); ("title", JStr "User Authentication Service");
    ("blueprint", JList [JStr "cargService"]) ].

(** A store with one kind of two objects, the first with its properties
    in a container of their own. *)
Definition sample_heap : Store.heap :=
  <[1%positive := Store.DictCell [("carg-project", Store.Ref 2%positive)]]>
  (<[2%positive := Store.ListCell [Store.Ref 3%positive; Store.Imm (JDict [])]]>
  (<[3%positive := Store.DictCell
       [ ("identifier", Store.Imm (JStr "1")); ("title", Store.Imm (JStr ""));
         ("blueprint", Store.Imm (JStr "cargProject"));
         ("properties", Store.Ref 4%positive) ]]>
  (<[4%positive := Store.DictCell [("status", Store.Imm JNull)]]> ∅))).

(** The same input as a value. *)
Definition sample_objects : list (string * list dict) :=
  [ ("carg-project",
     [ [ ("identifier", JStr "1"); ("title", JStr "");
         ("blueprint", JStr "cargProject");
         ("properties", JDict [("status", JNull)]) ];
       [] ]) ].

(** A results record as the JSON document that it would be saved as. *)
Definition results_json (r : Validator.results) : json :=
  JDict
    [ ("valid", JBool (Validator.valid r));
      ("total_objects", JInt (Z.of_nat (Validator.total_objects r)));
      ("validation_errors", JList (map JStr (Validator.validation_errors r)));
      ("validation_warnings", JList (map JStr (Validator.validation_warnings r)));
      ("summary",
        JDict (map (fun kk =>
                      (fst kk,
                       JDict
                         [ ("count", JInt (Z.of_nat (Validator.count (snd kk))));
                           ("valid_objects",
                             JInt (Z.of_nat (Validator.valid_objects (snd kk))));
                           ("errors", JList (map JStr (Validator.errors (snd kk))));
                           ("warnings", JList (map JStr (Validator.warnings (snd kk)))) ]))
                   (Validator.summary r))) ].

(** A remote that answers every request with its whole data set, as a
    bare list. *)
Definition bare_list_remote (db : list json) : unit -> request -> outcome * unit :=
  fun _ _ => (Ok (JList db), tt).

End Samples.

(** ** client.py: health check and webhooks *)

Module ClientOps.
Import Client.

(** [v == s] for a string [s]. *)
Definition eq_str (v : json) (s : string) : bool :=
  match v with
  | JStr t => String.eqb t s
  | _ => false
  end.

(** [response.get(k, default)] on what [_send_api_request] returned; a
    response that is not a dict has no [get]. *)
Definition reply_get (k : string) (default : json) (response : json) : exc json :=
  match response with
  | JDict d => Returned (Py.get_or k default d)
  | _ => Raised AttributeError
  end.

(** The body of the POST that registers the webhook. *)
Definition webhook_config (webhook_url : string) : json :=
  JDict
    [ ("name", JStr "port-ocean-carg-webhook");
      ("url", JStr webhook_url);
      ("events",
        JList (map JStr
          [ "project.created"; "project.updated"; "project.deleted";
            "service.created"; "service.updated"; "service.deleted";
            "component.created"; "component.updated"; "component.deleted";
            "deployment.created"; "deployment.updated"; "deployment.completed" ]));
      ("active", JBool true) ].

(** The loop [for webhook in ...: if webhook.get("url") == webhook_url:
    return]: [Some true] when it returns, [Some false] when it runs to
    its end, [None] when [webhook.get] raises on an entry that is not a
    dict. *)
Fixpoint find_webhook (webhook_url : string) (webhooks : list json) : option bool :=
  match webhooks with
  | [] => Some false
  | JDict d :: rest =>
      if eq_str (Py.get_or "url" JNull d) webhook_url then Some true
      else find_webhook webhook_url rest
  | _ :: _ => None
  end.

(** "Check if webhook already exists": [true] when the function returns
    from inside the [try].  Everything else goes on to the creation: no
    match, a response or a [data] that is not of the expected type (the
    exception is caught and logged), an entry that is not a dict. *)
Definition already_registered (webhook_url : string) (existing : json) : bool :=
  match existing with
  | JDict d =>
      match Py.get_or "data" (JList []) d with
      | JList l =>
          match find_webhook webhook_url l with
          | Some true => true
          | _ => false
          end
      | _ => false
      end
  | _ => false
  end.

(** The requests of a run that are POSTs. *)
Definition posts (evs : list event) : list request :=
  flat_map (fun ev => match ev with
                      | Sent r => if String.eqb (req_method r) "POST" then [r] else []
                      | Slept _ => []
                      end) evs.

Section Remote.
Context {world : Type}.
Variable respond : world -> request -> outcome * world.
Variable clock : world -> string.

(** [None]: the fuel ran out during the request. *)
Definition health_check (fuel : nat) (self : CargAPIClient) (w : world)
    : option bool * world * list event :=
  let '(res, w1, evs) :=
    _send_api_request respond clock fuel self "GET" "health" None None w in
  match res with
  | Retrying => (None, w1, evs)
  | Failure _ => (Some false, w1, evs)
  | Reply response =>
      match reply_get "status" JNull response with
      | Returned status => (Some (eq_str status "healthy"), w1, evs)
      | Raised _ => (Some false, w1, evs)
      end
  end.

(** Returns [response.get("canCreateWebhooks", False)] as it is. *)
Definition has_webhook_permission (fuel : nat) (self : CargAPIClient) (w : world)
    : option json * world * list event :=
  let '(res, w1, evs) :=
    _send_api_request respond clock fuel self "GET" "webhooks/permissions" None None w in
  match res with
  | Retrying => (None, w1, evs)
  | Failure _ => (Some (JBool false), w1, evs)
  | Reply response =>
      match reply_get "canCreateWebhooks" (JBool false) response with
      | Returned permission => (Some permission, w1, evs)
      | Raised _ => (Some (JBool false), w1, evs)
      end
  end.

(** The boolean is [true] when the function has returned, [false] when
    the fuel ran out. *)
Definition create_webhooks (fuel : nat) (self : CargAPIClient) (app_host : string)
    (w : world) : bool * world * list event :=
  let '(permission, w1, evs1) := has_webhook_permission fuel self w in
  match permission with
  | None => (false, w1, evs1)
  | Some allowed =>
      if negb (Py.truthy allowed) then (true, w1, evs1)
      else
        let webhook_url := app_host +:+ "/integration/webhook" in
        let '(existing, w2, evs2) :=
          _send_api_request respond clock fuel self "GET" "webhooks" None None w1 in
        let create :=
          let '(created, w3, evs3) :=
            _send_api_request respond clock fuel self "POST" "webhooks" None
              (Some (webhook_config webhook_url)) w2 in
          (match created with Retrying => false | _ => true end,
           w3, evs1 ++ evs2 ++ evs3) in
        match existing with
        | Retrying => (false, w2, evs1 ++ evs2)
        | Failure _ => create
        | Reply response =>
            if already_registered webhook_url response then (true, w2, evs1 ++ evs2)
            else create
        end
  end.

End Remote.

End ClientOps.

(** ** main.py: the resync handlers *)

Module Main.
Import Client.

(** [for record in batch]: a list gives its elements, a string its
    characters, a dict its keys. *)
Definition iterate (batch : json) : exc (list json) :=
  match batch with
  | JList l => Returned l
  | JStr s => Returned (map (fun c => JStr (String c EmptyString)) (String.list_ascii_of_string s))
  | JDict d => Returned (map (fun kv => JStr (fst kv)) d)
  | _ => Raised TypeError
  end.

(** The body of the [async for]: [total_count += len(batch)], then each
    record of the batch is yielded.  The result is what has been yielded,
    the count, and the exception that stopped the loop, if any. *)
Fixpoint drain (batches : list json) (total_count : Z) : list json * Z * option exn :=
  match batches with
  | [] => ([], total_count, None)
  | batch :: rest =>
      match Py.len batch with
      | Raised e => ([], total_count, Some e)
      | Returned n =>
          match iterate batch with
          | Raised e => ([], (total_count + n)%Z, Some e)
          | Returned records =>
              let '(more, total, e) := drain rest (total_count + n)%Z in
              (records ++ more, total, e)
          end
      end
  end.

Record resync : Type := {
  records : list json;      (* what the handler yields, in order *)
  total_count : Z;
  outcome_of : ending }.

Section Remote.
Context {world : Type}.
Variable respond : world -> request -> outcome * world.
Variable clock : world -> string.

(** The handler for the resource kind [resource_kind]:
    [resync_projects] is [resync_kind "project"], and so on. *)
Definition resync_kind (resource_kind : string) (fuel : nat) (self : CargAPIClient)
    (w : world) : resync :=
  let r := get_paginated_resources respond clock fuel self resource_kind None None w in
  let '(recs, total, e) := drain (pages r) 0 in
  {| records := recs; total_count := total;
     outcome_of := match e with Some e => Propagated e | None => ended r end |}.

Definition resync_projects := resync_kind "project".
Definition resync_services := resync_kind "service".
Definition resync_components := resync_kind "component".
Definition resync_deployments := resync_kind "deployment".

End Remote.

End Main.

(** ** More sample inputs *)

Module MoreSamples.
Import Client.

(** A remote that always answers 429, asking for five seconds. *)
Definition always_limited : unit -> request -> outcome * unit :=
  fun _ _ => (HTTPStatusError 429 [("Retry-After", "5")], tt).

(** A remote that answers every request with the same page, whatever the
    offset asked for. *)
Definition same_page_remote (page : list json) : unit -> request -> outcome * unit :=
  fun _ _ => (Ok (JDict [("data", JList page)]), tt).

Definition unconfigured : CargAPIClient := {| base_url := ""; api_token := "" |}.

End MoreSamples.

(** ** The requests of a run *)

Module Requests.
Import Client.

(** The requests among the events of a run, in order. *)
Definition requests (evs : list event) : list request :=
  flat_map (fun ev => match ev with Sent r => [r] | Slept _ => [] end) evs.

(** [endpoint_override or f"{resource_kind}s"] *)
Definition endpoint_of (resource_kind : string) (endpoint_override : option string)
    : string :=
  match endpoint_override with
  | Some e => if String.eqb e "" then resource_kind +:+ "s" else e
  | None => resource_kind +:+ "s"
  end.

(** A request for one page of [endpoint]: a GET without body to the URL
    of the endpoint, whose parameters are the caller's except for [take],
    the page size, and [skip], a multiple of the page size. *)
Definition page_request (self : CargAPIClient) (endpoint : string) (page_size : Z)
    (caller_params : dict) (r : request) : Prop :=
  req_method r = "GET"
  /\ req_url r = base_url self +:+ "/api/v1/" +:+ endpoint
  /\ req_json r = None
  /\ exists (d : dict) (n : nat),
       req_params r = Some d
       /\ Py.get "skip" d = Some (JInt (Z.of_nat n * page_size))
       /\ Py.get "take" d = Some (JInt page_size)
       /\ forall k, k <> "skip" -> k <> "take" -> Py.get k d = Py.get k caller_params.

(** A failure that [_send_api_request] answers with mock data: an HTTP
    error status other than 429, a body that does not decode, a failure
    of the transport. *)
Definition soft_failure (out : outcome) : bool :=
  match out with
  | Ok _ => false
  | HTTPStatusError status_code _ => negb (status_code =? 429)%Z
  | Undecodable | TransportFailure => true
  end.

(** The invariant of the loop on [params]: [skip] is a multiple of the
    page size, [take] is the page size, the other keys are the caller's. *)
Definition paging (page_size : Z) (caller_params params : dict) : Prop :=
  (exists n : nat, Py.get "skip" params = Some (JInt (Z.of_nat n * page_size)))
  /\ Py.get "take" params = Some (JInt page_size)
  /\ forall k, k <> "skip" -> k <> "take" -> Py.get k params = Py.get k caller_params.

End Requests.

(** ** extract_port_objects.py: PortObjectExtractor *)

Module Extractor.
Import ExpressionMapping.

(** [v[k]] for a string [k]: only a dict can be subscripted with a
    string, and the key has to be there. *)
Definition subscript (k : string) (v : json) : exc json :=
  match v with
  | JDict d =>
      match Py.get k d with
      | Some x => Returned x
      | None => Raised KeyError
      end
  | _ => Raised TypeError
  end.

Section Jq.
Variable jq_first : string -> json -> option json.

(** The loop over [jq_expression.items()] that fills [relations].  It
    runs inside the [try] of the field: [None] when an expression
    raises, which leaves the loop and the [try] block. *)
Fixpoint relations_of (rels : dict) (raw_data : json) (relations : dict)
    : option dict :=
  match rels with
  | [] => Some relations
  | (relation_name, relation_jq) :: rest =>
      match evaluate jq_first relation_jq raw_data with
      | Some value =>
          relations_of rest raw_data
            (if Py.is_none value then relations
             else Py.set relation_name value relations)
      | None => None
      end
  end.

(** The body of the loop over [mappings.items()], with its [try]:
    whatever raises inside leaves [port_object] as it is. *)
Definition apply_mapping (field : string) (jq_expression : json) (raw_data : json)
    (port_object : dict) : dict :=
  if String.eqb field "relations" then
    match jq_expression with
    | JDict rels =>
        match relations_of rels raw_data [] with
        | Some relations =>
            if Py.truthy (JDict relations)
            then Py.set "relations" (JDict relations) port_object
            else port_object
        | None => port_object
        end
    | _ => port_object              (* jq_expression.items() raises *)
    end
  else
    match evaluate jq_first jq_expression raw_data with
    | Some value =>
        if Py.is_none value then port_object
        else Py.set field value port_object
    | None => port_object
    end.

Fixpoint apply_mappings (mappings : dict) (raw_data : json) (port_object : dict)
    : dict :=
  match mappings with
  | [] => port_object
  | (field, jq_expression) :: rest =>
      apply_mappings rest raw_data (apply_mapping field jq_expression raw_data port_object)
  end.

Definition transform_to_port_object (raw_data : json) (resource_config : json)
    : exc dict :=
  port ← subscript "port" resource_config;
  entity ← subscript "entity" port;
  mappings ← subscript "mappings" entity;
  match mappings with
  | JDict m => Returned (apply_mappings m raw_data [])
  | _ => Raised AttributeError      (* mappings.items() *)
  end.

End Jq.

(** [validation_results["stats"][kind]]; the counters [valid] and
    [errors] of the source are [valid_count] and [error_count]. *)
Record kind_stats : Type := {
  total : nat;
  valid_count : nat;
  error_count : nat }.

Record validation_results : Type := {
  valid : bool;
  errors : list string;
  warnings : list string;
  stats : list (string * kind_stats) }.

(** [stats[kind] = st] *)
Fixpoint stats_set (kind : string) (st : kind_stats) (s : list (string * kind_stats))
    : list (string * kind_stats) :=
  match s with
  | [] => [(kind, st)]
  | (k, v) :: s' =>
      if String.eqb kind k then (kind, st) :: s' else (k, v) :: stats_set kind st s'
  end.

Definition no_blueprint (kind : string) : string :=
  "No blueprint found for kind: " +:+ kind.
Definition blueprint_not_found (blueprint_id : json) (kind : string) : string :=
  "Blueprint '" +:+ Py.str blueprint_id +:+ "' not found for kind: " +:+ kind.

(** [errors.append(message); valid = False] *)
Definition failed (message : string) (res : validation_results) : validation_results :=
  {| valid := false; errors := errors res ++ [message];
     warnings := warnings res; stats := stats res |}.

(** "Find blueprint definition": the first blueprint of the list whose
    identifier equals [blueprint_id]. *)
Fixpoint find_blueprint (blueprint_id : json) (blueprints : list blueprint)
    : option blueprint :=
  match blueprints with
  | [] => None
  | bp :: rest =>
      if ClientOps.eq_str blueprint_id (bp_identifier bp) then Some bp
      else find_blueprint blueprint_id rest
  end.

(** "Validate each object", from index [i] on. *)
Fixpoint validate_each (kind : string) (bp : blueprint) (i : nat) (objects : list dict)
    (st : kind_stats) (res : validation_results)
    : exc (kind_stats * validation_results) :=
  match objects with
  | [] => Returned (st, res)
  | obj :: rest =>
      obj_errors ← BlueprintValidator.validate_object_against_blueprint obj bp
                     (Validator.obj_id_of kind i);
      match obj_errors with
      | _ :: _ =>
          validate_each kind bp (S i) rest
            {| total := total st; valid_count := valid_count st;
               error_count := error_count st + 1 |}
            {| valid := false; errors := errors res ++ obj_errors;
               warnings := warnings res; stats := stats res |}
      | [] =>
          validate_each kind bp (S i) rest
            {| total := total st; valid_count := valid_count st + 1;
               error_count := error_count st |}
            res
      end
  end.

Section Registry.

(** [self.blueprints], the list read from blueprints.json. *)
Variable blueprints : list blueprint.

(** The loop [for kind, objects in port_objects.items()]. *)
Fixpoint validate_kinds (port_objects : list (string * list dict))
    (res : validation_results) : exc validation_results :=
  match port_objects with
  | [] => Returned res
  | (kind, objects) :: rest =>
      let blueprint_id :=
        match objects with
        | obj :: _ => Py.get_or "blueprint" JNull obj
        | [] => JNull
        end in
      if negb (Py.truthy blueprint_id) then
        validate_kinds rest (failed (no_blueprint kind) res)
      else
        match find_blueprint blueprint_id blueprints with
        | None => validate_kinds rest (failed (blueprint_not_found blueprint_id kind) res)
        | Some bp =>
            '(st, res) ← validate_each kind bp 0 objects
                           {| total := length objects; valid_count := 0;
                              error_count := 0 |} res;
            validate_kinds rest
              {| valid := valid res; errors := errors res; warnings := warnings res;
                 stats := stats_set kind st (stats res) |}
        end
  end.

Definition validate_against_blueprints (port_objects : list (string * list dict))
    : exc validation_results :=
  validate_kinds port_objects
    {| valid := true; errors := []; warnings := []; stats := [] |}.

End Registry.

End Extractor.

(** ** Notions used to state the further properties *)

Module ExtractorRules.
Import Extractor.

(** The flag says that no error was recorded. *)
Definition consistent (res : validation_results) : Prop :=
  valid res = true <-> errors res = [].

Definition counted (ks : string * kind_stats) : Prop :=
  valid_count ks.2 + error_count ks.2 = total ks.2.

(** A kind that the validation passes: it has objects, the blueprint
    named by the first of them is registered, and every object is
    without error against that blueprint. *)
Definition passes (blueprints : list blueprint) (ko : string * list dict) : Prop :=
  exists obj rest bp,
    ko.2 = obj :: rest
    /\ Py.get "blueprint" obj = Some (JStr (bp_identifier bp))
    /\ bp ∈ blueprints
    /\ forall j o, ko.2 !! j = Some o ->
         BlueprintValidator.validate_object_against_blueprint o bp
           (Validator.obj_id_of ko.1 j) = Returned [].

End ExtractorRules.

Module ValidatorRules.
Import Validator.

(** What the pass records for one kind. *)
Definition kind_report (blueprints : list blueprint) (ko : string * list dict)
    : kind_results :=
  let rs := Rules.reports blueprints ko.1 0 ko.2 in
  {| count := length ko.2;
     valid_objects := length (filter (fun r => Rules.no_errors r = true) rs);
     errors := concat (map fst rs);
     warnings := concat (map snd rs) |}.

End ValidatorRules.

Module DirectRules.

(** The source [outer] of a nested field is absent or a record. *)
Definition record_or_absent (outer : string) (item : dict) : bool :=
  match Py.get outer item with
  | None | Some (JDict _) => true
  | Some _ => false
  end.

End DirectRules.

(** ** Extract, then validate: the entry point of validate_port_objects.py *)

Module Pipeline.
Import DirectMapping.

(** [[self._transform_x(item) for item in raw]]: an item that is not a
    record has no [get], and the first item that raises ends the
    comprehension. *)
Fixpoint transform_all (k : kind) (raw : list json) : exc (list dict) :=
  match raw with
  | [] => Returned []
  | item :: rest =>
      obj ← match item with
            | JDict d => transform k d
            | _ => Raised AttributeError
            end;
      objs ← transform_all k rest;
      Returned (obj :: objs)
  end.

(** The raw data of the four kinds, as the client returns them. *)
Record raw_data : Type := {
  projects : list json;
  services : list json;
  components : list json;
  deployments : list json }.

(** [SimplePortExtractor.extract_all_objects] of extract_port_json.py,
    on the data that the client has returned. *)
Definition extract_all_objects (raw : raw_data) : exc (list (string * list dict)) :=
  ps ← transform_all Project (projects raw);
  ss ← transform_all Service (services raw);
  cs ← transform_all Component (components raw);
  ds ← transform_all Deployment (deployments raw);
  Returned [ ("carg-project", ps); ("carg-service", ss);
             ("carg-component", cs); ("carg-deployment", ds) ].

(** [main] of validate_port_objects.py without [--file]: the exit code. *)
Definition main (blueprints : list blueprint) (raw : raw_data) : exc Z :=
  port_objects ← extract_all_objects raw;
  results ← Validator.validate_port_objects blueprints port_objects;
  Returned (if Validator.valid results then 0 else 1)%Z.


End Pipeline.

(** ** main.py: the start of the integration *)

Module Lifecycle.
Import Client ClientOps.

Section Remote.
Context {world : Type}.
Variable respond : world -> request -> outcome * world.
Variable clock : world -> string.

(** [on_start], for the integration configuration [config] and the
    global client [self].  The boolean is [true] when the handler has
    returned, [false] when the fuel ran out. *)
Definition on_start (fuel : nat) (self : CargAPIClient) (config : dict) (w : world)
    : bool * world * list event :=
  let api_url := Py.get_or "cargApiUrl" JNull config in
  let api_token := Py.get_or "cargApiToken" JNull config in
  let '(checked, w1, evs1) :=
    if negb (Py.truthy api_url) || negb (Py.truthy api_token) then (true, w, [])
    else
      let '(healthy, w1, evs1) := health_check respond clock fuel self w in
      (match healthy with Some _ => true | None => false end, w1, evs1) in
  if negb checked then (false, w1, evs1)
  else
    let enable_webhooks := Py.get_or "enableWebhooks" (JBool false) config in
    if Py.truthy enable_webhooks && Py.truthy api_url && Py.truthy api_token then
      let app_host := Py.get_or "appHost" JNull config in
      if Py.truthy app_host then
        let '(returned, w2, evs2) :=
          create_webhooks respond clock fuel self (Py.str app_host) w1 in
        (returned, w2, evs1 ++ evs2)
      else (true, w1, evs1)
    else (true, w1, evs1).

End Remote.

End Lifecycle.

(** * Properties *)

(** ** Exceptions and dictionaries *)

Module PyFacts.

Lemma bind_Returned {A B} (x : exc A) (k : A -> exc B) (b : B) :
  x ≫= k = Returned b -> exists a, x = Returned a /\ k a = Returned b.
Proof. destruct x as [a|e]; [by exists a | done]. Qed.

Lemma bind_Raised {A B} (x : exc A) (k : A -> exc B) (e : exn) :
  x = Raised e -> x ≫= k = Raised e.
Proof. by intros ->. Qed.

(** Peel the binds of a computation that is known to return. *)
Ltac returned H :=
  repeat (let a := fresh "a" in
          let E := fresh "E" in
          apply bind_Returned in H as (a & E & H)).

Lemma get_set_eq k v d : Py.get k (Py.set k v d) = Some v.
Proof.
  induction d as [|[k' v'] d IH]; simpl.
  - by rewrite String.eqb_refl.
  - destruct (String.eqb k k') eqn:E; simpl; rewrite ?String.eqb_refl, ?E; done.
Qed.

Lemma get_set_ne k k' v d : k <> k' -> Py.get k' (Py.set k v d) = Py.get k' d.
Proof.
  intros Hne. induction d as [|[k0 v0] d IH]; simpl.
  - destruct (String.eqb k' k) eqn:E; [|done].
    apply String.eqb_eq in E. congruence.
  - destruct (String.eqb k k0) eqn:E; simpl.
    + apply String.eqb_eq in E. subst k0.
      destruct (String.eqb k' k) eqn:E'; [|done].
      apply String.eqb_eq in E'. congruence.
    + by rewrite IH.
Qed.

Lemma get_Some_in k v d : Py.get k d = Some v -> (k, v) ∈ d.
Proof.
  induction d as [|[k' v'] d IH]; simpl; [done|].
  destruct (String.eqb k k') eqn:E.
  - apply String.eqb_eq in E. intros [= ->]. subst. left.
  - intros H. right. by apply IH.
Qed.

Lemma get_None_notin k d : Py.get k d = None -> k ∉ map fst d.
Proof.
  induction d as [|[k' v'] d IH]; simpl.
  - intros _. apply not_elem_of_nil.
  - destruct (String.eqb k k') eqn:E; [done|].
    intros H. apply String.eqb_neq in E.
    rewrite not_elem_of_cons. split; [done | by apply IH].
Qed.

Lemma truthy_list l : Py.truthy (JList l) = false <-> l = [].
Proof. destruct l; simpl; split; congruence. Qed.

End PyFacts.

(** ** The fetcher *)

Module ClientFacts.
Import Client.

(** *** Cutting a list into pages *)

Section Chunks.
Context {A : Type}.
Implicit Types (l : list A) (size : nat).

Lemma chunks_fuel_enough n size l :
  0 < size -> length l <= n -> chunks_fuel n size l = chunks size l.
Proof.
  unfold chunks. revert l.
  induction n as [n IH] using lt_wf_ind. intros l Hs Hn.
  destruct l as [|x l]; [by destruct n|].
  destruct n as [|n]; [simpl in Hn; lia|].
  cbn [chunks_fuel length]. f_equal.
  assert (Hd : length (drop size (x :: l)) <= length l).
  { rewrite length_drop. simpl. lia. }
  rewrite (IH n) by (simpl in Hn; lia).
  symmetry. apply (IH (length l)); [simpl in Hn; lia | done | done].
Qed.

Lemma chunks_nil size : chunks size ([] : list A) = [].
Proof. reflexivity. Qed.

Lemma chunks_cons size l :
  0 < size -> l <> [] ->
  chunks size l = take size l :: chunks size (drop size l).
Proof.
  intros Hs Hl. destruct l as [|x l]; [done|].
  unfold chunks at 1. cbn [chunks_fuel length]. f_equal.
  apply chunks_fuel_enough; [done|]. rewrite length_drop. simpl. lia.
Qed.

Lemma chunks_ind (P : list A -> Prop) size :
  0 < size ->
  P [] ->
  (forall l, l <> [] -> P (drop size l) -> P l) ->
  forall l, P l.
Proof.
  intros Hs Hnil Hstep l.
  remember (length l) as n eqn:Hn. revert l Hn.
  induction n as [n IH] using lt_wf_ind. intros l ->.
  destruct l as [|x l]; [done|].
  apply Hstep; [done|].
  apply (IH (length (drop size (x :: l)))); [|done].
  rewrite length_drop. simpl. lia.
Qed.

Lemma concat_chunks size l : 0 < size -> concat (chunks size l) = l.
Proof.
  intros Hs. pattern l. apply (chunks_ind _ size Hs); clear l; [done|intros l Hl IH].
  rewrite chunks_cons by done. simpl. rewrite IH. apply take_drop.
Qed.

Lemma chunks_nonempty size l :
  0 < size -> Forall (fun page => page <> []) (chunks size l).
Proof.
  intros Hs. pattern l. apply (chunks_ind _ size Hs); clear l; [|intros l Hl IH].
  - constructor.
  - rewrite chunks_cons by done. constructor; [|done].
    destruct l; [done|]. destruct size; [lia|done].
Qed.

Lemma chunks_bounded size l :
  0 < size -> Forall (fun page => length page <= size) (chunks size l).
Proof.
  intros Hs. pattern l. apply (chunks_ind _ size Hs); clear l; [|intros l Hl IH].
  - constructor.
  - rewrite chunks_cons by done. constructor; [|done].
    rewrite length_take. lia.
Qed.

(** The number of pages is the length divided by the page size,
    rounded up. *)
Lemma length_chunks size l :
  0 < size -> length (chunks size l) = (length l + size - 1) / size.
Proof.
  intros Hs. pattern l. apply (chunks_ind _ size Hs); clear l; [|intros l Hl IH].
  - simpl. symmetry. apply Nat.div_small. lia.
  - rewrite chunks_cons by done. cbn [length]. rewrite IH, length_drop.
    assert (0 < length l) by (destruct l; [done | simpl; lia]).
    destruct (decide (length l <= size)) as [Hle|Hgt].
    + replace (length l - size) with 0 by lia.
      rewrite (Nat.div_small (0 + size - 1)) by lia.
      apply (Nat.div_unique _ _ 1 (length l - 1)); lia.
    + replace (length l + size - 1) with ((length l - size + size - 1) + 1 * size) by lia.
      rewrite Nat.div_add by lia. lia.
Qed.

End Chunks.

(** *** One request *)

Section Send.
Context {world : Type}.
Variable respond : world -> request -> outcome * world.
Variable clock : world -> string.

Lemma send_unconfigured fuel self method endpoint params json_data w :
  configured self = false ->
  _send_api_request respond clock fuel self method endpoint params json_data w
  = (Reply (_get_mock_data_for_endpoint (clock w) endpoint), w, []).
Proof. intros H. destruct fuel; simpl; by rewrite H. Qed.

Lemma send_ok fuel self method endpoint params json_data w body w1 :
  configured self = true ->
  respond w (request_of self method endpoint params json_data) = (Ok body, w1) ->
  _send_api_request respond clock (S fuel) self method endpoint params json_data w
  = (Reply body, w1, [Sent (request_of self method endpoint params json_data)]).
Proof. intros Hc Hr. simpl. rewrite Hc. simpl. by rewrite Hr. Qed.

(** The retry step: a 429 whose Retry-After is absent or an integer. *)
Lemma send_rate_limited fuel self method endpoint params json_data w headers w1 delay :
  configured self = true ->
  respond w (request_of self method endpoint params json_data)
    = (HTTPStatusError 429 headers, w1) ->
  Py.int_of_str (headers_get "Retry-After" (pretty RETRY_DELAY) headers)
    = Returned delay ->
  _send_api_request respond clock (S fuel) self method endpoint params json_data w
  = let '(res, w2, evs) :=
      _send_api_request respond clock fuel self method endpoint params json_data w1 in
    (res, w2,
     Sent (request_of self method endpoint params json_data) :: Slept delay :: evs).
Proof.
  intros Hc Hr Hd. cbn [_send_api_request]. rewrite Hc. cbn [negb].
  rewrite Hr. cbn [Z.eqb Pos.eqb]. by rewrite Hd.
Qed.

(** The only exception that can leave [_send_api_request] is the
    ValueError of a Retry-After header that is not an integer. *)
Lemma send_failure_is_ValueError fuel self method endpoint params json_data w e w' evs :
  _send_api_request respond clock fuel self method endpoint params json_data w
    = (Failure e, w', evs) ->
  e = ValueError.
Proof.
  revert w w' evs. induction fuel as [|fuel IH]; intros w w' evs; simpl.
  - destruct (configured self); simpl; congruence.
  - destruct (configured self); simpl; [|congruence].
    destruct (respond w _) as [out w1]. destruct out as [body| |code headers|];
      try congruence.
    destruct (code =? 429)%Z; [|congruence].
    destruct (Py.int_of_str _) as [delay|e'] eqn:Hint.
    + destruct (_send_api_request _ _ fuel _ _ _ _ _ w1) as [[res w2] evs2] eqn:Hrec.
      intros [= -> <- <-]. by eapply IH.
    + intros [= <- <- <-].
      unfold Py.int_of_str in Hint.
      destruct (Py.strip _) as [|c r]; simpl in Hint.
      * congruence.
      * repeat match type of Hint with
               | context [match ?x with _ => _ end] => destruct x
               end; congruence.
Qed.

End Send.

(** *** Paging through a finite data set *)

Section Paged.
Variable style : api_style.
Variable db : list json.
Variable P : Z.
Variable clock : unit -> string.
Variable self : CargAPIClient.
Hypothesis P_pos : (0 < P)%Z.
Hypothesis self_configured : configured self = true.

Local Abbreviation M := (Z.of_nat (length db)).
Local Abbreviation total_of := (if with_total style then M else 0%Z).
Local Abbreviation more_at k := (with_hasMore style && (k + P <? M)%Z).
Local Abbreviation rest k := (drop (Z.to_nat k) db).

Lemma read_page k :
  read_response (page_body style db k P)
  = (JList (slice db k P), JInt total_of, JBool (more_at k)).
Proof. destruct style as [[] [] []]; reflexivity. Qed.

Lemma length_slice k :
  (0 <= k)%Z ->
  Z.of_nat (length (slice db k P)) = Z.min P (Z.max 0 (M - k)).
Proof.
  intros Hk. unfold slice. rewrite length_take, length_drop. lia.
Qed.

Lemma slice_nil k : (0 <= k)%Z -> slice db k P = [] <-> rest k = [].
Proof.
  intros Hk. unfold slice. split; [|by intros ->; destruct (Z.to_nat P)].
  destruct (rest k); [done|]. destruct (Z.to_nat P) eqn:E; [lia|done].
Qed.

Lemma last_page_eval params k its t b :
  Py.get "skip" params = Some (JInt k) ->
  last_page P params (JList its) (JInt t) (JBool b)
  = Returned (if negb b && (0 <? t)%Z
              then (t <=? k + Z.of_nat (length its))%Z
              else (Z.of_nat (length its) <? P)%Z).
Proof.
  intros Hk. unfold last_page, skip_of. rewrite Hk.
  destruct b; simpl; [done|]. by destruct (0 <? t)%Z.
Qed.

(** On the pages of such a remote, the loop's decision is the stop
    rule of the specification. *)
Lemma last_page_stop_rule params k :
  (0 <= k)%Z ->
  Py.get "skip" params = Some (JInt k) ->
  last_page P params (JList (slice db k P)) (JInt total_of) (JBool (more_at k))
  = Returned (stop_rule P k (Z.of_nat (length (slice db k P))) total_of (more_at k)).
Proof.
  intros Hk Hs. rewrite (last_page_eval _ k) by done. f_equal.
  unfold stop_rule. rewrite length_slice by done.
  destruct (with_total style), (with_hasMore style); simpl;
    repeat match goal with
           | |- context [(?a <? ?b)%Z] => destruct (Z.ltb_spec a b)
           | |- context [(?a <=? ?b)%Z] => destruct (Z.leb_spec a b)
           end; simpl; try reflexivity; lia.
Qed.

Lemma paged_request endpoint params k :
  Py.get "skip" params = Some (JInt k) ->
  Py.get "take" params = Some (JInt P) ->
  paged_remote style db tt (request_of self "GET" endpoint (Some params) None)
  = (Ok (page_body style db k P), tt).
Proof.
  intros Hs Ht. unfold paged_remote, int_param. simpl. by rewrite Hs, Ht.
Qed.

Local Abbreviation offsets := (Client.offsets P).

Lemma offsets_S k n : offsets k (S n) = k :: offsets (k + P) n.
Proof.
  unfold Client.offsets. cbn [seq map]. f_equal; [lia|].
  rewrite <- seq_shift, map_map. apply map_ext. intros i. lia.
Qed.

Lemma fetch_loop_paged fuel endpoint params k :
  (0 <= k)%Z ->
  Py.get "skip" params = Some (JInt k) ->
  Py.get "take" params = Some (JInt P) ->
  length (rest k) < fuel ->
  let r := fetch_loop (paged_remote style db) clock P fuel self endpoint params tt in
  pages r = map JList (chunks (Z.to_nat P) (rest k))
  /\ ended r = Exhausted
  /\ exists n, sent_skips (events r) = offsets k n
               /\ length (pages r) <= n <= S (length (pages r)).
Proof.
  revert params k. induction fuel as [|fuel IH]; intros params k Hk Hs Ht Hf; [lia|].
  cbn zeta. cbn [fetch_loop].
  rewrite (send_ok _ _ _ _ _ _ _ _ _ _ _ self_configured (paged_request endpoint params k Hs Ht)).
  rewrite read_page.
  assert (HP : 0 < Z.to_nat P) by lia.
  destruct (Py.truthy (JList (slice db k P))) eqn:Etr; cbn [negb].
  - (* a page was fetched *)
    assert (Hne : rest k <> []).
    { intros E. apply (slice_nil k Hk) in E. rewrite E in Etr. done. }
    rewrite (chunks_cons _ _ HP Hne).
    rewrite last_page_stop_rule by done.
    assert (Hlen := length_slice k Hk).
    assert (Hrest : Z.of_nat (length (rest k)) = Z.max 0 (M - k)).
    { rewrite length_drop. lia. }
    assert (Hpos : (0 < M - k)%Z).
    { destruct (rest k); [done|]. simpl in Hrest. lia. }
    destruct (stop_rule _ _ _ _ _) eqn:Estop.
    + (* last page *)
      assert (Hend : drop (Z.to_nat P) (rest k) = []).
      { apply drop_ge. unfold stop_rule in Estop.
        destruct (with_total style), (with_hasMore style); simpl in Estop;
          repeat match type of Estop with
                 | context [(?a <? ?b)%Z] => destruct (Z.ltb_spec a b)
                 | context [(?a <=? ?b)%Z] => destruct (Z.leb_spec a b)
                 end; simpl in Estop; try discriminate; lia. }
      rewrite Hend, chunks_nil. simpl. split_and!; [done..|].
      exists 1. split; [|lia]. unfold Client.offsets, int_param. simpl. rewrite Hs.
      f_equal. lia.
    + (* go on with the next offset *)
      unfold skip_of. rewrite Hs.
      specialize (IH (Py.set "skip" (JInt (k + P)) params) (k + P)%Z).
      destruct IH as (Hpages & Hended & n & Hsk & Hn).
      * lia.
      * apply PyFacts.get_set_eq.
      * by rewrite PyFacts.get_set_ne.
      * rewrite length_drop in Hf |- *. lia.
      * assert (Hdrop : rest (k + P) = drop (Z.to_nat P) (rest k)).
        { rewrite drop_drop. f_equal. lia. }
        cbn [cons_page pages ended events]. rewrite Hpages, Hended, Hdrop.
        split_and!; [done..|].
        exists (S n). rewrite offsets_S. split.
        -- simpl. unfold int_param at 1. simpl. rewrite Hs. by rewrite Hsk.
        -- simpl. rewrite <- Hdrop, <- Hpages. lia.
  - (* nothing left *)
    apply PyFacts.truthy_list, (slice_nil k Hk) in Etr. rewrite Etr, chunks_nil.
    simpl. split_and!; [done..|].
    exists 1. split; [|lia]. unfold Client.offsets, int_param. simpl. rewrite Hs.
    f_equal. lia.
Qed.

End Paged.

(** *** The generator, whatever the remote does *)

Section AnyRemote.
Context {world : Type}.
Variable respond : world -> request -> outcome * world.
Variable clock : world -> string.

(** An empty item list ends the loop before the [yield]: no run ever
    yields an empty page. *)
Lemma fetch_loop_pages_truthy page_size fuel self endpoint params w :
  Forall (fun page => Py.truthy page = true)
    (pages (fetch_loop respond clock page_size fuel self endpoint params w)).
Proof.
  revert params w. induction fuel as [|fuel IH]; intros params w; [constructor|].
  cbn [fetch_loop].
  destruct (_send_api_request _ _ _ _ _ _ _ _ _) as [[res w1] evs].
  destruct res as [response| |]; try constructor.
  destruct (read_response response) as [[items total] has_more].
  destruct (Py.truthy items) eqn:Etr; cbn [negb]; [|constructor].
  destruct (last_page _ _ _ _ _) as [[]|]; [by repeat constructor| |by repeat constructor].
  destruct (skip_of params); [|repeat constructor; done].
  constructor; [done | apply IH].
Qed.

End AnyRemote.

(** C1.  A remote that serves a data set of [M] items page by page, with
    page size [P]: the generator ends by itself and has yielded the data
    set cut into [ceil(M/P)] pages, whose items put together are the
    data set (so nothing is fetched twice); no page is empty; the
    requests ask for the offsets 0, P, 2P, ..., one per page and at most
    one more; and after each page the loop stops exactly when the stop
    rule of the specification says so.  The page size of the source is
    [PAGE_SIZE]; [get_paginated_resources] is the instance at that
    size. *)
Theorem paginated_fetch_complete (style : api_style) (db : list json) (P : Z)
    (clock : unit -> string) (self : CargAPIClient) (fuel : nat)
    (resource_kind : string) (params : option dict)
    (endpoint_override : option string) :
  (0 < P)%Z ->
  configured self = true ->
  length db < fuel ->
  let r := get_paginated_resources_sized (paged_remote style db) clock P fuel self
             resource_kind params endpoint_override tt in
  let M := Z.of_nat (length db) in
  ended r = Exhausted
  /\ pages r = map JList (chunks (Z.to_nat P) db)
  /\ Z.of_nat (length (pages r)) = ((M + P - 1) / P)%Z
  /\ page_items (pages r) = db
  /\ (NoDup db -> NoDup (page_items (pages r)))
  /\ Forall (fun page => Py.truthy page = true) (pages r)
  /\ (exists n, sent_skips (events r) = offsets P 0 n
                /\ length (pages r) <= n <= S (length (pages r)))
  /\ (forall (current : dict) (k : Z),
        (0 <= k)%Z -> Py.get "skip" current = Some (JInt k) ->
        exists items total has_more,
          read_response (page_body style db k P)
            = (JList items, JInt total, JBool has_more)
          /\ items = slice db k P
          /\ last_page P current (JList items) (JInt total) (JBool has_more)
             = Returned (stop_rule P k (Z.of_nat (length items)) total has_more)).
Proof.
  intros HP Hc Hfuel. cbv zeta. unfold get_paginated_resources_sized.
  set (endpoint := match endpoint_override with Some _ => _ | None => _ end).
  set (start := Py.set "take" _ _).
  set (r := fetch_loop _ _ _ _ _ _ _ _).
  assert (Hsize : 0 < Z.to_nat P) by lia.
  destruct (fetch_loop_paged style db P clock self HP Hc fuel endpoint start 0%Z)
    as (Hpages & Hended & Hskips).
  { lia. }
  { unfold start. rewrite PyFacts.get_set_ne by done. apply PyFacts.get_set_eq. }
  { apply PyFacts.get_set_eq. }
  { rewrite length_drop. lia. }
  change (Z.to_nat 0) with 0 in Hpages. rewrite drop_0 in Hpages.
  fold r in Hpages, Hended, Hskips.
  assert (Hitems : page_items (pages r) = db).
  { rewrite Hpages. unfold page_items. rewrite flat_map_concat_map, map_map.
    simpl. rewrite map_id. by apply concat_chunks. }
  split_and!.
  - done.
  - done.
  - rewrite Hpages, length_map, length_chunks by done.
    rewrite Nat2Z.inj_div, Nat2Z.inj_sub, Nat2Z.inj_add by lia.
    rewrite Z2Nat.id by lia. f_equal.
  - done.
  - by rewrite Hitems.
  - apply fetch_loop_pages_truthy.
  - done.
  - intros current k Hk Hcur. eexists _, _, _. split; [apply read_page|].
    split; [done|]. by apply last_page_stop_rule.
Qed.

Lemma paginated_fetch_complete_witness :
  (0 < 2)%Z
  /\ configured Samples.client = true
  /\ length Samples.five < 6
  /\ pages (get_paginated_resources_sized (paged_remote Samples.full_style Samples.five)
              (fun _ => Samples.noon) 2 6 Samples.client "project" None None tt)
     = [ JList [JInt 1; JInt 2]; JList [JInt 3; JInt 4]; JList [JInt 5] ].
Proof.
  split; [lia|]. split; [reflexivity|]. split; [simpl; lia|].
  destruct (paginated_fetch_complete Samples.full_style Samples.five 2
              (fun _ => Samples.noon) Samples.client 6 "project" None None)
    as (_ & Hpages & _); [lia | reflexivity | simpl; lia |].
  exact Hpages.
Defined.

(** At the page size of the source. *)
Corollary get_paginated_resources_complete (style : api_style) (db : list json)
    (clock : unit -> string) (self : CargAPIClient) (fuel : nat)
    (resource_kind : string) :
  configured self = true ->
  length db < fuel ->
  let r := get_paginated_resources (paged_remote style db) clock fuel self
             resource_kind None None tt in
  ended r = Exhausted
  /\ pages r = map JList (chunks 100 db)
  /\ page_items (pages r) = db.
Proof.
  intros Hc Hf r.
  destruct (paginated_fetch_complete style db PAGE_SIZE clock self fuel
              resource_kind None None) as (H1 & H2 & _ & H4 & _); done.
Qed.

(** *** Rate limiting *)


(** Without the header, the delay is [RETRY_DELAY]. *)
Lemma default_delay : Py.int_of_str (headers_get "Retry-After" (pretty RETRY_DELAY) [])
                      = Returned 60%Z.
Proof. reflexivity. Qed.

(** A remote that always answers 429 is retried for as long as there
    is fuel: the call never returns, and never raises. *)
Lemma persistent_rate_limit_never_returns clock fuel self method endpoint params
    json_data :
  configured self = true ->
  exists evs,
    _send_api_request (scripted (HTTPStatusError 429 [])) clock fuel self method
      endpoint params json_data []
    = (Retrying, [], evs)
    /\ length evs = 2 * fuel.
Proof.
  intros Hc. induction fuel as [|fuel (evs & IH & Hlen)].
  - exists []. simpl. by rewrite Hc.
  - exists (Sent (request_of self method endpoint params json_data) :: Slept 60 :: evs).
    split; [|simpl; lia].
    rewrite (send_rate_limited _ _ _ _ _ _ _ _ _ [] [] 60%Z Hc); [by rewrite IH|done|done].
Qed.

(** C2.  The code at a 429 whose Retry-After header is an HTTP date:
    [int(...)] raises ValueError inside the [except HTTPStatusError]
    handler, where the later [except Exception] clause does not apply.
    The request is not sent again, nothing is slept, and the exception
    leaves [_send_api_request] and the generator that called it. *)
Theorem rate_limit_date_header_raises (fuel : nat) :
  let r := request_of Samples.client "GET" "projects"
             (Some [("skip", JInt 0); ("take", JInt 100)]) None in
  _send_api_request (scripted (Ok (JList []))) (fun _ => Samples.noon) (S fuel)
    Samples.client "GET" "projects" (Some [("skip", JInt 0); ("take", JInt 100)])
    None [HTTPStatusError 429 Samples.retry_after_date]
  = (Failure ValueError, [], [Sent r])
  /\ let run := get_paginated_resources (scripted (Ok (JList [])))
                  (fun _ => Samples.noon) (S fuel) Samples.client "project" None None
                  [HTTPStatusError 429 Samples.retry_after_date] in
     ended run = Propagated ValueError /\ pages run = [] /\ events run = [Sent r].
Proof. split; [reflexivity|]. split_and!; reflexivity. Qed.

(** *** Errors other than 429 *)

(** C3.  When the request fails in the transport, or its body cannot be
    decoded, or the status is an error other than 429, the call returns
    the mock data of the endpoint: it does not raise and it does not
    retry.  The mock data is chosen by resource kind. *)
Theorem send_api_request_fails_soft {world : Type}
    (respond : world -> request -> outcome * world) (clock : world -> string)
    (fuel : nat) (self : CargAPIClient) (method endpoint : string)
    (params : option dict) (json_data : option json) (w w1 : world) (out : outcome) :
  configured self = true ->
  respond w (request_of self method endpoint params json_data) = (out, w1) ->
  match out with
  | Ok _ => False
  | HTTPStatusError status_code _ => status_code <> 429%Z
  | Undecodable | TransportFailure => True
  end ->
  _send_api_request respond clock (S fuel) self method endpoint params json_data w
  = (Reply (_get_mock_data_for_endpoint (clock w1) endpoint), w1,
     [Sent (request_of self method endpoint params json_data)])
  /\ (forall now,
        _get_mock_data_for_endpoint now "projects"
          = JDict [("data", JList _get_mock_projects)]
        /\ _get_mock_data_for_endpoint now "services"
          = JDict [("data", JList (_get_mock_services now))]
        /\ _get_mock_data_for_endpoint now "components"
          = JDict [("data", JList _get_mock_components)]
        /\ _get_mock_data_for_endpoint now "deployments"
          = JDict [("data", JList (_get_mock_deployments now))]).
Proof.
  intros Hc Hr Hout. split; [|by intros now].
  cbn [_send_api_request]. rewrite Hc. cbn [negb]. rewrite Hr.
  destruct out as [body| |code headers|]; try done.
  destruct (Z.eqb_spec code 429); [done|reflexivity].
Qed.

Lemma send_api_request_fails_soft_witness :
  configured Samples.client = true
  /\ _send_api_request (scripted TransportFailure) (fun _ => Samples.noon) 1
       Samples.client "GET" "projects" None None [HTTPStatusError 500 []]
     = (Reply (JDict [("data", JList _get_mock_projects)]), [],
        [Sent (request_of Samples.client "GET" "projects" None None)]).
Proof.
  split; [reflexivity|].
  refine (proj1 (send_api_request_fails_soft (scripted TransportFailure)
                   (fun _ => Samples.noon) 0 Samples.client "GET" "projects" None None
                   [HTTPStatusError 500 []] [] (HTTPStatusError 500 []) _ _ _));
    [reflexivity | reflexivity | simpl; lia].
Defined.

(** *** Other remotes *)

(** A bare list is taken for the complete item set: whatever its length,
    it is yielded as one page and nothing more is requested. *)
Lemma bare_list_is_one_page (db : list json) (page_size : Z) (clock : unit -> string)
    (self : CargAPIClient) (fuel : nat) (resource_kind : string) :
  configured self = true ->
  db <> [] ->
  let r := get_paginated_resources_sized (Samples.bare_list_remote db) clock page_size
             (S fuel) self resource_kind None None tt in
  pages r = [JList db] /\ ended r = Exhausted /\ sent_skips (events r) = [0%Z].
Proof.
  intros Hc Hdb. cbn zeta. unfold get_paginated_resources_sized.
  cbn [fetch_loop]. rewrite (send_ok _ _ _ _ _ _ _ _ _ (JList db) tt Hc eq_refl).
  cbn [read_response]. destruct db as [|x db]; [done|]. cbn [Py.truthy negb].
  rewrite (last_page_eval _ _ 0%Z) by done.
  cbn [negb andb].
  rewrite (proj2 (Z.ltb_lt 0 (Z.of_nat (length (x :: db))))) by (simpl; lia).
  rewrite (proj2 (Z.leb_le (Z.of_nat (length (x :: db)))
                    (0 + Z.of_nat (length (x :: db))))) by lia.
  done.
Qed.

(** Without configuration no request is sent: the mock data of the kind
    is the one page. *)
Example unconfigured_client_yields_mock_data :
  let r := get_paginated_resources (scripted TransportFailure) (fun _ => Samples.noon) 5
             {| base_url := ""; api_token := "" |} "project" None None [] in
  pages r = [JList _get_mock_projects] /\ ended r = Exhausted /\ events r = [].
Proof. by split_and!. Qed.

(** A remote with no items: no page at all. *)
Example empty_data_set_yields_no_page :
  let r := get_paginated_resources (paged_remote Samples.full_style [])
             (fun _ => Samples.noon) 1 Samples.client "project" None None tt in
  pages r = [] /\ ended r = Exhausted.
Proof. by split_and!. Qed.

End ClientFacts.


(** ** The mapping engine *)

Module MappingFacts.
Import ExpressionMapping.

Lemma get_notin k (d : dict) : k ∉ map fst d -> Py.get k d = None.
Proof.
  induction d as [|[k' v] d IH]; simpl; [done|].
  rewrite not_elem_of_cons. intros [Hne Hd].
  destruct (String.eqb k k') eqn:E; [|by apply IH].
  apply String.eqb_eq in E. done.
Qed.

Section Jq.
Variable jq_first : string -> json -> option json.

Lemma transform_relations_get rels item acc name :
  NoDup (map fst rels) ->
  Py.get name (transform_relations jq_first rels item acc)
  = match Py.get name rels with
    | Some e =>
        match yielded jq_first e item with
        | Some v => Some v
        | None => Py.get name acc
        end
    | None => Py.get name acc
    end.
Proof.
  revert acc. induction rels as [|[n0 e0] rest IH]; intros acc Hnd; [done|].
  apply NoDup_cons in Hnd as [Hn0 Hnd]. cbn [fst map] in Hn0, Hnd. fold (map (@fst string json) rest) in Hn0, Hnd.
  cbn [transform_relations]. rewrite IH by done. cbn [Py.get].
  destruct (String.eqb name n0) eqn:E.
  - apply String.eqb_eq in E. subst n0. rewrite (get_notin _ _ Hn0).
    unfold yielded. destruct (evaluate jq_first e0 item) as [v|]; [|done].
    destruct (Py.is_none v); [done|]. apply PyFacts.get_set_eq.
  - apply String.eqb_neq in E.
    assert (Hacc : Py.get name
                     (match evaluate jq_first e0 item with
                      | Some value =>
                          if Py.is_none value then acc else Py.set n0 value acc
                      | None => acc
                      end) = Py.get name acc).
    { destruct (evaluate jq_first e0 item) as [v|]; [|done].
      destruct (Py.is_none v); [done|]. by rewrite PyFacts.get_set_ne. }
    by rewrite Hacc.
Qed.

Lemma yielded_not_null e item v : yielded jq_first e item = Some v -> v <> JNull.
Proof.
  unfold yielded. destruct (evaluate jq_first e item) as [v'|]; [|done].
  destruct v'; simpl; congruence.
Qed.

Lemma transform_fields_get mappings item acc :
  NoDup (map fst mappings) ->
  (forall e, Py.get "relations" mappings = Some e -> Py.is_dict e = true) ->
  exists result,
    transform_fields jq_first mappings item acc = Returned result
    /\ forall f,
         Py.get f result
         = match Py.get f mappings with
           | Some e =>
               match field_value jq_first f e item with
               | Some v => Some v
               | None => Py.get f acc
               end
           | None => Py.get f acc
           end.
Proof.
  revert acc. induction mappings as [|[f0 e0] rest IH]; intros acc Hnd Hrel.
  { exists acc. by split. }
  apply NoDup_cons in Hnd as [Hf0 Hnd]. cbn [fst map] in Hf0, Hnd. fold (map (@fst string json) rest) in Hf0, Hnd.
  assert (Hrest : forall e, Py.get "relations" rest = Some e -> Py.is_dict e = true).
  { intros e He. apply Hrel. cbn [Py.get].
    destruct (String.eqb "relations" f0) eqn:E; [|done].
    apply String.eqb_eq in E. subst f0. by rewrite (get_notin _ _ Hf0) in He. }
  cbn [transform_fields].
  set (acc' := match field_value jq_first f0 e0 item with
               | Some v => Py.set f0 v acc
               | None => acc
               end).
  assert (Hstep : transform_fields jq_first ((f0, e0) :: rest) item acc
                  = transform_fields jq_first rest item acc').
  { cbn [transform_fields]. unfold acc', field_value, yielded.
    destruct (String.eqb f0 "relations") eqn:E.
    - apply String.eqb_eq in E. subst f0.
      specialize (Hrel e0). cbn [Py.get] in Hrel. rewrite String.eqb_refl in Hrel.
      specialize (Hrel eq_refl). destruct e0; try discriminate.
      by destruct (Py.truthy _).
    - destruct (evaluate jq_first e0 item) as [v|]; [|done]. by destruct (Py.is_none v). }
  cbn [transform_fields] in Hstep. rewrite Hstep.
  destruct (IH acc' Hnd Hrest) as (result & Hres & Hget).
  exists result. split; [done|]. intros f. rewrite Hget. cbn [Py.get].
  destruct (String.eqb f f0) eqn:E.
  - apply String.eqb_eq in E. subst f0. rewrite (get_notin _ _ Hf0). unfold acc'.
    destruct (field_value jq_first f e0 item); [apply PyFacts.get_set_eq|done].
  - apply String.eqb_neq in E.
    assert (Hacc : Py.get f acc' = Py.get f acc).
    { unfold acc'. destruct (field_value jq_first f0 e0 item); [|done].
      by rewrite PyFacts.get_set_ne. }
    by rewrite Hacc.
Qed.

End Jq.

Lemma transform_service_relation service obj :
  DirectMapping._transform_service service = Returned obj ->
  DirectMapping.project_relation obj
  = Some (JStr (Py.str (Py.get_or "project_id" (JStr "") service))).
Proof.
  unfold DirectMapping._transform_service. intros H.
  PyFacts.returned H. by injection H as <-.
Qed.

(** C4, as stated, fails on the direct mapping: the service of the
    samples has no [project_id], and [_transform_service] gives it the
    relation [project] with the empty string for value, and the
    properties without a source the value None. *)
Lemma direct_mapping_keeps_missing_project :
  ~ DirectMapping.omits_missing_project DirectMapping._transform_service
  /\ exists obj props,
       DirectMapping._transform_service Samples.orphan_service = Returned obj
       /\ DirectMapping.project_relation obj = Some (JStr "")
       /\ Py.get "properties" obj = Some (JDict props)
       /\ Py.get "version" props = Some JNull.
Proof.
  split.
  - intros H.
    specialize (H Samples.orphan_service _ eq_refl eq_refl). discriminate H.
  - by eexists _, _.
Qed.

(** C4, amended.  In the expression mapping each field and each relation
    is evaluated on its own: it is in the result exactly when its
    expression yields a value other than null, with that value, and it is
    left out when the expression yields null or its evaluation fails;
    nothing in the result is null; a [relations] mapping of which no
    relation is left is left out itself.  In the direct mapping,
    [_transform_service] always sets [relations.project], to the string
    of [project_id], which is the empty string when there is none. *)
Theorem mapping_omits_or_defaults (jq_first : string -> json -> option json)
    (item : json) (mappings : dict) :
  NoDup (map fst mappings) ->
  (forall e, Py.get "relations" mappings = Some e ->
             exists rels, e = JDict rels /\ NoDup (map fst rels)) ->
  (exists result,
     _transform_item jq_first item mappings = Returned result
     /\ (forall f v, Py.get f result = Some v -> v <> JNull)
     /\ (forall f, f <> "relations" ->
                   Py.get f result = (Py.get f mappings ≫= fun e => yielded jq_first e item))
     /\ (forall rels, Py.get "relations" mappings = Some (JDict rels) ->
           match Py.get "relations" result with
           | Some (JDict relations) =>
               relations <> []
               /\ forall name,
                    Py.get name relations
                    = (Py.get name rels ≫= fun e => yielded jq_first e item)
           | Some _ => False
           | None =>
               forall name e, Py.get name rels = Some e -> yielded jq_first e item = None
           end)
     /\ (Py.get "relations" mappings = None -> Py.get "relations" result = None))
  /\ (forall service obj,
        Py.get "project_id" service = None ->
        DirectMapping._transform_service service = Returned obj ->
        DirectMapping.project_relation obj = Some (JStr "")).
Proof.
  intros Hnd Hrel. split.
  - destruct (transform_fields_get jq_first mappings item [] Hnd) as (result & Hres & Hget).
    { intros e He. destruct (Hrel e He) as (rels & -> & _). done. }
    assert (Hrels : forall rels name, NoDup (map fst rels) ->
              Py.get name (transform_relations jq_first rels item [])
              = (Py.get name rels ≫= fun e => yielded jq_first e item)).
    { intros rels name Hr. rewrite transform_relations_get by done.
      destruct (Py.get name rels) as [e|]; [|done]. simpl.
      by destruct (yielded jq_first e item). }
    exists result. split; [done|]. split_and!.
    + intros f v. rewrite Hget. destruct (Py.get f mappings) as [e|]; [|done].
      unfold field_value. destruct (String.eqb f "relations").
      * destruct e; try done. destruct (Py.truthy _); [|done]. by intros [= <-].
      * destruct (yielded jq_first e item) as [v'|] eqn:E; [|done].
        intros [= <-]. by eapply yielded_not_null.
    + intros f Hf. rewrite Hget. destruct (Py.get f mappings) as [e|]; [|done].
      unfold field_value. apply String.eqb_neq in Hf. rewrite Hf. simpl.
      by destruct (yielded jq_first e item).
    + intros rels Hm. destruct (Hrel _ Hm) as (rels' & [= <-] & Hr).
      rewrite Hget, Hm. unfold field_value. cbn [String.eqb Ascii.eqb Bool.eqb].
      cbn zeta. destruct (transform_relations jq_first rels item []) as [|kv r] eqn:E; simpl.
      * intros name e He. specialize (Hrels rels name Hr).
        rewrite E, He in Hrels. simpl in Hrels. done.
      * split; [done|]. intros name.
        change (Py.get name (kv :: r) = (Py.get name rels ≫= fun e => yielded jq_first e item)).
        rewrite <- E. by apply Hrels.
    + intros Hm. by rewrite Hget, Hm.
  - intros service obj Hnone Hobj.
    rewrite (transform_service_relation _ _ Hobj). unfold Py.get_or.
    by rewrite Hnone.
Qed.

Lemma mapping_omits_or_defaults_witness :
  NoDup (map fst Samples.service_mapping)
  /\ (forall e, Py.get "relations" Samples.service_mapping = Some e ->
                exists rels, e = JDict rels /\ NoDup (map fst rels))
  /\ exists result,
       _transform_item jq_paths (JDict Samples.orphan_service) Samples.service_mapping
         = Returned result
       /\ (forall f v, Py.get f result = Some v -> v <> JNull).
Proof.
  assert (H1 : NoDup (map fst Samples.service_mapping)).
  { apply (bool_decide_unpack _). vm_compute. exact I. }
  assert (H2 : forall e, Py.get "relations" Samples.service_mapping = Some e ->
                         exists rels, e = JDict rels /\ NoDup (map fst rels)).
  { intros e [= <-]. eexists. split; [reflexivity|].
    apply (bool_decide_unpack _). vm_compute. exact I. }
  split; [exact H1|]. split; [exact H2|].
  destruct (mapping_omits_or_defaults jq_paths (JDict Samples.orphan_service)
              Samples.service_mapping H1 H2) as [(result & Hres & Hnull & _) _].
  exists result. split; [exact Hres | exact Hnull].
Defined.

(** On the samples: the relation whose source is missing is left out, and
    with it the whole [relations] entry. *)
Example transform_item_orphan_service :
  _transform_item jq_paths (JDict Samples.orphan_service) Samples.service_mapping
  = Returned [ ("identifier", JInt 101);
               ("title", JStr "User Authentication Service");
               ("properties", JStr "Running") ].
Proof. reflexivity. Qed.

(** A [relations] entry that is not a mapping is iterated outside of any
    [try]: the transform raises. *)
Example transform_item_relations_not_a_mapping :
  _transform_item jq_paths (JDict Samples.orphan_service)
    [("identifier", JStr ".id"); ("relations", JStr ".project_id")]
  = Raised AttributeError.
Proof. reflexivity. Qed.

End MappingFacts.

(** ** The validators *)

Module ValidatorFacts.
Import Validator.

Lemma nonempty_of_elem {A} (x : A) (l : list A) : x ∈ l -> l <> [].
Proof. intros H ->. by apply not_elem_of_nil in H. Qed.

Lemma elem_of_flat_map {A B} (f : A -> list B) (l : list A) (x : A) (y : B) :
  x ∈ l -> y ∈ f x -> y ∈ flat_map f l.
Proof.
  rewrite !list_elem_of_In. intros Hx Hy. apply in_flat_map. eauto.
Qed.

Lemma flat_map_nil_inv {A B} (f : A -> list B) (l : list A) (x : A) :
  flat_map f l = [] -> x ∈ l -> f x = [].
Proof.
  induction l as [|a l IH]; simpl; intros H Hx.
  - by apply not_elem_of_nil in Hx.
  - apply app_eq_nil in H as [Ha Hl].
    apply elem_of_cons in Hx as [->|Hx]; [done | by apply IH].
Qed.

(** *** Required fields *)

Lemma missing_test field obj :
  Rules.missing_or_empty field obj
  <-> negb (Py.mem field obj) || negb (Py.truthy (Py.get_or field JNull obj)) = true.
Proof.
  unfold Rules.missing_or_empty, Py.mem, Py.get_or.
  destruct (Py.get field obj) as [v|]; simpl; [|done].
  destruct (Py.truthy v); simpl; split; congruence.
Qed.

Lemma check_required_missing obj obj_id field :
  field ∈ required_fields ->
  Rules.missing_or_empty field obj ->
  missing_or_empty obj_id field ∈ check_required obj obj_id.
Proof.
  intros Hf Hm. apply (elem_of_flat_map _ _ field); [done|].
  apply missing_test in Hm. rewrite Hm. apply list_elem_of_singleton. done.
Qed.

Lemma check_required_nil obj obj_id field :
  check_required obj obj_id = [] ->
  field ∈ required_fields ->
  exists v, Py.get field obj = Some v /\ Py.truthy v = true.
Proof.
  intros Hnil Hf. apply (flat_map_nil_inv _ _ field) in Hnil; [|done].
  unfold Py.mem, Py.get_or in Hnil.
  destruct (Py.get field obj) as [v|]; [|done]. exists v. split; [done|].
  by destruct (Py.truthy v).
Qed.

Section Registry.
Variable blueprints : list blueprint.

Lemma check_blueprint_returns obj obj_id :
  Rules.blueprint_hashable obj ->
  exists unknown, check_blueprint blueprints obj obj_id = Returned unknown.
Proof.
  unfold Rules.blueprint_hashable, check_blueprint. intros H.
  destruct (Py.truthy (Py.get_or "blueprint" JNull obj)); [|by eexists].
  specialize (H eq_refl).
  destruct (Py.get_or "blueprint" JNull obj); try discriminate; by eexists.
Qed.

Lemma check_blueprint_raises obj obj_id :
  ~ Rules.blueprint_hashable obj ->
  check_blueprint blueprints obj obj_id = Raised TypeError.
Proof.
  unfold Rules.blueprint_hashable, check_blueprint. intros H.
  destruct (Py.get_or "blueprint" JNull obj) as [| | | | |l|d]; simpl in *;
    try (exfalso; apply H; done).
  - destruct l; [exfalso; apply H; done | done].
  - destruct d; [exfalso; apply H; done | done].
Qed.

(** The result of [_validate_single_object], part by part. *)
Lemma validate_single_parts obj obj_id errors warnings :
  _validate_single_object blueprints obj obj_id = Returned (errors, warnings) ->
  exists unknown,
    check_blueprint blueprints obj obj_id = Returned unknown
    /\ errors = check_required obj obj_id ++ unknown
               ++ check_identifier obj obj_id
               ++ (check_properties obj obj_id).1
               ++ check_relations obj obj_id
    /\ warnings = (check_properties obj obj_id).2.
Proof.
  unfold _validate_single_object. intros H.
  apply PyFacts.bind_Returned in H as (unknown & Hu & H).
  exists unknown. split; [done|].
  destruct (check_properties obj obj_id) as [perrors pwarnings].
  injection H as <- <-. by rewrite <- !app_assoc.
Qed.

Lemma validate_single_returns obj obj_id :
  Rules.blueprint_hashable obj ->
  exists errors warnings,
    _validate_single_object blueprints obj obj_id = Returned (errors, warnings).
Proof.
  intros H. destruct (check_blueprint_returns obj obj_id H) as (unknown & Hu).
  unfold _validate_single_object. rewrite Hu. simpl.
  destruct (check_properties obj obj_id). by eexists _, _.
Qed.

Lemma port_validator_requires_fields : Rules.requires_fields (Rules.port_validator blueprints).
Proof.
  intros obj obj_id errors warnings field Hf Hm Hv.
  apply validate_single_parts in Hv as (unknown & _ & -> & _).
  apply (nonempty_of_elem (missing_or_empty obj_id field)).
  apply elem_of_app. left. by apply check_required_missing.
Qed.

End Registry.

(** C5, as stated, fails on [validate_object_against_blueprint]: it tests
    [field not in obj] only, and passes an object whose identifier is the
    empty string without an error. *)
Lemma blueprint_validator_accepts_empty_identifier :
  ~ Rules.requires_fields (Rules.blueprint_validator Samples.project_blueprint)
  /\ BlueprintValidator.validate_object_against_blueprint Samples.unnamed_project
       Samples.project_blueprint "carg-project[0]" = Returned []
  /\ Py.get "identifier" Samples.unnamed_project = Some (JStr "").
Proof.
  split; [|done]. intros H.
  apply (H Samples.unnamed_project "carg-project[0]" [] [] "identifier"); try done.
  apply elem_of_cons. by left.
Qed.

(** C5, amended.  [PortObjectValidator._validate_single_object], on an
    object whose blueprint value can be hashed, returns, and records the
    error "Missing or empty required field" for each of identifier, title
    and blueprint that is missing or empty; an object that it passes
    without error has the three of them present and non-empty.
    [validate_object_against_blueprint] records "Missing required field"
    for each of the three that is missing, and nothing for one that is
    present and empty: an object that it passes without error has the
    three of them present. *)
Theorem required_fields_by_validator (blueprints : list blueprint) (bp : blueprint)
    (obj : dict) (obj_id : string) :
  Rules.blueprint_hashable obj ->
  (exists errors warnings,
     _validate_single_object blueprints obj obj_id = Returned (errors, warnings)
     /\ (forall field, field ∈ required_fields ->
                       Rules.missing_or_empty field obj ->
                       missing_or_empty obj_id field ∈ errors)
     /\ (errors = [] ->
         forall field, field ∈ required_fields ->
                       exists v, Py.get field obj = Some v /\ Py.truthy v = true))
  /\ (forall errors,
        BlueprintValidator.validate_object_against_blueprint obj bp obj_id
          = Returned errors ->
        (forall field, field ∈ required_fields ->
                       Py.get field obj = None ->
                       BlueprintValidator.missing_required obj_id field ∈ errors)
        /\ (errors = [] ->
            forall field, field ∈ required_fields -> Py.mem field obj = true)).
Proof.
  intros Hh. split.
  - destruct (validate_single_returns blueprints obj obj_id Hh) as (errors & warnings & Hv).
    exists errors, warnings. split; [done|].
    apply validate_single_parts in Hv as (unknown & _ & -> & _). split.
    + intros field Hf Hm. apply elem_of_app. left. by apply check_required_missing.
    + intros Hnil field Hf. apply app_eq_nil in Hnil as [Hnil _].
      by apply (check_required_nil obj obj_id).
  - intros errors Hv. unfold BlueprintValidator.validate_object_against_blueprint in Hv.
    PyFacts.returned Hv. injection Hv as <-. split.
    + intros field Hf Hnone. apply elem_of_app. left.
      apply (elem_of_flat_map _ _ field); [done|].
      unfold Py.mem. rewrite Hnone. apply list_elem_of_singleton. done.
    + intros Hnil field Hf. apply app_eq_nil in Hnil as [Hnil _].
      apply (flat_map_nil_inv _ _ field) in Hnil; [|done].
      cbv beta in Hnil. by destruct (Py.mem field obj).
Qed.

Lemma required_fields_by_validator_witness :
  Rules.blueprint_hashable Samples.unnamed_project
  /\ exists errors warnings,
       _validate_single_object Samples.registry Samples.unnamed_project "carg-project[0]"
         = Returned (errors, warnings)
       /\ missing_or_empty "carg-project[0]" "identifier" ∈ errors.
Proof.
  assert (H : Rules.blueprint_hashable Samples.unnamed_project) by (intros _; reflexivity).
  split; [exact H|].
  destruct (required_fields_by_validator Samples.registry Samples.project_blueprint
              Samples.unnamed_project "carg-project[0]" H)
    as [(errors & warnings & Hv & Hmiss & _) _].
  exists errors, warnings. split; [exact Hv|].
  apply Hmiss; [apply elem_of_cons; by left | reflexivity].
Defined.

(** *** The validation pass *)

Section Pass.
Variable blueprints : list blueprint.

Lemma report_returned kind i obj :
  Rules.blueprint_hashable obj ->
  _validate_single_object blueprints obj (obj_id_of kind i)
  = Returned (Rules.report blueprints kind i obj).
Proof.
  intros H. unfold Rules.report.
  by destruct (validate_single_returns blueprints obj (obj_id_of kind i) H)
    as (errors & warnings & ->).
Qed.

Lemma validate_objects_spec kind objects i kr res :
  Forall Rules.blueprint_hashable objects ->
  let rs := Rules.reports blueprints kind i objects in
  validate_objects blueprints kind i objects kr res
  = Returned
      ({| count := count kr;
          valid_objects := valid_objects kr + length (filter (fun r => Rules.no_errors r = true) rs);
          errors := errors kr ++ concat (map fst rs);
          warnings := warnings kr ++ concat (map snd rs) |},
       {| valid := valid res && forallb Rules.no_errors rs;
          total_objects := total_objects res;
          validation_errors := validation_errors res ++ concat (map fst rs);
          validation_warnings := validation_warnings res ++ concat (map snd rs);
          summary := summary res |}).
Proof.
  intros Hh. revert i kr res.
  induction Hh as [|obj rest Hobj Hrest IH]; intros i kr res; cbn zeta.
  - simpl. rewrite !app_nil_r, Nat.add_0_r, andb_true_r. by destruct kr, res.
  - cbn [validate_objects Rules.reports]. rewrite report_returned by done.
    destruct (Rules.report blueprints kind i obj) as [es ws] eqn:Er.
    cbn [mbind exc_bind]. 
    destruct es as [|e es], ws as [|w ws]; rewrite IH; clear IH;
      cbn [count valid_objects errors warnings valid total_objects
           validation_errors validation_warnings summary
           map concat fst snd forallb Rules.no_errors];
      rewrite ?filter_cons_True, ?filter_cons_False by done;
      cbn [length andb app];
      rewrite ?andb_false_r, ?app_nil_r, <- ?app_assoc;
      f_equal; f_equal; f_equal; cbn [andb app]; try done; lia.
Qed.

Lemma validate_kinds_spec port_objects res :
  Forall (fun ko => Forall Rules.blueprint_hashable (snd ko)) port_objects ->
  let rs := Rules.all_reports blueprints port_objects in
  exists res',
    validate_kinds blueprints port_objects res = Returned res'
    /\ valid res' = valid res && forallb Rules.no_errors rs
    /\ total_objects res' = total_objects res + length rs
    /\ validation_errors res' = validation_errors res ++ concat (map fst rs)
    /\ validation_warnings res' = validation_warnings res ++ concat (map snd rs).
Proof.
  intros Hh. revert res.
  induction Hh as [|[kind objects] rest Hobjs Hrest IH]; intros res; cbn zeta.
  - exists res. simpl. by rewrite !app_nil_r, Nat.add_0_r, andb_true_r.
  - cbn [validate_kinds]. rewrite validate_objects_spec by done.
    cbn [mbind exc_bind].
    edestruct IH as (res' & -> & Hv & Ht & He & Hw). exists res'.
    split; [done|]. rewrite Hv, Ht, He, Hw.
    cbn [valid total_objects validation_errors validation_warnings].
    unfold Rules.all_reports. cbn [flat_map fst snd].
    rewrite forallb_app, !map_app, !concat_app, length_app, !app_assoc, andb_assoc.
    split_and!; try done.
    assert (Hlen : forall i, length (Rules.reports blueprints kind i objects) = length objects).
    { clear. induction objects as [|o os IHo]; intros i; simpl; [done|]. by rewrite IHo. }
    rewrite Hlen. lia.
Qed.

(** On objects whose blueprint values can be hashed, the pass reports on
    every object of every kind: all errors and all warnings are there, in
    order, and the flag is the conjunction over the objects. *)
Lemma validate_port_objects_exhaustive port_objects :
  Forall (fun ko => Forall Rules.blueprint_hashable (snd ko)) port_objects ->
  let rs := Rules.all_reports blueprints port_objects in
  exists res,
    validate_port_objects blueprints port_objects = Returned res
    /\ valid res = forallb Rules.no_errors rs
    /\ (valid res = true <-> validation_errors res = [])
    /\ total_objects res = length rs
    /\ validation_errors res = concat (map fst rs)
    /\ validation_warnings res = concat (map snd rs).
Proof.
  intros Hh. cbn zeta. unfold validate_port_objects.
  edestruct (validate_kinds_spec port_objects) as (res & -> & Hv & Ht & He & Hw); [done|].
  exists res. cbn in Hv, Ht, He, Hw. split_and!; try done.
  rewrite Hv, He. clear.
  induction (Rules.all_reports blueprints port_objects) as [|[es ws] rs IH]; [done|].
  cbn [forallb map concat fst]. unfold Rules.no_errors at 1. cbn [fst].
  destruct es; cbn [andb app]; [done|]. split; discriminate.
Qed.

End Pass.

(** C6.  The code on a mapping whose first object has a list for
    blueprint: the registry lookup [blueprint_name not in
    self.blueprints] raises TypeError, which nothing catches.  No result
    is returned: the second object of the kind and the objects of the
    second kind, which lack required fields, are never looked at. *)
Theorem validation_stops_on_unhashable_blueprint :
  validate_port_objects Samples.registry
    [ ("carg-service", [Samples.listed_blueprint; []]);
      ("carg-project", [Samples.unnamed_project]) ]
  = Raised TypeError
  /\ (exists errors warnings,
        _validate_single_object Samples.registry [] "carg-service[1]"
          = Returned (errors, warnings) /\ errors <> [])
  /\ (exists errors warnings,
        _validate_single_object Samples.registry Samples.unnamed_project "carg-project[0]"
          = Returned (errors, warnings) /\ errors <> []).
Proof. split; [reflexivity|]. split; by eexists _, _. Qed.

(** *** Properties *)

Lemma check_type_conforms obj_path name t v :
  BlueprintValidator.check_type obj_path name (Some t) v
  = if Rules.conforms t v then [] else [BlueprintValidator.should_be obj_path name t v].
Proof.
  unfold BlueprintValidator.check_type, Rules.conforms.
  repeat match goal with
         | |- context [String.eqb t ?s] =>
             destruct (String.eqb_spec t s) as [->|_]; [by case_match|]
         end.
  done.
Qed.

Lemma conforms_unknown_type t v :
  t ∉ ["string"; "number"; "boolean"; "array"] -> Rules.conforms t v = true.
Proof.
  intros Ht. unfold Rules.conforms.
  repeat match goal with
         | |- context [String.eqb t ?s] =>
             destruct (String.eqb_spec t s) as [->|_];
             [exfalso; apply Ht; rewrite !elem_of_cons; eauto 10|]
         end.
  done.
Qed.

Lemma blueprint_validator_parts bp obj obj_path errors :
  BlueprintValidator.validate_object_against_blueprint obj bp obj_path = Returned errors ->
  exists perrors rerrors,
    BlueprintValidator.check_properties obj bp obj_path = Returned perrors
    /\ BlueprintValidator.check_relations obj bp obj_path = Returned rerrors
    /\ errors = BlueprintValidator.check_required obj obj_path ++ perrors ++ rerrors.
Proof.
  unfold BlueprintValidator.validate_object_against_blueprint. intros H.
  apply PyFacts.bind_Returned in H as (perrors & Hp & H).
  apply PyFacts.bind_Returned in H as (rerrors & Hr & H).
  injection H as <-. by exists perrors, rerrors.
Qed.

Lemma blueprint_validator_mismatch bp obj obj_path props name value t errors :
  Py.get "properties" obj = Some (JDict props) ->
  Py.get name props = Some value ->
  Rules.declared_type bp name = Some t ->
  Rules.conforms t value = false ->
  BlueprintValidator.validate_object_against_blueprint obj bp obj_path = Returned errors ->
  BlueprintValidator.should_be obj_path name t value ∈ errors.
Proof.
  intros Hprops Hname Hdecl Hconf Hv.
  apply blueprint_validator_parts in Hv as (perrors & rerrors & Hp & _ & ->).
  apply elem_of_app. right. apply elem_of_app. left.
  unfold BlueprintValidator.check_properties in Hp. rewrite Hprops in Hp.
  unfold Rules.declared_type in Hdecl.
  destruct (bp_schema_properties bp) as [schema|]; [|done].
  injection Hp as <-.
  apply (elem_of_flat_map _ _ (name, value)); [by apply PyFacts.get_Some_in|].
  cbn [fst snd].
  destruct (BlueprintValidator.declared name schema) as [[t'|]|]; try done.
  injection Hdecl as ->. rewrite check_type_conforms, Hconf.
  apply list_elem_of_singleton. done.
Qed.

Lemma port_validator_null_warning blueprints obj obj_id props name errors warnings :
  Py.get "properties" obj = Some (JDict props) ->
  Py.get name props = Some JNull ->
  _validate_single_object blueprints obj obj_id = Returned (errors, warnings) ->
  property_null obj_id name ∈ warnings.
Proof.
  intros Hprops Hname Hv.
  apply validate_single_parts in Hv as (unknown & _ & _ & ->).
  unfold check_properties. rewrite Hprops. cbn [snd].
  apply (elem_of_flat_map _ _ (name, JNull)); [by apply PyFacts.get_Some_in|].
  apply list_elem_of_singleton. done.
Qed.

Lemma port_validator_null_is_no_error blueprints :
  Rules.null_property_is_no_error (Rules.port_validator blueprints).
Proof.
  intros identifier title bn name obj_id errors warnings H1 H2.
  apply validate_single_parts in H1 as (u1 & Hu1 & He1 & _).
  apply validate_single_parts in H2 as (u2 & Hu2 & -> & _).
  unfold check_blueprint in Hu1, Hu2. cbn in Hu1, Hu2. rewrite Hu1 in Hu2.
  injection Hu2 as <-. rewrite He1 at 1.
  reflexivity.
Qed.

(** C7, as stated, holds of neither validator.  [PortObjectValidator]
    passes a budget that is a string although the blueprint declares a
    number: it has no type check.  [validate_object_against_blueprint]
    records a null status as an error, and has no warnings at all. *)
Lemma no_validator_has_all_property_rules :
  ~ Rules.property_rules Samples.project_blueprint (Rules.port_validator Samples.registry)
  /\ ~ Rules.property_rules Samples.project_blueprint
        (Rules.blueprint_validator Samples.project_blueprint)
  /\ _validate_single_object Samples.registry
       (Samples.project_with [("properties", JDict [("budget", JStr "lots")])])
       "carg-project[0]" = Returned ([], [])
  /\ BlueprintValidator.validate_object_against_blueprint
       (Samples.project_with [("properties", JDict [("status", JNull)])])
       Samples.project_blueprint "carg-project[0]"
     = Returned ["carg-project[0]: Property 'status' should be string, got NoneType"].
Proof.
  split_and!; [| |reflexivity|reflexivity].
  - intros (_ & Htypes & _).
    by apply (Htypes (Samples.project_with [("properties", JDict [("budget", JStr "lots")])])
                "carg-project[0]" [("budget", JStr "lots")] "budget" (JStr "lots")
                "number" [] []).
  - intros (_ & _ & Hwarn & _).
    by apply (Hwarn (Samples.project_with [("properties", JDict [("status", JNull)])])
                "carg-project[0]" [("status", JNull)] "status"
                ["carg-project[0]: Property 'status' should be string, got NoneType"] []).
Qed.

(** C7, amended.  [PortObjectValidator._validate_single_object] records
    an error when [properties] is present and not a mapping, and for a
    mapping records no error at all, whatever the types of its values,
    and one warning for each value that is null.
    [validate_object_against_blueprint] checks each property of a
    mapping whose name the blueprint schema declares with a type: a
    value that does not have the runtime type of a declared string,
    number, boolean or array is recorded as an error, null included;
    other declared types are not checked; it records no warning. *)
Theorem property_rules_by_validator (blueprints : list blueprint) (bp : blueprint) :
  Rules.properties_must_be_mapping (Rules.port_validator blueprints)
  /\ (forall obj obj_id props,
        Py.get "properties" obj = Some (JDict props) ->
        (check_properties obj obj_id).1 = [])
  /\ (forall obj obj_id props name errors warnings,
        Py.get "properties" obj = Some (JDict props) ->
        Py.get name props = Some JNull ->
        _validate_single_object blueprints obj obj_id = Returned (errors, warnings) ->
        property_null obj_id name ∈ warnings)
  /\ Rules.null_property_warns (Rules.port_validator blueprints)
  /\ Rules.checks_declared_types bp (Rules.blueprint_validator bp)
  /\ (forall obj obj_path props name value t errors,
        Py.get "properties" obj = Some (JDict props) ->
        Py.get name props = Some value ->
        Rules.declared_type bp name = Some t ->
        Rules.conforms t value = false ->
        BlueprintValidator.validate_object_against_blueprint obj bp obj_path
          = Returned errors ->
        BlueprintValidator.should_be obj_path name t value ∈ errors)
  /\ (forall t, t ∈ ["string"; "number"; "boolean"; "array"] ->
                Rules.conforms t JNull = false)
  /\ (forall t v, t ∉ ["string"; "number"; "boolean"; "array"] ->
                  Rules.conforms t v = true)
  /\ (forall obj_path name t v,
        BlueprintValidator.check_type obj_path name (Some t) v
        = if Rules.conforms t v then []
          else [BlueprintValidator.should_be obj_path name t v])
  /\ (forall obj obj_path errors warnings,
        Rules.blueprint_validator bp obj obj_path = Returned (errors, warnings) ->
        warnings = [])
  /\ Rules.null_property_is_no_error (Rules.port_validator blueprints).
Proof.
  split_and!; [..|apply port_validator_null_is_no_error].
  - intros obj obj_id v errors warnings Hp Hd Hv.
    apply validate_single_parts in Hv as (unknown & _ & -> & _).
    apply (nonempty_of_elem (properties_not_dict obj_id)).
    rewrite !elem_of_app. right. right. right. left.
    unfold check_properties. rewrite Hp.
    destruct v; try discriminate; apply list_elem_of_singleton; done.
  - intros obj obj_id props Hp. unfold check_properties. by rewrite Hp.
  - apply port_validator_null_warning.
  - intros obj obj_id props name errors warnings Hp Hn Hv.
    eapply nonempty_of_elem, port_validator_null_warning; done.
  - intros obj obj_id props name value t errors warnings Hp Hn _ Hd Hc Hv.
    unfold Rules.blueprint_validator in Hv.
    apply PyFacts.bind_Returned in Hv as (errs & Hv & [= <- <-]).
    eapply nonempty_of_elem, blueprint_validator_mismatch; done.
  - intros. by eapply blueprint_validator_mismatch.
  - intros t Ht. repeat (apply elem_of_cons in Ht as [->|Ht]; [done|]).
    by apply not_elem_of_nil in Ht.
  - apply conforms_unknown_type.
  - apply check_type_conforms.
  - intros obj obj_path errors warnings Hv. unfold Rules.blueprint_validator in Hv.
    by apply PyFacts.bind_Returned in Hv as (errs & Hv & [= <- <-]).
Qed.

Lemma property_rules_by_validator_witness :
  exists errors,
    BlueprintValidator.validate_object_against_blueprint
      (Samples.project_with [("properties", JDict [("budget", JStr "lots")])])
      Samples.project_blueprint "carg-project[0]" = Returned errors
    /\ BlueprintValidator.should_be "carg-project[0]" "budget" "number" (JStr "lots")
         ∈ errors.
Proof.
  eexists. split; [reflexivity|].
  refine (proj1 (proj2 (proj2 (proj2 (proj2 (proj2
            (property_rules_by_validator Samples.registry Samples.project_blueprint))))))
            (Samples.project_with [("properties", JDict [("budget", JStr "lots")])])
            "carg-project[0]" [("budget", JStr "lots")] "budget" (JStr "lots") "number" _
            _ _ _ _ _); reflexivity.
Defined.

(** *** Relations *)

Lemma port_validator_relation_not_string blueprints obj obj_id rels name value
    errors warnings :
  Py.get "relations" obj = Some (JDict rels) ->
  Py.get name rels = Some value ->
  Py.is_str value = false ->
  _validate_single_object blueprints obj obj_id = Returned (errors, warnings) ->
  relation_not_string obj_id name ∈ errors.
Proof.
  intros Hrels Hname Hstr Hv.
  apply validate_single_parts in Hv as (unknown & _ & -> & _).
  rewrite !elem_of_app. do 4 right.
  unfold check_relations. rewrite Hrels.
  apply (elem_of_flat_map _ _ (name, value)); [by apply PyFacts.get_Some_in|].
  cbn [fst snd]. rewrite Hstr. apply list_elem_of_singleton. done.
Qed.

Lemma blueprint_validator_unknown_relation bp obj obj_path rels name value declared
    errors :
  Py.get "relations" obj = Some (JDict rels) ->
  Py.get name rels = Some value ->
  bp_relations bp = Some declared ->
  name ∉ declared ->
  BlueprintValidator.validate_object_against_blueprint obj bp obj_path = Returned errors ->
  BlueprintValidator.unknown_relation obj_path name ∈ errors.
Proof.
  intros Hrels Hname Hdecl Hnot Hv.
  apply blueprint_validator_parts in Hv as (perrors & rerrors & _ & Hr & ->).
  rewrite !elem_of_app. do 2 right.
  unfold BlueprintValidator.check_relations in Hr. rewrite Hrels, Hdecl in Hr.
  injection Hr as <-.
  apply (elem_of_flat_map _ _ (name, value)); [by apply PyFacts.get_Some_in|].
  cbn [fst snd]. rewrite bool_decide_eq_false_2 by done.
  apply list_elem_of_singleton. done.
Qed.

Lemma flat_map_all_nil {A B} (f : A -> list B) (l : list A) :
  Forall (fun x => f x = []) l -> flat_map f l = [].
Proof. induction 1 as [|x l Hx _ IH]; simpl; [done|]. by rewrite Hx, IH. Qed.

(** C8, as stated, holds of neither validator.  [PortObjectValidator]
    passes a relation that the blueprint does not declare: it does not
    look at relation names.  [validate_object_against_blueprint] passes a
    relation whose value is a number: it does not look at relation
    values. *)
Lemma no_validator_has_all_relation_rules :
  ~ Rules.relation_rules Samples.service_blueprint (Rules.port_validator Samples.registry)
  /\ ~ Rules.relation_rules Samples.service_blueprint
        (Rules.blueprint_validator Samples.service_blueprint)
  /\ _validate_single_object Samples.registry
       (Samples.service_with [("relations", JDict [("owner", JStr "1")])])
       "carg-service[0]" = Returned ([], [])
  /\ BlueprintValidator.validate_object_against_blueprint
       (Samples.service_with [("relations", JDict [("project", JInt 1)])])
       Samples.service_blueprint "carg-service[0]" = Returned [].
Proof.
  split_and!; [| |reflexivity|reflexivity].
  - intros (_ & _ & Hnames).
    apply (Hnames (Samples.service_with [("relations", JDict [("owner", JStr "1")])])
             "carg-service[0]" [("owner", JStr "1")] "owner" (JStr "1") ["project"] [] []);
      try done.
    rewrite list_elem_of_singleton. done.
  - intros (_ & Hvalues & _).
    by apply (Hvalues (Samples.service_with [("relations", JDict [("project", JInt 1)])])
                "carg-service[0]" [("project", JInt 1)] "project" (JInt 1) [] []).
Qed.

(** C8, amended.  [PortObjectValidator._validate_single_object] records
    an error when [relations] is present and not a mapping, and one for
    each relation whose value is not a string; the names play no part: a
    mapping of strings passes its check whatever the names.
    [validate_object_against_blueprint], for a blueprint that has a
    relation set, records an error for each relation of a mapping whose
    name is not in the set; the values play no part: a mapping of
    declared names passes its check whatever the values. *)
Theorem relation_rules_by_validator (blueprints : list blueprint) (bp : blueprint) :
  Rules.relations_must_be_mapping (Rules.port_validator blueprints)
  /\ Rules.relation_values_are_strings (Rules.port_validator blueprints)
  /\ (forall obj obj_id rels name value errors warnings,
        Py.get "relations" obj = Some (JDict rels) ->
        Py.get name rels = Some value ->
        Py.is_str value = false ->
        _validate_single_object blueprints obj obj_id = Returned (errors, warnings) ->
        relation_not_string obj_id name ∈ errors)
  /\ (forall obj obj_id rels,
        Py.get "relations" obj = Some (JDict rels) ->
        Forall (fun kv => Py.is_str (snd kv) = true) rels ->
        check_relations obj obj_id = [])
  /\ Rules.relation_names_are_declared bp (Rules.blueprint_validator bp)
  /\ (forall obj obj_path rels name value declared errors,
        Py.get "relations" obj = Some (JDict rels) ->
        Py.get name rels = Some value ->
        bp_relations bp = Some declared ->
        name ∉ declared ->
        BlueprintValidator.validate_object_against_blueprint obj bp obj_path
          = Returned errors ->
        BlueprintValidator.unknown_relation obj_path name ∈ errors)
  /\ (forall obj obj_path rels declared,
        Py.get "relations" obj = Some (JDict rels) ->
        bp_relations bp = Some declared ->
        Forall (fun kv => fst kv ∈ declared) rels ->
        BlueprintValidator.check_relations obj bp obj_path = Returned []).
Proof.
  split_and!.
  - intros obj obj_id v errors warnings Hr Hd Hv.
    apply validate_single_parts in Hv as (unknown & _ & -> & _).
    apply (nonempty_of_elem (relations_not_dict obj_id)).
    rewrite !elem_of_app. do 4 right.
    unfold check_relations. rewrite Hr.
    destruct v; try discriminate; apply list_elem_of_singleton; done.
  - intros obj obj_id rels name value errors warnings Hr Hn Hs Hv.
    eapply nonempty_of_elem, port_validator_relation_not_string; done.
  - apply port_validator_relation_not_string.
  - intros obj obj_id rels Hr Hall. unfold check_relations. rewrite Hr.
    apply flat_map_all_nil. eapply Forall_impl; [exact Hall|].
    intros kv Hkv. cbv beta in Hkv |- *. by rewrite Hkv.
  - intros obj obj_id rels name value declared errors warnings Hr Hn Hd Hnot Hv.
    unfold Rules.blueprint_validator in Hv.
    apply PyFacts.bind_Returned in Hv as (errs & Hv & [= <- <-]).
    eapply nonempty_of_elem, blueprint_validator_unknown_relation; done.
  - intros. by eapply blueprint_validator_unknown_relation.
  - intros obj obj_path rels declared Hr Hd Hall.
    unfold BlueprintValidator.check_relations. rewrite Hr, Hd. f_equal.
    apply flat_map_all_nil. eapply Forall_impl; [exact Hall|].
    intros kv Hkv. cbv beta in Hkv |- *. by rewrite bool_decide_eq_true_2.
Qed.

Lemma relation_rules_by_validator_witness :
  exists errors warnings,
    _validate_single_object Samples.registry
      (Samples.service_with [("relations", JDict [("project", JInt 1)])])
      "carg-service[0]" = Returned (errors, warnings)
    /\ relation_not_string "carg-service[0]" "project" ∈ errors.
Proof.
  eexists _, _. split; [reflexivity|].
  refine (proj1 (proj2 (proj2
            (relation_rules_by_validator Samples.registry Samples.service_blueprint)))
            (Samples.service_with [("relations", JDict [("project", JInt 1)])])
            "carg-service[0]" [("project", JInt 1)] "project" (JInt 1) _ _ _ _ _ _);
    reflexivity.
Defined.

(** A kind with no object: nothing to report. *)
Example empty_kind_validates :
  validate_port_objects Samples.registry [("carg-project", [])]
  = Returned {| valid := true; total_objects := 0; validation_errors := [];
                validation_warnings := [];
                summary := [("carg-project",
                             {| count := 0; valid_objects := 0; errors := [];
                                warnings := [] |})] |}.
Proof. reflexivity. Qed.

End ValidatorFacts.


(** ** Mapping, then validating *)

Module RoundTripFacts.
Import DirectMapping RoundTrip.

(** *** [str] of a value is empty for the empty string only *)

Lemma append_nonempty s c t : s +:+ String c t <> "".
Proof. by destruct s. Qed.

Lemma pretty_N_go_length x s : String.length s <= String.length (pretty_N_go x s).
Proof.
  revert s. induction (N.lt_wf_0 x) as [x _ IH]; intros s.
  destruct (decide (x = 0)%N) as [->|Hx]; [by rewrite pretty_N_go_0|].
  rewrite pretty_N_go_step by lia.
  etrans; [|apply IH, N.div_lt; lia]. simpl. lia.
Qed.

Lemma pretty_N_nonempty (x : N) : pretty x <> "".
Proof.
  unfold pretty, pretty_N. destruct (decide (x = 0)%N) as [->|Hx]; [done|].
  rewrite pretty_N_go_step by lia. intros H.
  pose proof (pretty_N_go_length (x `div` 10) (String (pretty_N_char (x `mod` 10)) "")) as Hl.
  rewrite H in Hl. simpl in Hl. lia.
Qed.

Lemma pretty_Z_nonempty (n : Z) : pretty n <> "".
Proof.
  destruct n as [|p|p]; [done| |done]. apply (pretty_N_nonempty (N.pos p)).
Qed.

Lemma str_nonempty v : v <> JStr "" -> Py.str v <> "".
Proof.
  destruct v as [|b|n|m e|s|l|d]; simpl; try done.
  - by destruct b.
  - intros _. apply pretty_Z_nonempty.
  - intros _. unfold Py.float_str. destruct (0 <=? e)%Z; [apply append_nonempty|].
    destruct (m <? 0)%Z; [done|]. cbn [String.append]. apply append_nonempty.
  - congruence.
Qed.

Lemma str_truthy v : Py.truthy v = true -> Py.truthy (JStr (Py.str v)) = true.
Proof.
  intros Hv. simpl. apply negb_true_iff, String.eqb_neq, str_nonempty.
  by intros ->.
Qed.

Lemma truthy_not_none v : Py.truthy v = true -> Py.is_none v = false.
Proof. by destruct v. Qed.

(** *** What being populated gives the transform *)

Lemma populated_get field item :
  populated field item = true ->
  exists v, Py.get field item = Some v /\ Py.truthy v = true.
Proof.
  unfold populated. destruct (Py.get field item) as [v|]; [|done]. by exists v.
Qed.

Lemma populated_nested outer inner item :
  populated_in outer [inner] item = true ->
  exists v, nested outer inner item = Returned v /\ Py.truthy v = true.
Proof.
  unfold populated_in, nested, Py.get_or.
  destruct (Py.get outer item) as [[| | | | | |d]|]; try done. simpl.
  rewrite orb_false_r. unfold populated, Py.get_or.
  destruct (Py.get inner d) as [v|]; [|done]. by exists v.
Qed.

Lemma populated_nested_or outer first second item :
  populated_in outer [first; second] item = true ->
  exists v, nested_or outer first second item = Returned v /\ Py.truthy v = true.
Proof.
  unfold populated_in, nested_or, nested, Py.get_or.
  destruct (Py.get outer item) as [[| | | | | |d]|]; try done. simpl.
  rewrite orb_false_r. unfold populated, Py.get_or.
  destruct (Py.get first d) as [a|]; simpl.
  - destruct (Py.truthy a) eqn:Ea; simpl; [by exists a|].
    destruct (Py.get second d) as [b|]; [|done]. by exists b.
  - destruct (Py.get second d) as [b|]; [|done]. by exists b.
Qed.

Lemma title_truthy a b c :
  Py.truthy (JStr (a +:+ " - " +:+ b +:+ " - " +:+ c)) = true.
Proof. simpl. apply negb_true_iff, String.eqb_neq, append_nonempty. Qed.

Ltac populate :=
  repeat match goal with
         | H : populated _ _ = true |- _ =>
             apply populated_get in H as (? & ? & ?)
         | H : populated_in _ [_] _ = true |- _ =>
             apply populated_nested in H as (? & ? & ?)
         | H : populated_in _ [_; _] _ = true |- _ =>
             apply populated_nested_or in H as (? & ? & ?)
         end.

Ltac use_truthy :=
  repeat match goal with
         | H : Py.truthy ?v = true |- _ =>
             rewrite ?(str_truthy v H), ?(truthy_not_none v H), ?H;
             clear H
         end.

Ltac run_transform :=
  unfold transform, _transform_project, _transform_service, _transform_component,
    _transform_deployment, DirectMapping.get, Py.get_or;
  repeat match goal with
         | H : _ = Some _ |- _ => rewrite ?H; clear H
         | H : _ = Returned _ |- _ => rewrite ?H; clear H
         end;
  cbn [mbind exc_bind]; reflexivity.

Ltac run_validator Hknown :=
  unfold Validator._validate_single_object, Validator.check_required,
    Validator.check_blueprint, Validator.check_identifier,
    Validator.check_properties, Validator.check_relations;
  cbn [Validator.required_fields flat_map Py.mem Py.get Py.get_or String.eqb
       Ascii.eqb Bool.eqb app negb orb andb fst snd Py.is_str Py.is_none];
  rewrite Hknown, ?title_truthy; use_truthy; reflexivity.

(** C9.  A raw item of any of the four kinds in which every source field
    that the transform reads is populated is transformed without an
    exception, and the object passes [_validate_single_object], for a
    registry that has the blueprint of the kind, with no error, and with
    no warning either. *)
Theorem round_trip_has_no_errors (k : kind) (item : dict) (blueprints : list blueprint)
    (obj_id : string) :
  all_populated k item = true ->
  Validator.known blueprints (blueprint_of k) = true ->
  exists obj,
    transform k item = Returned obj
    /\ Validator._validate_single_object blueprints obj obj_id = Returned ([], []).
Proof.
  intros Hall Hknown. unfold all_populated in Hall.
  apply andb_true_iff in Hall as [Hp Hn].
  destruct k; cbn [plain_fields nested_fields forallb fst snd blueprint_of] in Hp, Hn, Hknown;
    repeat (apply andb_true_iff in Hp as [? Hp]);
    repeat (apply andb_true_iff in Hn as [? Hn]); clear Hp Hn; populate;
    (eexists; split; [run_transform | run_validator Hknown]).
Qed.

Lemma round_trip_has_no_errors_witness :
  all_populated Project Samples.first_project = true
  /\ Validator.known Samples.registry (blueprint_of Project) = true
  /\ exists obj,
       transform Project Samples.first_project = Returned obj
       /\ Validator._validate_single_object Samples.registry obj "carg-project[0]"
          = Returned ([], []).
Proof.
  split; [reflexivity|]. split; [reflexivity|].
  apply (round_trip_has_no_errors Project Samples.first_project Samples.registry
           "carg-project[0]"); reflexivity.
Defined.

(** The mock data round-trips as well, although some of its numbers are
    zero. *)
Example mock_data_round_trips :
  Samples.round_trips Project Client._get_mock_projects = true
  /\ Samples.round_trips Service (Client._get_mock_services Samples.noon) = true
  /\ Samples.round_trips Component Client._get_mock_components = true
  /\ Samples.round_trips Deployment (Client._get_mock_deployments Samples.noon) = true.
Proof. split_and!; reflexivity. Qed.

(** The first project of the mock data, transformed. *)
Example transform_first_project :
  exists properties,
    _transform_project Samples.first_project
    = Returned [ ("identifier", JStr "1");
                 ("title", JStr "E-Commerce Platform");
                 ("blueprint", JStr "cargProject");
                 ("properties", JDict properties) ]
    /\ Py.get "status" properties = Some (JStr "Active")
    /\ Py.get "owner" properties = Some (JStr "john.doe@company.com").
Proof. by eexists. Qed.

(** An owner that is not a record makes the transform raise. *)
Example transform_project_owner_not_a_record :
  _transform_project [("id", JInt 1); ("name", JStr "P"); ("owner", JStr "john")]
  = Raised AttributeError.
Proof. reflexivity. Qed.

End RoundTripFacts.


(** ** Validation and the store *)

Module StoreFacts.
Import Store.

Section Frame.
Variable h0 : heap.

Lemma keeps_ret {A} (a : A) (Q : A -> Prop) : Q a -> keeps h0 (mret a) Q.
Proof. intros HQ h Hh. split; [done|]. by intros a' [= <-]. Qed.

Lemma keeps_raise {A} (e : exn) (Q : A -> Prop) : keeps h0 (raise e) Q.
Proof. intros h Hh. by split. Qed.

Lemma keeps_bind {A B} (m : M A) (k : A -> M B) (Q : A -> Prop) (R : B -> Prop) :
  keeps h0 m Q -> (forall a, Q a -> keeps h0 (k a) R) -> keeps h0 (m ≫= k) R.
Proof.
  intros Hm Hk h Hh. destruct (Hm h Hh) as [Hext HQ].
  unfold mbind, M_bind. destruct (m h) as [[a|e] h1]; simpl in *; [|by split].
  by apply (Hk a (HQ a eq_refl)).
Qed.

Lemma keeps_weaken {A} (m : M A) (Q R : A -> Prop) :
  keeps h0 m Q -> (forall a, Q a -> R a) -> keeps h0 m R.
Proof.
  intros Hm HQR h Hh. destruct (Hm h Hh) as [Hext HQ]. split; [done|].
  intros a Ha. by apply HQR, HQ.
Qed.

Lemma keeps_observe {A} (f : heap -> A) : keeps h0 (observe f) (fun _ => True).
Proof. intros h Hh. by split. Qed.

Lemma extends_insert h l c :
  extends h0 h -> h0 !! l = None -> new_cell h0 c -> extends h0 (<[l := c]> h).
Proof.
  intros [Hsub Hnew] Hl Hc. split; [by apply insert_subseteq_r|].
  intros l' c' Hl' Hc'. destruct (decide (l = l')) as [->|Hne].
  - rewrite lookup_insert_eq in Hc'. by injection Hc' as <-.
  - rewrite lookup_insert_ne in Hc' by done. by eapply Hnew.
Qed.

Lemma keeps_alloc c : new_cell h0 c -> keeps h0 (alloc c) (fun l => h0 !! l = None).
Proof.
  intros Hc h Hh. unfold alloc. cbn [fst snd].
  assert (Hfresh : h0 !! fresh (dom h) = None).
  { eapply lookup_weaken_None; [|apply Hh]. apply not_elem_of_dom, is_fresh. }
  split; [by apply extends_insert|]. by intros l [= <-].
Qed.

Lemma keeps_load_new l : h0 !! l = None -> keeps h0 (load l) (new_cell h0).
Proof.
  intros Hl h Hh. unfold load. destruct (h !! l) as [c|] eqn:E; simpl; [|by split].
  split; [done|]. intros c' [= <-]. by eapply Hh.
Qed.

Lemma keeps_load l : keeps h0 (load l) (fun _ => True).
Proof. intros h Hh. unfold load. by destruct (h !! l). Qed.

Lemma keeps_store l c :
  h0 !! l = None -> new_cell h0 c -> keeps h0 (store l c) (fun _ => True).
Proof. intros Hl Hc h Hh. split; [by apply extends_insert|done]. Qed.

Lemma entries_get_new k es v :
  Forall (fun kv => new_value h0 (snd kv)) es -> entries_get k es = Some v ->
  new_value h0 v.
Proof.
  induction 1 as [|[k' v'] es Hv _ IH]; simpl; [done|].
  destruct (String.eqb k k'); [by intros [= <-] | done].
Qed.

Lemma entries_set_new k v es :
  new_value h0 v -> Forall (fun kv => new_value h0 (snd kv)) es ->
  Forall (fun kv => new_value h0 (snd kv)) (entries_set k v es).
Proof.
  intros Hv. induction 1 as [|[k' v'] es Hv' Hes IH]; simpl.
  - by repeat constructor.
  - destruct (String.eqb k k'); by constructor.
Qed.

Lemma keeps_getitem d k : h0 !! d = None -> keeps h0 (getitem d k) (new_value h0).
Proof.
  intros Hd. eapply keeps_bind; [by apply keeps_load_new|].
  intros [items|es] Hc; [apply keeps_raise|].
  destruct (entries_get k es) as [v|] eqn:E; [|apply keeps_raise].
  apply keeps_ret. by eapply entries_get_new.
Qed.

Lemma keeps_setitem d k v :
  h0 !! d = None -> new_value h0 v -> keeps h0 (setitem d k v) (fun _ => True).
Proof.
  intros Hd Hv. eapply keeps_bind; [by apply keeps_load_new|].
  intros [items|es] Hc; [apply keeps_raise|].
  apply keeps_store; [done|]. by apply entries_set_new.
Qed.

Lemma keeps_extend_item d k src :
  h0 !! d = None -> h0 !! src = None -> keeps h0 (extend_item d k src) (fun _ => True).
Proof.
  intros Hd Hsrc. eapply keeps_bind; [by apply keeps_getitem|].
  intros [j|t] Ht; [apply keeps_raise|].
  eapply keeps_bind; [by apply keeps_load_new|]. intros tc Htc.
  eapply keeps_bind; [by apply keeps_load_new|]. intros sc Hsc.
  destruct tc as [xs|], sc as [ys|]; try apply keeps_raise.
  apply keeps_store; [done|]. by apply Forall_app.
Qed.

Lemma keeps_add_item d k n : h0 !! d = None -> keeps h0 (add_item d k n) (fun _ => True).
Proof.
  intros Hd. eapply keeps_bind; [by apply keeps_getitem|].
  intros [j|t] Ht; [|apply keeps_raise].
  destruct j; try apply keeps_raise. by apply keeps_setitem.
Qed.

Lemma keeps_items_of v : keeps h0 (items_of v) (fun _ => True).
Proof.
  destruct v as [j|l]; simpl.
  - destruct j; try apply keeps_raise. by apply keeps_ret.
  - eapply keeps_bind; [apply keeps_load|]. intros [|es] _; [apply keeps_raise|].
    by apply keeps_ret.
Qed.

Lemma keeps_elements_of v : keeps h0 (elements_of v) (fun _ => True).
Proof.
  destruct v as [j|l]; simpl.
  - destruct j; try apply keeps_raise. by apply keeps_ret.
  - eapply keeps_bind; [apply keeps_load|]. intros [xs|] _; [|apply keeps_raise].
    by apply keeps_ret.
Qed.

Lemma strings_new l : Forall (new_value h0) (strings l).
Proof. unfold strings. induction l; simpl; by constructor. Qed.

Section Registry.
Variable blueprints : list blueprint.

Lemma keeps_validate_single obj obj_id :
  keeps h0 (_validate_single_object blueprints obj obj_id)
    (fun ew => h0 !! fst ew = None /\ h0 !! snd ew = None).
Proof.
  unfold _validate_single_object.
  eapply keeps_bind; [by apply keeps_alloc; constructor|]. intros errors He.
  eapply keeps_bind; [by apply keeps_alloc; constructor|]. intros warnings Hw.
  eapply keeps_bind; [apply keeps_observe|]. intros seen _.
  destruct (seen ≫= _) as [[es ws]|e]; [|apply keeps_raise].
  eapply keeps_bind; [apply keeps_store; [done|apply strings_new]|]. intros _ _.
  eapply keeps_bind; [apply keeps_store; [done|apply strings_new]|]. intros _ _.
  by apply keeps_ret.
Qed.

Lemma keeps_validate_objects results kind_results kind objects i :
  h0 !! results = None -> h0 !! kind_results = None ->
  keeps h0 (validate_objects blueprints results kind_results kind i objects)
    (fun _ => True).
Proof.
  intros Hr Hk. revert i. induction objects as [|obj rest IH]; intros i; simpl.
  { by apply keeps_ret. }
  eapply keeps_bind; [apply keeps_validate_single|]. intros [oe ow] [Hoe How].
  cbn [fst snd] in Hoe, How.
  eapply keeps_bind; [by apply keeps_load_new|]. intros es _.
  eapply keeps_bind.
  { instantiate (1 := fun _ => True). destruct (nonempty es).
    - eapply keeps_bind; [by apply keeps_extend_item|]. intros _ _.
      eapply keeps_bind; [by apply keeps_extend_item|]. intros _ _.
      by apply keeps_setitem.
    - by apply keeps_add_item. }
  intros _ _.
  eapply keeps_bind; [by apply keeps_load_new|]. intros ws _.
  eapply keeps_bind.
  { instantiate (1 := fun _ => True). destruct (nonempty ws).
    - eapply keeps_bind; [by apply keeps_extend_item|]. intros _ _.
      by apply keeps_extend_item.
    - by apply keeps_ret. }
  intros _ _. apply IH.
Qed.

Lemma keeps_validate_kinds results kinds :
  h0 !! results = None ->
  keeps h0 (validate_kinds blueprints results kinds) (fun _ => True).
Proof.
  intros Hr. induction kinds as [|[kind objects] rest IH]; simpl.
  { by apply keeps_ret. }
  eapply keeps_bind; [apply keeps_elements_of|]. intros objs _.
  eapply keeps_bind; [by apply keeps_alloc; constructor|]. intros kerrors Hke.
  eapply keeps_bind; [by apply keeps_alloc; constructor|]. intros kwarnings Hkw.
  eapply keeps_bind; [apply keeps_alloc; by repeat constructor|]. intros kr Hkr.
  eapply keeps_bind; [by apply keeps_validate_objects|]. intros _ _.
  eapply keeps_bind; [by apply keeps_add_item|]. intros _ _.
  eapply keeps_bind; [by apply keeps_getitem|]. intros [j|s] Hs.
  - eapply (keeps_bind _ _ (fun _ => True)); [apply keeps_raise|]. intros _ _. apply IH.
  - eapply keeps_bind; [by apply keeps_setitem|]. intros _ _. apply IH.
Qed.

Lemma keeps_validate_port_objects port_objects :
  keeps h0 (validate_port_objects blueprints port_objects)
    (fun v => exists l, v = Ref l /\ h0 !! l = None).
Proof.
  unfold validate_port_objects.
  eapply keeps_bind; [by apply keeps_alloc; constructor|]. intros verrors Hve.
  eapply keeps_bind; [by apply keeps_alloc; constructor|]. intros vwarnings Hvw.
  eapply keeps_bind; [by apply keeps_alloc; constructor|]. intros summary Hs.
  eapply keeps_bind; [apply keeps_alloc; by repeat constructor|]. intros results Hr.
  eapply keeps_bind; [apply keeps_items_of|]. intros kinds _.
  eapply keeps_bind; [by apply keeps_validate_kinds|]. intros _ _.
  apply keeps_ret. by exists results.
Qed.

End Registry.
End Frame.

Lemma extends_refl h : extends h h.
Proof. split; [done|]. intros l c Hl Hc. congruence. Qed.

(** C10.  Whatever the store and whatever value is passed for
    [port_objects], after [validate_port_objects] every container that
    was in the store is still there with the content it had: the input
    mapping, its lists and their objects are among them.  What is
    returned is a reference to a record that was not there before, and
    the containers that were not there before refer to no container that
    was: the results share nothing with the input.  This holds as well
    when the validation raises. *)
Theorem validation_leaves_input_unchanged (blueprints : list blueprint)
    (port_objects : value) (h : heap) :
  let out := validate_port_objects blueprints port_objects h in
  (forall l c, h !! l = Some c -> out.2 !! l = Some c)
  /\ (forall results, out.1 = Returned results ->
                      exists l, results = Ref l /\ h !! l = None)
  /\ (forall l c, h !! l = None -> out.2 !! l = Some c -> new_cell h c).
Proof.
  cbn zeta.
  destruct (keeps_validate_port_objects h blueprints port_objects h (extends_refl h))
    as [[Hsub Hnew] Hres].
  split_and!.
  - intros l c Hl. by eapply lookup_weaken.
  - done.
  - done.
Qed.

(** On the samples, the run over the store reports what the validator
    computes on the same input as a value, and the input is still seen as
    it was. *)
Example store_validation_matches :
  let out := validate_port_objects Samples.registry (Ref 1%positive) Samples.sample_heap in
  view 4 out.2 <$> out.1
  = Samples.results_json
      <$> Validator.validate_port_objects Samples.registry Samples.sample_objects
  /\ view 3 out.2 (Ref 1%positive) = view 3 Samples.sample_heap (Ref 1%positive).
Proof. cbn zeta. split; vm_compute; reflexivity. Qed.

End StoreFacts.

(** * Further properties *)

(** ** client.py *)

Module ClientMore.
Import Client ClientFacts Requests.

(** *** Retrying *)





(** *** Without configuration *)

Lemma mock_data_shape now endpoint :
  exists L, _get_mock_data_for_endpoint now endpoint = JDict [("data", JList L)]
            /\ length L <= 3.
Proof.
  unfold _get_mock_data_for_endpoint.
  repeat (destruct (String.prefix _ endpoint);
          [eexists; split; [reflexivity | simpl; lia]|]).
  eexists; split; [reflexivity | simpl; lia].
Qed.

Lemma unconfigured_loop {world : Type} (respond : world -> request -> outcome * world)
    (clock : world -> string) page_size fuel self endpoint params w L :
  configured self = false ->
  _get_mock_data_for_endpoint (clock w) endpoint = JDict [("data", JList L)] ->
  (Z.of_nat (length L) < page_size)%Z ->
  fetch_loop respond clock page_size (S fuel) self endpoint params w
  = {| pages := match L with [] => [] | _ => [JList L] end;
       ended := Exhausted; events := []; final_world := w; final_params := params |}.
Proof.
  intros Hc Hmock Hlen. cbn [fetch_loop]. rewrite send_unconfigured by done.
  rewrite Hmock. cbn [read_response Py.get_or Py.get String.eqb Ascii.eqb Bool.eqb].
  destruct L as [|x L]; [done|]. cbn [Py.truthy negb].
  unfold last_page. cbn [Py.truthy Py.gt_zero Z.ltb Z.compare mbind exc_bind Py.len].
  by rewrite (proj2 (Z.ltb_lt _ _) Hlen).
Qed.

(** X3.  A client without URL or token never sends a request: whatever
    the remote, the kind, the parameters and the clock, the generator
    ends by itself after at most one page, which is the mock data of the
    endpoint, and the remote is left as it was. *)
Theorem mock_mode_is_one_page_offline {world : Type}
    (respond : world -> request -> outcome * world) (clock : world -> string)
    (fuel : nat) (self : CargAPIClient) (resource_kind : string) (params : option dict)
    (endpoint_override : option string) (w : world) :
  configured self = false ->
  let r := get_paginated_resources respond clock (S fuel) self resource_kind params
             endpoint_override w in
  let endpoint := match endpoint_override with
                  | Some e => if String.eqb e "" then resource_kind +:+ "s" else e
                  | None => resource_kind +:+ "s"
                  end in
  events r = []
  /\ ended r = Exhausted
  /\ final_world r = w
  /\ _get_mock_data_for_endpoint (clock w) endpoint = JDict [("data", JList (page_items (pages r)))]
  /\ length (pages r) <= 1.
Proof.
  intros Hc. cbn zeta. unfold get_paginated_resources, get_paginated_resources_sized.
  set (endpoint := match endpoint_override with Some _ => _ | None => _ end).
  set (start := Py.set "take" _ _).
  destruct (mock_data_shape (clock w) endpoint) as (L & Hmock & Hlen).
  rewrite (unconfigured_loop respond clock PAGE_SIZE fuel self endpoint start w L Hc Hmock)
    by (unfold PAGE_SIZE; lia).
  cbn [events ended final_world pages]. rewrite Hmock.
  destruct L; cbn; rewrite ?app_nil_r; split_and!; try done; lia.
Qed.

Lemma mock_mode_is_one_page_offline_witness :
  configured MoreSamples.unconfigured = false
  /\ events (get_paginated_resources MoreSamples.always_limited (fun _ => Samples.noon) 1
               MoreSamples.unconfigured "service" None None tt) = [].
Proof.
  split; [reflexivity|].
  exact (proj1 (mock_mode_is_one_page_offline MoreSamples.always_limited
                  (fun _ => Samples.noon) 0 MoreSamples.unconfigured "service" None None tt
                  eq_refl)).
Defined.

(** *** What is sent *)

Section Sending.
Context {world : Type}.
Variable respond : world -> request -> outcome * world.
Variable clock : world -> string.

Lemma send_requests fuel self method endpoint params json_data w :
  Forall (fun q => q = request_of self method endpoint params json_data)
    (requests (_send_api_request respond clock fuel self method endpoint params
                 json_data w).2).
Proof.
  revert w. induction fuel as [|fuel IH]; intros w; simpl.
  - destruct (configured self); simpl; constructor.
  - destruct (configured self); simpl; [|constructor].
    destruct (respond w _) as [out w1].
    destruct out as [body| |code headers|]; simpl; repeat constructor.
    destruct (code =? 429)%Z; simpl; [|repeat constructor].
    destruct (Py.int_of_str _); simpl; [|repeat constructor].
    specialize (IH w1).
    destruct (_send_api_request respond clock fuel self method endpoint params
                json_data w1) as [[res w2] evs].
    simpl in *. by constructor.
Qed.

(** Where a reply comes from: the mock data of an unconfigured client,
    or the last answer of the remote, which is then no 429. *)
Lemma send_reply_origin fuel self method endpoint params json_data w body w' evs :
  _send_api_request respond clock fuel self method endpoint params json_data w
    = (Reply body, w', evs) ->
  (configured self = false /\ w' = w /\ evs = []
   /\ body = _get_mock_data_for_endpoint (clock w) endpoint)
  \/ (configured self = true
      /\ exists w0 out,
           respond w0 (request_of self method endpoint params json_data) = (out, w')
           /\ match out with
              | Ok b => body = b
              | _ => soft_failure out = true
                     /\ body = _get_mock_data_for_endpoint (clock w') endpoint
              end).
Proof.
  revert w evs. induction fuel as [|fuel IH]; intros w evs; simpl.
  - destruct (configured self); simpl; [done|]. intros [= <- <- <-]. by left.
  - destruct (configured self); simpl; [|intros [= <- <- <-]; by left].
    destruct (respond w _) as [out w1] eqn:Hr.
    destruct out as [b| |code headers|].
    + intros [= <- <- <-]. right. split; [done|]. by exists w, (Ok b).
    + intros [= <- <- <-]. right. split; [done|]. by exists w, Undecodable.
    + destruct (code =? 429)%Z eqn:Hcode.
      * destruct (Py.int_of_str _); [|done].
        destruct (_send_api_request respond clock fuel self method endpoint params
                    json_data w1) as [[res w2] evs2] eqn:Hs.
        intros [= -> -> <-].
        destruct (IH _ _ Hs) as [(? & _)|H]; [done | by right].
      * intros [= <- <- <-]. right. split; [done|].
        exists w, (HTTPStatusError code headers). simpl. by rewrite Hcode.
    + intros [= <- <- <-]. right. split; [done|]. by exists w, TransportFailure.
Qed.

End Sending.

Section Paging.
Context {world : Type}.
Variable respond : world -> request -> outcome * world.
Variable clock : world -> string.

Lemma paging_next page_size caller_params params skip :
  paging page_size caller_params params ->
  Py.get "skip" params = Some (JInt skip) ->
  paging page_size caller_params (Py.set "skip" (JInt (skip + page_size)) params).
Proof.
  intros ([n Hn] & Ht & Hk) Hs. split_and!.
  - exists (S n). rewrite PyFacts.get_set_eq. rewrite Hn in Hs. injection Hs as <-.
    do 2 f_equal. lia.
  - by rewrite PyFacts.get_set_ne.
  - intros k H1 H2. rewrite PyFacts.get_set_ne by done. by apply Hk.
Qed.

Lemma requests_app evs1 evs2 : requests (evs1 ++ evs2) = requests evs1 ++ requests evs2.
Proof. unfold requests. by rewrite flat_map_app. Qed.

Lemma fetch_loop_requests page_size fuel self endpoint caller_params params w :
  paging page_size caller_params params ->
  let r := fetch_loop respond clock page_size fuel self endpoint params w in
  Forall (page_request self endpoint page_size caller_params) (requests (events r))
  /\ paging page_size caller_params (final_params r).
Proof.
  revert params w. induction fuel as [|fuel IH]; intros params w Hp; cbn zeta.
  - simpl. split; [constructor | done].
  - cbn [fetch_loop].
    pose proof (send_requests respond clock (S fuel) self "GET" endpoint (Some params)
                  None w) as Hsent.
    destruct (_send_api_request respond clock (S fuel) self "GET" endpoint (Some params)
                None w) as [[res w1] evs].
    cbn [snd] in Hsent.
    assert (Hevs : Forall (page_request self endpoint page_size caller_params)
                     (requests evs)).
    { eapply Forall_impl; [exact Hsent|]. intros q ->.
      destruct Hp as ([n Hn] & Ht & Hk). split_and!; try done. by exists params, n. }
    destruct res as [response|e|]; cbn [events final_params]; try done.
    destruct (read_response response) as [[items total] has_more].
    destruct (negb (Py.truthy items)); cbn [events final_params]; [done|].
    destruct (last_page page_size params items total has_more) as [[|]|e];
      cbn [cons_page events final_params app]; try done.
    destruct Hp as ([n Hn] & Ht & Hk). unfold skip_of. rewrite Hn.
    cbn [cons_page events final_params].
    destruct (IH (Py.set "skip" (JInt (Z.of_nat n * page_size + page_size)) params) w1)
      as [Hrec Hfin].
    { apply paging_next; [|done]. split_and!; [by exists n | done | done]. }
    split; [|done]. rewrite requests_app. by apply Forall_app.
Qed.

End Paging.

(** X4.  Whatever the remote does, every request that
    [get_paginated_resources] sends is a GET without body to the URL of
    the endpoint, with the caller's parameters, [take] set to the page
    size and [skip] to a multiple of it; the caller's dict comes back
    with its other keys untouched. *)
Theorem requests_are_page_requests {world : Type}
    (respond : world -> request -> outcome * world) (clock : world -> string)
    (fuel : nat) (self : CargAPIClient) (resource_kind : string) (params : option dict)
    (endpoint_override : option string) (w : world) :
  let r := get_paginated_resources respond clock fuel self resource_kind params
             endpoint_override w in
  let caller_params := match params with Some p => p | None => [] end in
  Forall (page_request self (endpoint_of resource_kind endpoint_override) PAGE_SIZE
            caller_params)
    (requests (events r))
  /\ forall k, k <> "skip" -> k <> "take" ->
               Py.get k (final_params r) = Py.get k caller_params.
Proof.
  cbn zeta. unfold get_paginated_resources, get_paginated_resources_sized.
  fold (endpoint_of resource_kind endpoint_override).
  set (caller_params := match params with Some p => p | None => [] end).
  destruct (fetch_loop_requests respond clock PAGE_SIZE fuel self
              (endpoint_of resource_kind endpoint_override) caller_params
              (Py.set "take" (JInt PAGE_SIZE) (Py.set "skip" (JInt 0) caller_params)) w)
    as [Hreq (_ & _ & Hk)]; [|done].
  split_and!.
  - exists 0. rewrite PyFacts.get_set_ne by done. by rewrite PyFacts.get_set_eq.
  - by rewrite PyFacts.get_set_eq.
  - intros k H1 H2. by rewrite !PyFacts.get_set_ne.
Qed.

(** *** Pages that carry nothing but [data] *)

Section DataOnly.
Context {world : Type}.
Variable respond : world -> request -> outcome * world.
Variable clock : world -> string.

Lemma fetch_data_only page_size fuel self endpoint params w L w1 evs :
  _send_api_request respond clock (S fuel) self "GET" endpoint (Some params) None w
    = (Reply (JDict [("data", JList L)]), w1, evs) ->
  fetch_loop respond clock page_size (S fuel) self endpoint params w
  = let stop := {| pages := []; ended := Exhausted; events := evs;
                   final_world := w1; final_params := params |} in
    match L with
    | [] => stop
    | _ :: _ =>
        if (Z.of_nat (length L) <? page_size)%Z then cons_page (JList L) [] stop
        else
          match skip_of params with
          | Raised e =>
              cons_page (JList L) []
                {| pages := []; ended := Propagated e; events := evs;
                   final_world := w1; final_params := params |}
          | Returned skip =>
              cons_page (JList L) evs
                (fetch_loop respond clock page_size fuel self endpoint
                   (Py.set "skip" (JInt (skip + page_size)) params) w1)
          end
    end.
Proof.
  intros Hs. cbn [fetch_loop]. rewrite Hs.
  cbn [read_response Py.get_or Py.get String.eqb Ascii.eqb Bool.eqb].
  destruct L as [|x L]; [done|]. cbn [Py.truthy negb].
  unfold last_page. cbn [Py.truthy Py.gt_zero Z.ltb Z.compare mbind exc_bind Py.len].
  by destruct (Z.of_nat (length (x :: L)) <? page_size)%Z.
Qed.

End DataOnly.

(** X5.  Termination is left to the remote: one that answers every
    request with the same full page, and no total, is asked again and
    again, at growing offsets, and the generator never ends. *)
Theorem full_pages_without_total_never_end (page : list json) (clock : unit -> string)
    (fuel : nat) (self : CargAPIClient) (resource_kind : string) :
  configured self = true ->
  (PAGE_SIZE <= Z.of_nat (length page))%Z ->
  let r := get_paginated_resources (MoreSamples.same_page_remote page) clock fuel self
             resource_kind None None tt in
  ended r = Unfinished
  /\ pages r = replicate fuel (JList page)
  /\ sent_skips (events r) = offsets PAGE_SIZE 0 fuel.
Proof.
  intros Hc Hlen. cbn zeta.
  unfold get_paginated_resources, get_paginated_resources_sized.
  set (endpoint := resource_kind +:+ "s").
  assert (Hloop : forall fuel params k,
            Py.get "skip" params = Some (JInt k) ->
            let r := fetch_loop (MoreSamples.same_page_remote page) clock PAGE_SIZE fuel
                       self endpoint params tt in
            ended r = Unfinished
            /\ pages r = replicate fuel (JList page)
            /\ sent_skips (events r) = offsets PAGE_SIZE k fuel).
  { clear fuel. induction fuel as [|fuel IH]; intros params k Hk; cbn zeta; [done|].
    rewrite (fetch_data_only _ _ _ _ _ _ _ _ page tt
               [Sent (request_of self "GET" endpoint (Some params) None)]).
    2:{ by apply send_ok. }
    cbn zeta. destruct page as [|x page']; [simpl in Hlen; unfold PAGE_SIZE in Hlen; lia|].
    rewrite (proj2 (Z.ltb_ge _ _)) by done.
    unfold skip_of. rewrite Hk.
    destruct (IH (Py.set "skip" (JInt (k + PAGE_SIZE)) params) (k + PAGE_SIZE)%Z)
      as (He & Hp & Hs); [by rewrite PyFacts.get_set_eq|].
    cbn [cons_page ended pages events]. rewrite He, Hp. split_and!; [done|done|].
    rewrite offsets_S. unfold sent_skips in *. cbn [app flat_map]. rewrite Hs.
    unfold int_param. cbn [req_params request_of]. by rewrite Hk. }
  apply Hloop. rewrite PyFacts.get_set_ne by done. by rewrite PyFacts.get_set_eq.
Qed.

Lemma full_pages_without_total_never_end_witness :
  configured Samples.client = true
  /\ (PAGE_SIZE <= Z.of_nat (length (replicate 100 JNull)))%Z
  /\ ended (get_paginated_resources (MoreSamples.same_page_remote (replicate 100 JNull))
              (fun _ => Samples.noon) 3 Samples.client "project" None None tt)
     = Unfinished.
Proof.
  split; [reflexivity|]. split; [by vm_compute|].
  exact (proj1 (full_pages_without_total_never_end (replicate 100 JNull)
                  (fun _ => Samples.noon) 3 Samples.client "project" eq_refl
                  ltac:(by vm_compute))).
Defined.

Lemma send_soft_failure {world : Type} (respond : world -> request -> outcome * world)
    (clock : world -> string) fuel self method endpoint params json_data w out w1 :
  configured self = true ->
  respond w (request_of self method endpoint params json_data) = (out, w1) ->
  soft_failure out = true ->
  _send_api_request respond clock (S fuel) self method endpoint params json_data w
  = (Reply (_get_mock_data_for_endpoint (clock w1) endpoint), w1,
     [Sent (request_of self method endpoint params json_data)]).
Proof.
  intros Hc Hr Hsoft. simpl. rewrite Hc, Hr. simpl.
  destruct out as [b| |code headers|]; try done.
  simpl in Hsoft. by destruct (code =? 429)%Z.
Qed.

(** X6.  A failure in the middle of a run is not reported: after any
    number of full pages, a request that fails with anything but a 429
    is answered with the mock data of the endpoint, which the generator
    yields as the last page, after the real ones, before it ends as if
    the data set were exhausted. *)
Theorem failure_mid_pagination_yields_mock_data (full : list (list json))
    (failure : outcome) (clock : list outcome -> string) (fuel : nat)
    (self : CargAPIClient) (resource_kind : string) :
  configured self = true ->
  Forall (fun p => (PAGE_SIZE <= Z.of_nat (length p))%Z) full ->
  soft_failure failure = true ->
  length full < fuel ->
  let r := get_paginated_resources (scripted failure) clock fuel self resource_kind
             None None (map (fun p => Ok (JDict [("data", JList p)])) full) in
  exists mock,
    _get_mock_data_for_endpoint (clock []) (resource_kind +:+ "s")
      = JDict [("data", JList mock)]
    /\ page_items (pages r) = concat full ++ mock
    /\ ended r = Exhausted
    /\ length (requests (events r)) = S (length full).
Proof.
  intros Hc Hfull Hsoft Hfuel. cbn zeta.
  unfold get_paginated_resources, get_paginated_resources_sized.
  set (endpoint := resource_kind +:+ "s").
  destruct (mock_data_shape (clock []) endpoint) as (mock & Hmock & Hlen).
  exists mock. split; [done|].
  assert (Hloop : forall full, Forall (fun p => (PAGE_SIZE <= Z.of_nat (length p))%Z) full ->
            forall fuel params k,
            length full < fuel ->
            Py.get "skip" params = Some (JInt k) ->
            let r := fetch_loop (scripted failure) clock PAGE_SIZE fuel self endpoint params
                       (map (fun p => Ok (JDict [("data", JList p)])) full) in
            page_items (pages r) = concat full ++ mock
            /\ ended r = Exhausted
            /\ length (requests (events r)) = S (length full)).
  { clear full fuel Hfull Hfuel.
    induction 1 as [|p full Hp _ IH]; intros [|fuel] params k Hfuel Hk; cbn zeta;
      try (simpl in Hfuel; lia).
    - rewrite (fetch_data_only _ _ _ _ _ _ _ _ mock []
                 [Sent (request_of self "GET" endpoint (Some params) None)]).
      2:{ rewrite <- Hmock. by apply (send_soft_failure _ _ _ _ _ _ _ _ _ failure). }
      cbn zeta. destruct mock as [|x mock']; [done|].
      rewrite (proj2 (Z.ltb_lt _ _)) by (unfold PAGE_SIZE; lia).
      simpl. by rewrite app_nil_r.
    - cbn [map].
      rewrite (fetch_data_only _ _ _ _ _ _ _ _ p
                 (map (fun p => Ok (JDict [("data", JList p)])) full)
                 [Sent (request_of self "GET" endpoint (Some params) None)]).
      2:{ by apply send_ok. }
      cbn zeta. destruct p as [|x p']; [simpl in Hp; unfold PAGE_SIZE in Hp; lia|].
      rewrite (proj2 (Z.ltb_ge _ _)) by done.
      unfold skip_of. rewrite Hk.
      destruct (IH fuel (Py.set "skip" (JInt (k + PAGE_SIZE)) params) (k + PAGE_SIZE)%Z)
        as (Hi & He & Hn); [simpl in Hfuel; lia | by rewrite PyFacts.get_set_eq |].
      cbn [cons_page ended pages events page_items flat_map].
      fold (page_items (pages (fetch_loop (scripted failure) clock PAGE_SIZE fuel self
              endpoint (Py.set "skip" (JInt (k + PAGE_SIZE)) params)
              (map (fun p => Ok (JDict [("data", JList p)])) full)))).
      rewrite Hi, He. split_and!; [cbn [concat]; by rewrite app_assoc | done |].
      cbn [app requests flat_map length]. by rewrite <- Hn. }
  apply (Hloop full Hfull fuel _ 0%Z Hfuel).
  rewrite PyFacts.get_set_ne by done. by rewrite PyFacts.get_set_eq.
Qed.

Lemma failure_mid_pagination_yields_mock_data_witness :
  configured Samples.client = true
  /\ Forall (fun p => (PAGE_SIZE <= Z.of_nat (length p))%Z) [replicate 100 (JInt 7)]
  /\ soft_failure (HTTPStatusError 503 []) = true
  /\ 1 < 2
  /\ exists mock,
       _get_mock_data_for_endpoint Samples.noon "projects" = JDict [("data", JList mock)]
       /\ page_items (pages (get_paginated_resources (scripted (HTTPStatusError 503 []))
                               (fun _ => Samples.noon) 2 Samples.client "project" None None
                               [Ok (JDict [("data", JList (replicate 100 (JInt 7)))])]))
          = replicate 100 (JInt 7) ++ mock.
Proof.
  assert (H : Forall (fun p => (PAGE_SIZE <= Z.of_nat (length p))%Z)
                [replicate 100 (JInt 7)]) by (repeat constructor; by vm_compute).
  split; [reflexivity|]. split; [exact H|]. split; [reflexivity|]. split; [lia|].
  destruct (failure_mid_pagination_yields_mock_data [replicate 100 (JInt 7)]
              (HTTPStatusError 503 []) (fun _ => Samples.noon) 2 Samples.client "project"
              eq_refl H eq_refl ltac:(simpl; lia)) as (mock & Hm & Hi & _).
  exists mock. split; [exact Hm|]. cbn [map] in Hi. rewrite Hi.
  cbn [concat]. by rewrite app_nil_r.
Defined.

(** X7.  A first answer that is not a mapping ends the run at once: a
    non-empty list is yielded whole as the only page, however long it
    is, and anything else yields nothing. *)
Theorem response_without_mapping_is_one_page {world : Type}
    (respond : world -> request -> outcome * world) (clock : world -> string)
    (fuel : nat) (self : CargAPIClient) (resource_kind : string) (params : option dict)
    (endpoint_override : option string) (w w1 : world) (body : json) :
  let caller_params := match params with Some p => p | None => [] end in
  let first := request_of self "GET" (endpoint_of resource_kind endpoint_override)
                 (Some (Py.set "take" (JInt PAGE_SIZE)
                          (Py.set "skip" (JInt 0) caller_params))) None in
  configured self = true ->
  respond w first = (Ok body, w1) ->
  Py.is_dict body = false ->
  let r := get_paginated_resources respond clock (S fuel) self resource_kind params
             endpoint_override w in
  pages r = (if Py.is_list body && Py.truthy body then [body] else [])
  /\ ended r = Exhausted
  /\ events r = [Sent first]
  /\ final_world r = w1.
Proof.
  intros caller_params first Hc Hr Hd. cbn zeta.
  unfold get_paginated_resources, get_paginated_resources_sized.
  fold (endpoint_of resource_kind endpoint_override). fold caller_params.
  set (start := Py.set "take" _ _). cbn [fetch_loop].
  rewrite (send_ok respond clock fuel self "GET" _ (Some start) None w body w1 Hc Hr).
  fold first.
  destruct body as [| | | | |l|d]; try done.
  destruct l as [|x l]; [done|].
  cbn [read_response Py.truthy negb]. unfold last_page.
  cbn [Py.truthy Py.gt_zero mbind exc_bind].
  rewrite (proj2 (Z.ltb_lt 0 (Z.of_nat (length (x :: l))))) by (simpl; lia).
  unfold skip_of, start. rewrite PyFacts.get_set_ne by done. rewrite PyFacts.get_set_eq.
  cbn [mbind exc_bind Py.len Py.int_ge].
  rewrite (proj2 (Z.leb_le _ _)) by lia. done.
Qed.

Lemma response_without_mapping_is_one_page_witness :
  configured Samples.client = true
  /\ Py.is_dict (JList (replicate 250 (JInt 1))) = false
  /\ pages (get_paginated_resources
              (fun (_ : unit) _ => (Ok (JList (replicate 250 (JInt 1))), tt))
              (fun _ => Samples.noon) 1 Samples.client "project" None None tt)
     = [JList (replicate 250 (JInt 1))].
Proof.
  split; [reflexivity|]. split; [reflexivity|].
  exact (proj1 (response_without_mapping_is_one_page
                  (fun (_ : unit) _ => (Ok (JList (replicate 250 (JInt 1))), tt))
                  (fun _ => Samples.noon) 0 Samples.client "project" None None tt tt
                  (JList (replicate 250 (JInt 1))) eq_refl eq_refl eq_refl)).
Defined.

End ClientMore.

(** ** client.py: health check and webhooks *)

Module ClientOpsMore.
Import Client ClientFacts Requests ClientOps ClientMore.

Section Ops.
Context {world : Type}.
Variable respond : world -> request -> outcome * world.
Variable clock : world -> string.

Lemma posts_app evs1 evs2 : posts (evs1 ++ evs2) = posts evs1 ++ posts evs2.
Proof. unfold posts. by rewrite flat_map_app. Qed.

Lemma posts_Forall (P : request -> Prop) evs :
  Forall P (requests evs) -> Forall P (posts evs).
Proof.
  induction evs as [|[r|d] evs IH]; simpl; [done| |done].
  intros H. apply Forall_cons in H as [Hr H].
  destruct (String.eqb (req_method r) "POST"); simpl; [constructor|]; auto.
Qed.

Lemma posts_nil evs :
  Forall (fun r => String.eqb (req_method r) "POST" = false) (requests evs) ->
  posts evs = [].
Proof.
  induction evs as [|[r|d] evs IH]; simpl; [done| |done].
  intros H. apply Forall_cons in H as [-> H]. by apply IH.
Qed.

Lemma send_get_posts_nothing fuel self endpoint params json_data w :
  posts (_send_api_request respond clock fuel self "GET" endpoint params json_data w).2
  = [].
Proof.
  apply posts_nil. eapply Forall_impl; [apply send_requests|]. by intros r ->.
Qed.

Lemma permission_posts_nothing fuel self w :
  posts (has_webhook_permission respond clock fuel self w).2 = [].
Proof.
  unfold has_webhook_permission.
  pose proof (send_get_posts_nothing fuel self "webhooks/permissions" None None w) as H.
  destruct (_send_api_request respond clock fuel self "GET" "webhooks/permissions" None
              None w) as [[res w1] evs].
  destruct res as [response|e|]; try done.
  by destruct (reply_get _ _ response).
Qed.

Lemma health_check_posts_nothing fuel self w :
  posts (health_check respond clock fuel self w).2 = [].
Proof.
  unfold health_check.
  pose proof (send_get_posts_nothing fuel self "health" None None w) as H.
  destruct (_send_api_request respond clock fuel self "GET" "health" None None w)
    as [[res w1] evs].
  destruct res as [response|e|]; try done.
  by destruct (reply_get _ _ response).
Qed.

End Ops.

Import ClientOps.

Lemma eq_str_true v s : eq_str v s = true -> v = JStr s.
Proof. destruct v; try done. simpl. by intros ->%String.eqb_eq. Qed.

(** X8.  [health_check] answers True only when the remote itself has
    answered the health request with a mapping whose status is
    "healthy": never for a client without configuration, and never on
    the mock data that stands in for a failed request. *)
Theorem health_check_true_is_genuine {world : Type}
    (respond : world -> request -> outcome * world) (clock : world -> string)
    (fuel : nat) (self : CargAPIClient) (w w' : world) (evs : list event) :
  health_check respond clock fuel self w = (Some true, w', evs) ->
  configured self = true
  /\ exists w0 d,
       respond w0 (request_of self "GET" "health" None None) = (Ok (JDict d), w')
       /\ Py.get "status" d = Some (JStr "healthy").
Proof.
  unfold health_check.
  destruct (_send_api_request respond clock fuel self "GET" "health" None None w)
    as [[res w1] evs1] eqn:Hs.
  destruct res as [response|e|]; try done.
  destruct response as [| | | | | |d]; try done. cbn [reply_get].
  intros [= Hh <- <-]. apply eq_str_true in Hh.
  assert (Hd : Py.get "status" d = Some (JStr "healthy")).
  { unfold Py.get_or in Hh. by destruct (Py.get "status" d) as [v|]; [subst v|]. }
  apply send_reply_origin in Hs as [(_ & _ & _ & Hb)|(Hc & w0 & out & Hr & Hout)].
  - by injection Hb as ->.
  - split; [done|]. exists w0, d. split; [|done].
    destruct out as [b| |code headers|]; [by subst b|..];
      destruct Hout as [_ Hb]; by injection Hb as ->.
Qed.

Lemma health_check_true_is_genuine_witness :
  configured Samples.client = true
  /\ exists w0 d,
       scripted TransportFailure w0 (request_of Samples.client "GET" "health" None None)
         = (Ok (JDict d), [])
       /\ Py.get "status" d = Some (JStr "healthy").
Proof.
  exact (health_check_true_is_genuine (scripted TransportFailure) (fun _ => Samples.noon) 2
           Samples.client
           [HTTPStatusError 429 []; Ok (JDict [("status", JStr "healthy")])] []
           [ Sent (request_of Samples.client "GET" "health" None None); Slept 60;
             Sent (request_of Samples.client "GET" "health" None None) ]
           eq_refl).
Defined.

(** X9.  The only requests with a body that [create_webhooks] sends are
    registrations: every POST goes to the webhooks endpoint and carries
    the configuration of the webhook for [app_host], however often it is
    retried. *)
Theorem webhook_posts_are_registrations {world : Type}
    (respond : world -> request -> outcome * world) (clock : world -> string)
    (fuel : nat) (self : CargAPIClient) (app_host : string) (w : world) :
  Forall (fun r => r = request_of self "POST" "webhooks" None
                         (Some (webhook_config (app_host +:+ "/integration/webhook"))))
    (posts (create_webhooks respond clock fuel self app_host w).2).
Proof.
  unfold create_webhooks.
  pose proof (permission_posts_nothing respond clock fuel self w) as Hp.
  destruct (has_webhook_permission respond clock fuel self w) as [[perm w1] evs1].
  cbn [snd] in Hp.
  destruct perm as [allowed|]; [|cbn [snd]; by rewrite Hp].
  destruct (negb (Py.truthy allowed)); [cbn [snd]; by rewrite Hp|].
  pose proof (send_get_posts_nothing respond clock fuel self "webhooks" None None w1) as Hg.
  destruct (_send_api_request respond clock fuel self "GET" "webhooks" None None w1)
    as [[existing w2] evs2].
  cbn [snd] in Hg.
  pose proof (send_requests respond clock fuel self "POST" "webhooks" None
                (Some (webhook_config (app_host +:+ "/integration/webhook"))) w2) as Hc.
  apply posts_Forall in Hc.
  destruct (_send_api_request respond clock fuel self "POST" "webhooks" None _ w2)
    as [[created w3] evs3].
  cbn [snd] in Hc.
  destruct existing as [response|e|]; cbn [snd];
    rewrite ?posts_app, ?Hp, ?Hg; cbn [app]; try done.
  destruct (already_registered _ response); cbn [snd];
    rewrite ?posts_app, ?Hp, ?Hg; cbn [app]; done.
Qed.

Lemma posts_need_permission {world : Type}
    (respond : world -> request -> outcome * world) (clock : world -> string)
    (fuel : nat) (self : CargAPIClient) (app_host : string) (w : world) :
  posts (create_webhooks respond clock fuel self app_host w).2 <> [] ->
  configured self = true
  /\ exists w0 w1 d,
       respond w0 (request_of self "GET" "webhooks/permissions" None None)
         = (Ok (JDict d), w1)
       /\ Py.truthy (Py.get_or "canCreateWebhooks" (JBool false) d) = true.
Proof.
  unfold create_webhooks.
  pose proof (permission_posts_nothing respond clock fuel self w) as Hp.
  destruct (has_webhook_permission respond clock fuel self w) as [[perm w1] evs1] eqn:Hperm.
  cbn [snd] in Hp.
  destruct perm as [allowed|]; [|cbn [snd]; by rewrite Hp].
  destruct (Py.truthy allowed) eqn:Ht; cbn [negb]; [|cbn [snd]; by rewrite Hp].
  intros _. unfold has_webhook_permission in Hperm.
  destruct (_send_api_request respond clock fuel self "GET" "webhooks/permissions" None
              None w) as [[res w1'] evs1'] eqn:Hs.
  destruct res as [response|e|]; try done; [|by injection Hperm as <- _ _].
  destruct response as [| | | | | |d]; cbn [reply_get] in Hperm;
    try (by injection Hperm as <- _ _).
  injection Hperm as <- <- <-.
  apply send_reply_origin in Hs as [(_ & _ & _ & Hb)|(Hc & w0 & out & Hr & Hout)].
  - by injection Hb as ->.
  - split; [done|]. exists w0, w1', d. split; [|done].
    destruct out as [b| |code headers|]; [by subst b|..];
      destruct Hout as [_ Hb]; by injection Hb as ->.
Qed.

(** X10.  No webhook is registered without permission: when
    [create_webhooks] has sent a POST, the client is configured and the
    remote itself has answered the permission request with a mapping
    whose [canCreateWebhooks] is true. *)
Theorem webhook_posted_only_with_permission {world : Type}
    (respond : world -> request -> outcome * world) (clock : world -> string)
    (fuel : nat) (self : CargAPIClient) (app_host : string) (w : world) :
  posts (create_webhooks respond clock fuel self app_host w).2 <> [] ->
  configured self = true
  /\ exists w0 w1 d,
       respond w0 (request_of self "GET" "webhooks/permissions" None None)
         = (Ok (JDict d), w1)
       /\ Py.truthy (Py.get_or "canCreateWebhooks" (JBool false) d) = true.
Proof.
  apply posts_need_permission.
Qed.

Lemma webhook_posted_only_with_permission_witness :
  configured Samples.client = true
  /\ exists w0 w1 d,
       scripted (Ok (JDict [])) w0
         (request_of Samples.client "GET" "webhooks/permissions" None None)
         = (Ok (JDict d), w1)
       /\ Py.truthy (Py.get_or "canCreateWebhooks" (JBool false) d) = true.
Proof.
  apply (webhook_posted_only_with_permission (scripted (Ok (JDict [])))
           (fun _ => Samples.noon) 1 Samples.client "https://port.example"
           [Ok (JDict [("canCreateWebhooks", JBool true)])]).
  vm_compute. discriminate.
Defined.

Lemma find_webhook_found webhook_url l wh :
  Forall (fun x => Py.is_dict x = true) l ->
  JDict wh ∈ l ->
  Py.get "url" wh = Some (JStr webhook_url) ->
  find_webhook webhook_url l = Some true.
Proof.
  intros Hall Hin Hurl. induction Hall as [|x l Hx _ IH]; [by apply not_elem_of_nil in Hin|].
  destruct x as [| | | | | |d]; try done. cbn [find_webhook].
  destruct (eq_str (Py.get_or "url" JNull d) webhook_url) eqn:E; [done|].
  apply IH. apply elem_of_cons in Hin as [[= ->]|Hin]; [|done].
  unfold Py.get_or in E. rewrite Hurl in E. simpl in E. by rewrite String.eqb_refl in E.
Qed.

(** X11.  Registration is not repeated: when the remote lists the
    webhooks as records and one of them has the URL of this integration,
    [create_webhooks] sends no POST. *)
Theorem existing_webhook_is_not_recreated {world : Type}
    (respond : world -> request -> outcome * world) (clock : world -> string)
    (fuel : nat) (self : CargAPIClient) (app_host : string) (w w2 : world)
    (d wh : dict) (l : list json) (evs2 : list event) :
  let w1 := (has_webhook_permission respond clock fuel self w).1.2 in
  _send_api_request respond clock fuel self "GET" "webhooks" None None w1
    = (Reply (JDict d), w2, evs2) ->
  Py.get "data" d = Some (JList l) ->
  Forall (fun x => Py.is_dict x = true) l ->
  JDict wh ∈ l ->
  Py.get "url" wh = Some (JStr (app_host +:+ "/integration/webhook")) ->
  posts (create_webhooks respond clock fuel self app_host w).2 = [].
Proof.
  cbn zeta. intros Hs Hd Hall Hin Hurl. unfold create_webhooks.
  pose proof (permission_posts_nothing respond clock fuel self w) as Hp.
  destruct (has_webhook_permission respond clock fuel self w) as [[perm w1] evs1].
  cbn [fst snd] in *.
  destruct perm as [allowed|]; [|done].
  destruct (negb (Py.truthy allowed)); [done|].
  pose proof (send_get_posts_nothing respond clock fuel self "webhooks" None None w1) as Hg.
  rewrite Hs in *. cbn [snd] in Hg.
  destruct (_send_api_request respond clock fuel self "POST" "webhooks" None _ w2)
    as [[created w3] evs3].
  unfold already_registered, Py.get_or. rewrite Hd.
  rewrite (find_webhook_found _ l wh Hall Hin Hurl). cbn [snd].
  by rewrite posts_app, Hp, Hg.
Qed.

Lemma existing_webhook_is_not_recreated_witness :
  posts (create_webhooks (scripted TransportFailure) (fun _ => Samples.noon) 1
           Samples.client "https://port.example"
           [ Ok (JDict [("canCreateWebhooks", JBool true)]);
             Ok (JDict [("data",
                         JList [JDict [("url", JStr "https://old.example/hook")];
                                JDict [("id", JInt 7);
                                       ("url", JStr "https://port.example/integration/webhook")]])])
           ]).2 = [].
Proof.
  apply (existing_webhook_is_not_recreated (scripted TransportFailure)
           (fun _ => Samples.noon) 1 Samples.client "https://port.example"
           [ Ok (JDict [("canCreateWebhooks", JBool true)]);
             Ok (JDict [("data",
                         JList [JDict [("url", JStr "https://old.example/hook")];
                                JDict [("id", JInt 7);
                                       ("url", JStr "https://port.example/integration/webhook")]])])
           ]
           []
           [("data",
             JList [JDict [("url", JStr "https://old.example/hook")];
                    JDict [("id", JInt 7);
                           ("url", JStr "https://port.example/integration/webhook")]])]
           [("id", JInt 7); ("url", JStr "https://port.example/integration/webhook")]
           [JDict [("url", JStr "https://old.example/hook")];
            JDict [("id", JInt 7);
                   ("url", JStr "https://port.example/integration/webhook")]]
           [Sent (request_of Samples.client "GET" "webhooks" None None)]).
  - reflexivity.
  - reflexivity.
  - repeat constructor.
  - apply elem_of_cons. right. apply elem_of_cons. by left.
  - reflexivity.
Defined.

End ClientOpsMore.

(** ** main.py *)

Module MainMore.
Import Client ClientFacts Main.

Lemma drain_lists (ls : list (list json)) (n : Z) :
  drain (map JList ls) n = (concat ls, (n + Z.of_nat (length (concat ls)))%Z, None).
Proof.
  revert n. induction ls as [|l ls IH]; intros n; simpl.
  - by rewrite Z.add_0_r.
  - rewrite IH. rewrite length_app. do 2 f_equal. lia.
Qed.

(** X12.  A resync handler hands over the whole data set: against a
    remote that serves a finite data set page by page, the handler of a
    kind yields every record once, in the order of the remote, counts
    them all, and ends normally. *)
Theorem resync_yields_every_record (style : api_style) (db : list json)
    (clock : unit -> string) (self : CargAPIClient) (fuel : nat)
    (resource_kind : string) :
  configured self = true ->
  length db < fuel ->
  let r := resync_kind (paged_remote style db) clock resource_kind fuel self tt in
  records r = db
  /\ total_count r = Z.of_nat (length db)
  /\ outcome_of r = Exhausted.
Proof.
  intros Hc Hfuel. cbn zeta. unfold resync_kind.
  unfold get_paginated_resources, get_paginated_resources_sized.
  set (start := Py.set "take" _ _).
  assert (HP : (0 < PAGE_SIZE)%Z) by done.
  destruct (fetch_loop_paged style db PAGE_SIZE clock self HP Hc fuel
              (resource_kind +:+ "s") start 0%Z) as (Hpages & Hended & _).
  { lia. }
  { unfold start. rewrite PyFacts.get_set_ne by done. apply PyFacts.get_set_eq. }
  { apply PyFacts.get_set_eq. }
  { rewrite length_drop. lia. }
  change (Z.to_nat 0) with 0 in Hpages. rewrite drop_0 in Hpages.
  rewrite Hpages, Hended, drain_lists.
  rewrite concat_chunks by (unfold PAGE_SIZE; lia). done.
Qed.

Lemma resync_yields_every_record_witness :
  configured Samples.client = true
  /\ length Samples.five < 6
  /\ records (resync_projects (paged_remote Samples.full_style Samples.five)
                (fun _ => Samples.noon) 6 Samples.client tt)
     = Samples.five.
Proof.
  split; [reflexivity|]. split; [simpl; lia|].
  exact (proj1 (resync_yields_every_record Samples.full_style Samples.five
                  (fun _ => Samples.noon) Samples.client 6 "project" eq_refl
                  ltac:(simpl; lia))).
Defined.
End MainMore.

(** ** extract_port_json.py *)

Module DirectMappingMore.
Import DirectMapping RoundTrip DirectRules.

Lemma nested_returns outer inner item :
  record_or_absent outer item = true ->
  exists v, nested outer inner item = Returned v.
Proof.
  unfold record_or_absent, nested, Py.get_or.
  destruct (Py.get outer item) as [[| | | | | |d]|]; try done; by eexists.
Qed.

Lemma nested_raises outer inner item :
  record_or_absent outer item = false ->
  nested outer inner item = Raised AttributeError.
Proof.
  unfold record_or_absent, nested, Py.get_or.
  by destruct (Py.get outer item) as [[| | | | | |d]|].
Qed.

Lemma nested_or_returns outer first second item :
  record_or_absent outer item = true ->
  exists v, nested_or outer first second item = Returned v.
Proof.
  intros H. unfold nested_or.
  destruct (nested_returns outer first item H) as (a & ->).
  destruct (nested_returns outer second item H) as (b & Hb).
  cbn [mbind exc_bind]. destruct (Py.truthy a); by eexists.
Qed.

Lemma nested_or_raises outer first second item :
  record_or_absent outer item = false ->
  nested_or outer first second item = Raised AttributeError.
Proof. intros H. unfold nested_or. by rewrite (nested_raises outer first item H). Qed.

Ltac nested_cases :=
  repeat match goal with
         | |- context [nested ?o ?i ?item] =>
             let E := fresh "E" in
             destruct (record_or_absent o item) eqn:E;
             [ let v := fresh "v" in
               let H := fresh "H" in
               destruct (nested_returns o i item E) as (v & H); rewrite H in *
             | rewrite (nested_raises o i item E) in * ]
         | |- context [nested_or ?o ?f ?s ?item] =>
             let E := fresh "E" in
             destruct (record_or_absent o item) eqn:E;
             [ let v := fresh "v" in
               let H := fresh "H" in
               destruct (nested_or_returns o f s item E) as (v & H); rewrite H in *
             | rewrite (nested_or_raises o f s item E) in * ]
         end.

(** X13.  A direct transform returns exactly when each nested source it
    reads (owner, azure_devops, repository, metrics, last_deployment,
    maintainer, deployed_by, by kind) is absent from the item or a
    record; otherwise it raises AttributeError, whatever else the item
    holds. *)
Theorem direct_transform_returns_iff (k : kind) (item : dict) :
  ((exists obj, transform k item = Returned obj)
   <-> Forall (fun on => record_or_absent on.1 item = true) (nested_fields k))
  /\ (forall e, transform k item = Raised e -> e = AttributeError).
Proof.
  destruct k; cbn [transform nested_fields];
    unfold _transform_project, _transform_service, _transform_component,
      _transform_deployment.
  all: split; [split|].
  all: try (intros (obj & Hobj); PyFacts.returned Hobj;
            repeat match goal with
                   | H : nested ?o ?i ?it = Returned _ |- _ =>
                       destruct (record_or_absent o it) eqn:?;
                       [clear H | by rewrite nested_raises in H by done]
                   | H : nested_or ?o ?f ?s ?it = Returned _ |- _ =>
                       destruct (record_or_absent o it) eqn:?;
                       [clear H | by rewrite nested_or_raises in H by done]
                   end;
            repeat constructor; done).
  all: try (intros Hall; repeat (apply Forall_cons in Hall as [? Hall]);
            cbn [fst] in *;
            repeat match goal with
                   | H : record_or_absent ?o ?it = true
                     |- context [nested ?o ?i ?it] =>
                       let v := fresh "v" in
                       let E := fresh "E" in
                       destruct (nested_returns o i it H) as (v & E); rewrite E;
                       cbn [mbind exc_bind]
                   | H : record_or_absent ?o ?it = true
                     |- context [nested_or ?o ?f ?s ?it] =>
                       let v := fresh "v" in
                       let E := fresh "E" in
                       destruct (nested_or_returns o f s it H) as (v & E); rewrite E;
                       cbn [mbind exc_bind]
                   end; by eexists).
  all: intros e; nested_cases; cbn [mbind exc_bind]; congruence.
Qed.

Ltac settle_errors :=
  let e := fresh "e" in
  let He := fresh "He" in
  intros e He;
  repeat (apply elem_of_cons in He as [->|He]);
  try (by apply not_elem_of_nil in He);
  first [ by left
        | right; left; split; [discriminate | reflexivity]
        | right; right; split; reflexivity ].

(** X14.  Whatever the raw item, an object that a direct transform
    returns can fail [_validate_single_object] in three ways only: its
    identifier is empty, its title is empty (never for a deployment,
    whose title always holds the separators), or the blueprint of its
    kind is not registered.  Its identifier is a string, its properties
    are a mapping and its relations are strings by construction. *)
Theorem transformed_object_errors (blueprints : list blueprint) (k : kind) (item obj : dict)
    (obj_id : string) :
  transform k item = Returned obj ->
  exists errors warnings,
    Validator._validate_single_object blueprints obj obj_id = Returned (errors, warnings)
    /\ forall e, e ∈ errors ->
         e = Validator.missing_or_empty obj_id "identifier"
         \/ (k <> Deployment /\ e = Validator.missing_or_empty obj_id "title")
         \/ (Validator.known blueprints (blueprint_of k) = false
             /\ e = Validator.unknown_blueprint obj_id (JStr (blueprint_of k))).
Proof.
  intros H.
  destruct k; cbn [transform] in H;
    unfold _transform_project, _transform_service, _transform_component,
      _transform_deployment in H;
    PyFacts.returned H; injection H as <-;
    unfold Validator._validate_single_object, Validator.check_required,
      Validator.check_blueprint, Validator.check_identifier,
      Validator.check_properties, Validator.check_relations;
    cbn [Validator.required_fields flat_map Py.mem Py.get Py.get_or String.eqb
         Ascii.eqb Bool.eqb app negb orb andb fst snd Py.is_str Py.is_none
         blueprint_of];
    rewrite ?RoundTripFacts.title_truthy;
    change (Py.truthy (JStr "cargProject")) with true;
    change (Py.truthy (JStr "cargService")) with true;
    change (Py.truthy (JStr "cargComponent")) with true;
    change (Py.truthy (JStr "cargDeployment")) with true;
    cbn [negb orb andb app mbind exc_bind];
    rewrite ?andb_false_r;
    repeat match goal with
           | |- context [Py.truthy ?v] => destruct (Py.truthy v)
           end;
    match goal with
    | |- context [Validator.known ?b ?n] => destruct (Validator.known b n) eqn:Hknown
    end;
    cbn [negb orb andb app mbind exc_bind];
    (eexists _, _; split; [reflexivity|]); settle_errors.
Qed.

Lemma transformed_object_errors_witness :
  exists errors warnings,
    Validator._validate_single_object Samples.registry
      [ ("identifier", JStr ""); ("title", JStr " -  - "); ("blueprint", JStr "cargDeployment");
        ("properties",
         JDict [ ("status", JNull); ("environment", JNull); ("version", JNull);
                 ("deployedBy", JNull); ("deploymentTime", JNull); ("duration", JNull);
                 ("azurePipelineRun", JNull); ("logs", JNull) ]);
        ("relations", JDict [("service", JStr "")]) ] "carg-deployment[0]"
    = Returned (errors, warnings)
    /\ forall e, e ∈ errors ->
         e = Validator.missing_or_empty "carg-deployment[0]" "identifier"
         \/ (Deployment <> Deployment
             /\ e = Validator.missing_or_empty "carg-deployment[0]" "title")
         \/ (Validator.known Samples.registry (blueprint_of Deployment) = false
             /\ e = Validator.unknown_blueprint "carg-deployment[0]"
                      (JStr (blueprint_of Deployment))).
Proof.
  exact (transformed_object_errors Samples.registry Deployment [] _ "carg-deployment[0]"
           eq_refl).
Defined.

End DirectMappingMore.

(** ** extract_port_objects.py: the mapping *)

Module ExtractorFacts.
Import ExpressionMapping Extractor.

Section Jq.
Variable jq_first : string -> json -> option json.

Lemma relations_of_all rels raw_data relations :
  Forall (fun ne => evaluate jq_first ne.2 raw_data <> None) rels ->
  relations_of jq_first rels raw_data relations
  = Some (transform_relations jq_first rels raw_data relations).
Proof.
  intros H. revert relations.
  induction H as [|[name e] rels He _ IH]; intros relations; [done|].
  cbn [relations_of transform_relations]. cbn [snd] in He.
  destruct (evaluate jq_first e raw_data) as [v|]; [|done]. apply IH.
Qed.

Lemma relations_of_failing rels raw_data relations name e :
  (name, e) ∈ rels ->
  evaluate jq_first e raw_data = None ->
  relations_of jq_first rels raw_data relations = None.
Proof.
  intros Hin He. revert relations.
  induction rels as [|[n0 e0] rels IH]; intros relations;
    [by apply not_elem_of_nil in Hin|].
  cbn [relations_of].
  apply elem_of_cons in Hin as [[= <- <-]|Hin]; [by rewrite He|].
  destruct (evaluate jq_first e0 raw_data); [by apply IH | done].
Qed.

Lemma apply_mapping_other field e raw_data port_object f :
  f <> field ->
  Py.get f (apply_mapping jq_first field e raw_data port_object) = Py.get f port_object.
Proof.
  intros Hne. unfold apply_mapping.
  destruct (String.eqb field "relations") eqn:E.
  - apply String.eqb_eq in E. subst field.
    destruct e; try done. destruct (relations_of _ _ _ _); [|done].
    destruct (Py.truthy _); [|done]. by rewrite PyFacts.get_set_ne.
  - destruct (evaluate jq_first e raw_data) as [v|]; [|done].
    destruct (Py.is_none v); [done|]. by rewrite PyFacts.get_set_ne.
Qed.

Lemma apply_mappings_other mappings raw_data port_object f :
  f ∉ map fst mappings ->
  Py.get f (apply_mappings jq_first mappings raw_data port_object) = Py.get f port_object.
Proof.
  revert port_object. induction mappings as [|[f0 e0] rest IH]; intros port_object; [done|].
  cbn [map fst]. rewrite not_elem_of_cons. intros [Hne Hrest].
  cbn [apply_mappings]. rewrite IH by done. by apply apply_mapping_other.
Qed.

End Jq.

(** X15.  The two expression mappings agree as long as no relation
    expression fails: when the resource configuration holds the
    mappings, every [relations] entry is a mapping and each of its
    expressions has a first output, [transform_to_port_object] gives
    what [_transform_item] gives. *)
Theorem extractors_agree (jq_first : string -> json -> option json) (raw_data : json)
    (resource_config : json) (mappings : dict) :
  (port ← subscript "port" resource_config;
   entity ← subscript "entity" port;
   subscript "mappings" entity) = Returned (JDict mappings) ->
  Forall (fun fe => fe.1 = "relations" ->
                    exists rels, fe.2 = JDict rels
                                 /\ Forall (fun ne => evaluate jq_first ne.2 raw_data <> None)
                                      rels)
    mappings ->
  transform_to_port_object jq_first raw_data resource_config
  = _transform_item jq_first raw_data mappings.
Proof.
  intros Hcfg Hrels. unfold transform_to_port_object, _transform_item.
  destruct (subscript "port" resource_config) as [port|]; [|done]. cbn in Hcfg |- *.
  destruct (subscript "entity" port) as [entity|]; [|done]. cbn in Hcfg |- *.
  rewrite Hcfg. clear Hcfg. cbn. generalize (@nil (string * json)) as acc.
  induction Hrels as [|[f e] rest Hfe _ IH]; intros acc; [done|].
  cbn [apply_mappings transform_fields]. unfold apply_mapping.
  destruct (String.eqb f "relations") eqn:E.
  - apply String.eqb_eq in E. subst f. cbn [fst snd] in Hfe.
    destruct (Hfe eq_refl) as (rels & -> & Hall).
    rewrite (relations_of_all jq_first rels raw_data [] Hall). apply IH.
  - apply IH.
Qed.

Lemma extractors_agree_witness :
  transform_to_port_object jq_paths (JDict Samples.orphan_service)
    (JDict [("kind", JStr "carg-service");
            ("port", JDict [("entity", JDict [("mappings", JDict Samples.service_mapping)])])])
  = _transform_item jq_paths (JDict Samples.orphan_service) Samples.service_mapping.
Proof.
  apply extractors_agree; [reflexivity|].
  do 3 (constructor; [intros H; discriminate H|]).
  constructor; [|constructor].
  intros _. exists [("project", JStr ".project_id")]. split; [reflexivity|].
  constructor; [discriminate | constructor].
Defined.

Lemma apply_mappings_failing_relation (jq_first : string -> json -> option json)
    (raw_data : json) (mappings rels : dict) (name : string) (e : json) :
  NoDup (map fst mappings) ->
  Py.get "relations" mappings = Some (JDict rels) ->
  (name, e) ∈ rels ->
  evaluate jq_first e raw_data = None ->
  Py.get "relations" (apply_mappings jq_first mappings raw_data []) = None.
Proof.
  intros Hnd Hget Hin He.
  assert (Hgen : forall acc, Py.get "relations" acc = None ->
            Py.get "relations" (apply_mappings jq_first mappings raw_data acc) = None);
    [|by apply Hgen].
  induction mappings as [|[f0 e0] rest IH]; intros acc Hacc; [done|].
  apply NoDup_cons in Hnd as [Hf0 Hnd]. cbn [apply_mappings]. cbn [Py.get] in Hget.
  destruct (String.eqb "relations" f0) eqn:E.
  - apply String.eqb_eq in E. subst f0. injection Hget as ->.
    rewrite apply_mappings_other by done. unfold apply_mapping.
    cbn [String.eqb Ascii.eqb Bool.eqb].
    by rewrite (relations_of_failing jq_first rels raw_data [] name e Hin He).
  - apply IH; [done|done|]. rewrite apply_mapping_other; [done|].
    apply String.eqb_neq in E. done.
Qed.

(** X16.  In [transform_to_port_object] the relations stand or fall
    together: when one relation expression fails, the object is
    returned without [relations], whatever the other expressions
    yield. *)
Theorem failing_relation_drops_all_relations (jq_first : string -> json -> option json)
    (raw_data resource_config : json) (mappings rels : dict) (name : string) (e : json) :
  (port ← subscript "port" resource_config;
   entity ← subscript "entity" port;
   subscript "mappings" entity) = Returned (JDict mappings) ->
  NoDup (map fst mappings) ->
  Py.get "relations" mappings = Some (JDict rels) ->
  (name, e) ∈ rels ->
  evaluate jq_first e raw_data = None ->
  exists port_object,
    transform_to_port_object jq_first raw_data resource_config = Returned port_object
    /\ Py.get "relations" port_object = None.
Proof.
  intros Hcfg Hnd Hget Hin He. unfold transform_to_port_object.
  destruct (subscript "port" resource_config) as [port|]; [|done]. cbn in Hcfg |- *.
  destruct (subscript "entity" port) as [entity|]; [|done]. cbn in Hcfg |- *.
  rewrite Hcfg. cbn. eexists. split; [done|].
  by apply (apply_mappings_failing_relation jq_first raw_data mappings rels name e).
Qed.

Lemma failing_relation_drops_all_relations_witness :
  exists port_object,
    transform_to_port_object jq_paths (JDict [("id", JInt 7); ("project_id", JStr "p1")])
      (JDict [("port", JDict [("entity", JDict [("mappings", JDict
         [("identifier", JStr ".id");
          ("relations", JDict [("project", JStr ".project_id"); ("team", JStr "team")])])])])])
    = Returned port_object
    /\ Py.get "relations" port_object = None.
Proof.
  apply (failing_relation_drops_all_relations jq_paths _ _
           [("identifier", JStr ".id");
            ("relations", JDict [("project", JStr ".project_id"); ("team", JStr "team")])]
           [("project", JStr ".project_id"); ("team", JStr "team")] "team" (JStr "team")).
  - reflexivity.
  - apply (bool_decide_unpack _). vm_compute. exact I.
  - reflexivity.
  - apply elem_of_cons. right. apply elem_of_cons. by left.
  - reflexivity.
Defined.

End ExtractorFacts.

(** ** extract_port_objects.py: validation against the blueprints *)

Module ExtractorValidation.
Import Extractor ExtractorRules.

Lemma find_blueprint_Some blueprint_id blueprints bp :
  find_blueprint blueprint_id blueprints = Some bp ->
  blueprint_id = JStr (bp_identifier bp) /\ bp ∈ blueprints.
Proof.
  induction blueprints as [|b rest IH]; simpl; [done|].
  destruct (ClientOps.eq_str blueprint_id (bp_identifier b)) eqn:E.
  - intros [= <-]. split; [|by left].
    destruct blueprint_id; try done. simpl in E. by apply String.eqb_eq in E as ->.
  - intros H. destruct (IH H) as [? ?]. split; [done | by right].
Qed.

Lemma stats_set_counted kind st s :
  counted (kind, st) -> Forall counted s -> Forall counted (stats_set kind st s).
Proof.
  intros Hst Hs. induction Hs as [|[k v] s Hkv Hs IH]; simpl; [constructor; [done|constructor]|].
  destruct (String.eqb kind k); by constructor.
Qed.

Lemma validate_each_spec kind bp i objects st res st' res' :
  validate_each kind bp i objects st res = Returned (st', res') ->
  (consistent res -> consistent res')
  /\ (valid res' = true ->
      valid res = true
      /\ forall j obj, objects !! j = Some obj ->
           BlueprintValidator.validate_object_against_blueprint obj bp
             (Validator.obj_id_of kind (i + j)) = Returned [])
  /\ total st' = total st
  /\ valid_count st' + error_count st' = valid_count st + error_count st + length objects
  /\ stats res' = stats res.
Proof.
  revert i st res. induction objects as [|obj rest IH]; intros i st res; cbn [validate_each].
  - intros [= <- <-]. split_and!; [done| |done|simpl; lia|done].
    intros Hv. split; [done|]. intros j o Hj. by rewrite lookup_nil in Hj.
  - destruct (BlueprintValidator.validate_object_against_blueprint obj bp
                (Validator.obj_id_of kind i)) as [obj_errors|e] eqn:Hobj; [|done].
    cbn [mbind exc_bind].
    destruct obj_errors as [|e es]; intros H; apply IH in H as (Hc & Hv & Ht & Hn & Hs);
      cbn [valid errors stats total valid_count error_count] in *.
    + split_and!; [done| |done|simpl; lia|done].
      intros Hv'. destruct (Hv Hv') as [Hres Hall]. split; [done|].
      intros [|j] o Hj; simpl in Hj.
      * injection Hj as <-. by rewrite Nat.add_0_r.
      * rewrite Nat.add_succ_r. by apply (Hall j).
    + split_and!; [| |done|simpl; lia|done].
      * intros _. apply Hc. unfold consistent. cbn [valid errors].
        split; [done|]. by intros [_ ?]%app_eq_nil.
      * intros Hv'. by destruct (Hv Hv').
Qed.

Section Registry.
Variable blueprints : list blueprint.

Lemma failed_inconsistent message res : consistent (failed message res).
Proof. unfold consistent, failed. simpl. split; [done|]. by intros [_ ?]%app_eq_nil. Qed.

Lemma blueprint_kinds_spec port_objects res res' :
  validate_kinds blueprints port_objects res = Returned res' ->
  consistent res ->
  Forall counted (stats res) ->
  consistent res'
  /\ Forall counted (stats res')
  /\ (valid res' = true -> valid res = true /\ Forall (passes blueprints) port_objects).
Proof.
  revert res. induction port_objects as [|[kind objects] rest IH]; intros res;
    cbn [validate_kinds].
  - intros [= <-] Hc Hs. by split_and!.
  - set (blueprint_id := match objects with
                         | obj :: _ => Py.get_or "blueprint" JNull obj
                         | [] => JNull
                         end).
    destruct (Py.truthy blueprint_id) eqn:Ht; cbn [negb].
    2:{ intros H Hc Hs. apply IH in H as (Hc' & Hs' & Hv); [|apply failed_inconsistent|done].
        split_and!; try done. intros Hv'. by destruct (Hv Hv'). }
    destruct (find_blueprint blueprint_id blueprints) as [bp|] eqn:Hbp.
    2:{ intros H Hc Hs. apply IH in H as (Hc' & Hs' & Hv); [|apply failed_inconsistent|done].
        split_and!; try done. intros Hv'. by destruct (Hv Hv'). }
    destruct (validate_each kind bp 0 objects _ res) as [[st res1]|e] eqn:He; [|done].
    cbn [mbind exc_bind]. intros H Hc Hs.
    apply validate_each_spec in He as (Hc1 & Hv1 & Ht1 & Hn1 & Hs1).
    cbn [total valid_count error_count] in Ht1, Hn1.
    apply IH in H as (Hc' & Hs' & Hv); cbn [valid errors stats].
    + split_and!; try done. intros Hv'. destruct (Hv Hv') as [Hres1 Hrest].
      cbn [valid] in Hres1. destruct (Hv1 Hres1) as [Hres Hall].
      split; [done|]. constructor; [|done].
      apply find_blueprint_Some in Hbp as [Hid Hin].
      destruct objects as [|obj objs]; [done|].
      exists obj, objs, bp. split_and!; try done.
      unfold blueprint_id, Py.get_or in Hid.
      destruct (Py.get "blueprint" obj) as [v|]; [by subst v | done].
    + unfold consistent in *. cbn [valid errors]. by apply Hc1.
    + apply stats_set_counted; [|by rewrite Hs1]. unfold counted. cbn [snd]. lia.
Qed.

End Registry.

(** X17.  The verdict of [validate_against_blueprints], when it returns:
    the flag is true exactly when no error was recorded; it is true only
    if every kind has objects, the blueprint named by the first object of
    the kind is registered, and every object of the kind is without
    error against that blueprint; and the counters of each kind add up,
    valid plus errors being the total. *)
Theorem blueprint_validation_verdict (blueprints : list blueprint)
    (port_objects : list (string * list dict)) (res : validation_results) :
  validate_against_blueprints blueprints port_objects = Returned res ->
  (valid res = true <-> errors res = [])
  /\ (valid res = true -> Forall (passes blueprints) port_objects)
  /\ Forall (fun ks => valid_count ks.2 + error_count ks.2 = total ks.2) (stats res).
Proof.
  unfold validate_against_blueprints. intros H.
  apply blueprint_kinds_spec in H as (Hc & Hs & Hv); [|done|constructor].
  split_and!; try done. intros Hv'. by destruct (Hv Hv').
Qed.

Lemma blueprint_validation_verdict_witness :
  exists res,
    validate_against_blueprints Samples.registry
      [("carg-project", [Samples.unnamed_project]); ("carg-service", [])] = Returned res
    /\ (valid res = true <-> errors res = []).
Proof.
  eexists. split; [reflexivity|].
  exact (proj1 (blueprint_validation_verdict Samples.registry
                  [("carg-project", [Samples.unnamed_project]); ("carg-service", [])] _
                  eq_refl)).
Defined.

(** *** Only the first object of a kind chooses the blueprint *)

Lemma mem_set_other k k' v d : k <> k' -> Py.mem k' (Py.set k v d) = Py.mem k' d.
Proof. intros H. unfold Py.mem. by rewrite PyFacts.get_set_ne. Qed.

Lemma validate_object_ignores_blueprint obj v bp obj_path :
  Py.mem "blueprint" obj = true ->
  BlueprintValidator.validate_object_against_blueprint (Py.set "blueprint" v obj) bp obj_path
  = BlueprintValidator.validate_object_against_blueprint obj bp obj_path.
Proof.
  intros Hm. unfold BlueprintValidator.validate_object_against_blueprint,
    BlueprintValidator.check_required, BlueprintValidator.check_properties,
    BlueprintValidator.check_relations.
  cbn [Validator.required_fields flat_map].
  rewrite !mem_set_other by done. rewrite !PyFacts.get_set_ne by done.
  unfold Py.mem at 3. rewrite PyFacts.get_set_eq. by rewrite Hm.
Qed.

Lemma validate_each_ignores_blueprint kind bp i rest rest' st res :
  Forall2 (fun o o' => Py.mem "blueprint" o = true
                       /\ exists v, o' = Py.set "blueprint" v o) rest rest' ->
  validate_each kind bp i rest' st res = validate_each kind bp i rest st res.
Proof.
  intros H. revert i st res.
  induction H as [|o o' rest rest' (Hm & v & ->) _ IH]; intros i st res; [done|].
  cbn [validate_each]. rewrite validate_object_ignores_blueprint by done.
  destruct (BlueprintValidator.validate_object_against_blueprint o bp _) as [[|e es]|e];
    cbn [mbind exc_bind]; [apply IH | apply IH | done].
Qed.

(** X18.  All objects of a kind are checked against the blueprint that
    the first of them names.  The blueprint field of a later object is
    only tested for presence: replacing its value by any other changes
    nothing in the result of [validate_against_blueprints]. *)
Theorem later_blueprint_fields_are_ignored (blueprints : list blueprint)
    (before after : list (string * list dict)) (kind : string) (first : dict)
    (rest rest' : list dict) :
  Forall2 (fun o o' => Py.mem "blueprint" o = true
                       /\ exists v, o' = Py.set "blueprint" v o) rest rest' ->
  validate_against_blueprints blueprints (before ++ (kind, first :: rest') :: after)
  = validate_against_blueprints blueprints (before ++ (kind, first :: rest) :: after).
Proof.
  intros H. unfold validate_against_blueprints.
  generalize ({| valid := true; errors := []; warnings := []; stats := [] |}).
  induction before as [|[k objs] before IH]; intros res.
  - cbn [app validate_kinds].
    destruct (negb (Py.truthy (Py.get_or "blueprint" JNull first))); [done|].
    destruct (find_blueprint _ blueprints) as [bp|]; [|done].
    cbn [length]. rewrite <- (Forall2_length _ _ _ H).
    cbn [validate_each].
    destruct (BlueprintValidator.validate_object_against_blueprint first bp _)
      as [[|e es]|e]; cbn [mbind exc_bind]; [| |done];
      by rewrite (validate_each_ignores_blueprint _ _ _ rest rest').
  - cbn [app validate_kinds].
    destruct (negb (Py.truthy _)); [apply IH|].
    destruct (find_blueprint _ blueprints) as [bp|]; [|apply IH].
    destruct (validate_each k bp 0 objs _ res) as [[st res1]|e]; [|done].
    cbn [mbind exc_bind]. apply IH.
Qed.

Lemma later_blueprint_fields_are_ignored_witness :
  validate_against_blueprints Samples.registry
    [("carg-project",
      [(Samples.project_with []);
       Py.set "blueprint" (JStr "noSuchBlueprint") (Samples.project_with [])])]
  = validate_against_blueprints Samples.registry
      [("carg-project", [(Samples.project_with []); (Samples.project_with [])])].
Proof.
  apply (later_blueprint_fields_are_ignored Samples.registry [] [] "carg-project"
           (Samples.project_with []) [(Samples.project_with [])]
           [Py.set "blueprint" (JStr "noSuchBlueprint") (Samples.project_with [])]).
  constructor; [|constructor]. split; [reflexivity|]. by eexists.
Defined.

End ExtractorValidation.

(** ** validate_port_objects.py *)

Module ValidatorMore.
Import Validator ValidatorFacts ValidatorRules.

Lemma check_required_ok obj obj_id :
  (forall field, field ∈ required_fields ->
                 exists v, Py.get field obj = Some v /\ Py.truthy v = true) ->
  check_required obj obj_id = [].
Proof.
  intros H. unfold check_required.
  assert (Hf : forall field, field ∈ required_fields ->
            negb (Py.mem field obj) || negb (Py.truthy (Py.get_or field JNull obj)) = false).
  { intros field Hin. destruct (H field Hin) as (v & Hv & Ht).
    unfold Py.mem, Py.get_or. by rewrite Hv, Ht. }
  unfold required_fields in *. cbn [flat_map].
  rewrite !Hf; [done|..]; repeat first [by left | right].
Qed.

Lemma flat_map_nil {A B} (f : A -> list B) (l : list A) :
  flat_map f l = [] <-> Forall (fun x => f x = []) l.
Proof.
  induction l as [|a l IH]; simpl; [by split|].
  split.
  - intros [Ha Hl]%app_eq_nil. constructor; [done | by apply IH].
  - intros H. apply Forall_cons in H as [-> Hl]. by apply IH.
Qed.

(** X19.  The objects that [_validate_single_object] passes without
    error are exactly those with a non-empty string for identifier, a
    non-empty title, a non-empty string for blueprint that names a
    registered blueprint, properties that are absent or a mapping, and
    relations that are absent or a mapping of strings. *)
Theorem error_free_object (blueprints : list blueprint) (obj : dict) (obj_id : string) :
  (exists warnings,
     _validate_single_object blueprints obj obj_id = Returned ([], warnings))
  <-> (exists identifier,
         Py.get "identifier" obj = Some (JStr identifier) /\ identifier <> "")
      /\ (exists title, Py.get "title" obj = Some title /\ Py.truthy title = true)
      /\ (exists name,
            Py.get "blueprint" obj = Some (JStr name) /\ name <> ""
            /\ name ∈ map bp_identifier blueprints)
      /\ (forall v, Py.get "properties" obj = Some v -> Py.is_dict v = true)
      /\ (forall v, Py.get "relations" obj = Some v ->
                    exists rels, v = JDict rels
                                 /\ Forall (fun kv => Py.is_str kv.2 = true) rels).
Proof.
  split.
  - intros (warnings & Hv).
    apply validate_single_parts in Hv as (unknown & Hu & He & _).
    symmetry in He.
    apply app_eq_nil in He as [Hreq He]. apply app_eq_nil in He as [-> He].
    apply app_eq_nil in He as [Hid He]. apply app_eq_nil in He as [Hprops Hrels].
    destruct (check_required_nil obj obj_id "identifier" Hreq) as (i & Hi & Hit);
      [by left|].
    destruct (check_required_nil obj obj_id "title" Hreq) as (t & Ht & Htt);
      [right; by left|].
    destruct (check_required_nil obj obj_id "blueprint" Hreq) as (b & Hb & Hbt);
      [right; right; by left|].
    split_and!.
    + unfold check_identifier, Py.get_or in Hid. rewrite Hi, Hit in Hid.
      destruct i as [| | | |s| |]; try done. exists s. split; [done|].
      simpl in Hit. by apply negb_true_iff, String.eqb_neq in Hit.
    + by exists t.
    + unfold check_blueprint, Py.get_or in Hu. rewrite Hb, Hbt in Hu.
      destruct b as [| | | |s| |]; try done. exists s. split; [done|]. split.
      * simpl in Hbt. by apply negb_true_iff, String.eqb_neq in Hbt.
      * injection Hu as Hu. unfold known in Hu.
        destruct (bool_decide_reflect (s ∈ map bp_identifier blueprints)); done.
    + intros v Hp. unfold check_properties in Hprops. rewrite Hp in Hprops.
      by destruct v.
    + intros v Hr. unfold check_relations in Hrels. rewrite Hr in Hrels.
      destruct v as [| | | | | |rels]; try done. exists rels. split; [done|].
      apply flat_map_nil in Hrels. eapply Forall_impl; [exact Hrels|].
      intros kv. simpl. by destruct (Py.is_str kv.2).
  - intros ((i & Hi & Hine) & (t & Ht & Htt) & (b & Hb & Hbne & Hbin) & Hprops & Hrels).
    unfold _validate_single_object.
    rewrite check_required_ok.
    2:{ intros field Hf.
        repeat (apply elem_of_cons in Hf as [->|Hf]); [..|by apply not_elem_of_nil in Hf].
        - exists (JStr i). split; [done|]. simpl. by apply negb_true_iff, String.eqb_neq.
        - by exists t.
        - exists (JStr b). split; [done|]. simpl. by apply negb_true_iff, String.eqb_neq. }
    unfold check_blueprint, check_identifier, Py.get_or. rewrite Hb, Hi.
    assert (Hbt : Py.truthy (JStr b) = true)
      by (simpl; by apply negb_true_iff, String.eqb_neq).
    rewrite Hbt. unfold known. rewrite bool_decide_true by done.
    cbn [mbind exc_bind app Py.is_str negb andb].
    rewrite andb_false_r. cbn [app].
    assert (Hp : (check_properties obj obj_id).1 = []).
    { unfold check_properties. destruct (Py.get "properties" obj) as [v|]; [|done].
      specialize (Hprops v eq_refl). by destruct v. }
    assert (Hr : check_relations obj obj_id = []).
    { unfold check_relations. destruct (Py.get "relations" obj) as [v|]; [|done].
      destruct (Hrels v eq_refl) as (rels & -> & Hall).
      apply flat_map_nil. eapply Forall_impl; [exact Hall|].
      intros kv Hs. simpl in Hs. by rewrite Hs. }
    destruct (check_properties obj obj_id) as [perrors pwarnings]. simpl in Hp. subst.
    rewrite Hr. by eexists.
Qed.

(** *** The summary *)

Section Summary.
Variable blueprints : list blueprint.

Lemma summary_set_fresh kind kr s :
  kind ∉ map fst s -> summary_set kind kr s = s ++ [(kind, kr)].
Proof.
  induction s as [|[k v] s IH]; simpl; [done|].
  rewrite not_elem_of_cons. intros [Hne Hs].
  destruct (String.eqb kind k) eqn:E; [by apply String.eqb_eq in E|].
  by rewrite IH.
Qed.

Lemma validate_kinds_summary port_objects res :
  Forall (fun ko => Forall Rules.blueprint_hashable ko.2) port_objects ->
  NoDup (map fst (summary res) ++ map fst port_objects) ->
  exists res',
    validate_kinds blueprints port_objects res = Returned res'
    /\ summary res' = summary res ++ map (fun ko => (ko.1, kind_report blueprints ko)) port_objects
    /\ total_objects res'
       = total_objects res + sum_list (map (fun ko => length ko.2) port_objects).
Proof.
  intros Hh. revert res.
  induction Hh as [|[kind objects] rest Hobjs _ IH]; intros res Hnd.
  - exists res. simpl. by rewrite app_nil_r, Nat.add_0_r.
  - cbn [validate_kinds]. rewrite validate_objects_spec by done.
    cbn [mbind exc_bind summary total_objects valid validation_errors
         validation_warnings count valid_objects errors warnings].
    cbn [map fst] in Hnd.
    assert (Hfresh : kind ∉ map fst (summary res)).
    { apply NoDup_app in Hnd as (_ & Hdis & _). intros Hin.
      apply (Hdis kind Hin). by left. }
    rewrite summary_set_fresh by done.
    edestruct IH as (res' & -> & Hs & Ht).
    { cbn [summary]. rewrite map_app, <- app_assoc. exact Hnd. }
    exists res'. split; [done|]. rewrite Hs, Ht.
    cbn [summary total_objects map sum_list fst snd]. rewrite <- app_assoc.
    split; [done | simpl; lia].
Qed.

Lemma length_reports kind i objects :
  length (Rules.reports blueprints kind i objects) = length objects.
Proof. revert i. induction objects as [|o os IH]; intros i; simpl; [done|]. by rewrite IH. Qed.

Lemma all_valid_iff (rs : list (list string * list string)) :
  length (filter (fun r => Rules.no_errors r = true) rs) = length rs
  <-> concat (map fst rs) = [].
Proof.
  induction rs as [|[es ws] rs IH]; [done|].
  pose proof (length_filter (fun r => Rules.no_errors r = true) rs) as Hle.
  rewrite filter_cons. unfold Rules.no_errors at 1. cbn [fst map concat].
  destruct es as [|e es].
  - rewrite decide_True by done. cbn [length app]. rewrite <- IH. split; lia.
  - rewrite decide_False by done. cbn [length app]. split; [lia | done].
Qed.

End Summary.

(** X20.  The summary of a pass over kinds that are distinct, on objects
    whose blueprint values can be hashed: it has one entry for each
    kind, in the order of the input; the entry counts the objects of the
    kind, its valid objects are those reported without error, never more
    than the count and equal to it exactly when the kind has no error;
    and the total is the sum of the counts. *)
Theorem summary_counts_every_kind (blueprints : list blueprint)
    (port_objects : list (string * list dict)) :
  Forall (fun ko => Forall Rules.blueprint_hashable ko.2) port_objects ->
  NoDup (map fst port_objects) ->
  exists res,
    validate_port_objects blueprints port_objects = Returned res
    /\ map fst (summary res) = map fst port_objects
    /\ Forall2 (fun ko kr =>
                  count kr.2 = length ko.2
                  /\ valid_objects kr.2
                     = length (filter (fun r => Rules.no_errors r = true)
                                 (Rules.reports blueprints ko.1 0 ko.2))
                  /\ valid_objects kr.2 <= count kr.2
                  /\ (valid_objects kr.2 = count kr.2 <-> errors kr.2 = []))
         port_objects (summary res)
    /\ total_objects res = sum_list (map (fun kr => count kr.2) (summary res)).
Proof.
  intros Hh Hnd. unfold validate_port_objects.
  edestruct (validate_kinds_summary blueprints port_objects) as (res & -> & Hs & Ht);
    [done | exact Hnd |].
  cbn [summary total_objects app] in Hs, Ht.
  exists res. split; [done|]. rewrite Hs, Ht. clear. split_and!.
  - rewrite map_map. by apply map_ext.
  - induction port_objects as [|[kind objects] rest IH]; [constructor|].
    cbn [map]. constructor; [|done]. cbn [fst snd kind_report count valid_objects errors].
    pose proof (length_filter (fun r => Rules.no_errors r = true)
                  (Rules.reports blueprints kind 0 objects)) as Hle.
    rewrite length_reports in Hle. split_and!; try done.
    rewrite <- (length_reports blueprints kind 0 objects). apply all_valid_iff.
  - rewrite map_map. simpl. done.
Qed.

Lemma summary_counts_every_kind_witness :
  exists res,
    validate_port_objects Samples.registry
      [ ("carg-project", [Samples.project_with []; Samples.unnamed_project]);
        ("carg-service", [Samples.service_with []]) ] = Returned res
    /\ map fst (summary res) = ["carg-project"; "carg-service"].
Proof.
  destruct (summary_counts_every_kind Samples.registry
              [ ("carg-project", [Samples.project_with []; Samples.unnamed_project]);
                ("carg-service", [Samples.service_with []]) ])
    as (res & Hres & Hkinds & _).
  - repeat constructor; intros _; reflexivity.
  - apply (bool_decide_unpack _). vm_compute. exact I.
  - exists res. split; [exact Hres | exact Hkinds].
Defined.

End ValidatorMore.

(** ** extract_port_objects.py: what the blueprint validator does not report *)

Module BlueprintValidatorMore.
Import BlueprintValidator.

(** X21.  [validate_object_against_blueprint] reports no error for
    properties or relations that are not a mapping: it raises
    AttributeError, exactly when the object has properties that are not
    a mapping and the blueprint has a schema, or relations that are not
    a mapping and the blueprint has a relation set. *)
Theorem blueprint_validator_raises_iff (obj : dict) (bp : blueprint) (obj_path : string) :
  ((exists e, validate_object_against_blueprint obj bp obj_path = Raised e)
   <-> (exists v, Py.get "properties" obj = Some v /\ Py.is_dict v = false
                  /\ bp_schema_properties bp <> None)
       \/ (exists v, Py.get "relations" obj = Some v /\ Py.is_dict v = false
                     /\ bp_relations bp <> None))
  /\ (forall e, validate_object_against_blueprint obj bp obj_path = Raised e ->
                e = AttributeError).
Proof.
  unfold validate_object_against_blueprint, check_properties, check_relations.
  destruct (Py.get "properties" obj) as [p|], (bp_schema_properties bp) as [sp|],
    (Py.get "relations" obj) as [r|], (bp_relations bp) as [br|];
    try destruct p; try destruct r; cbn [mbind exc_bind];
    (split; [split|]);
    try (intros [? ?]; discriminate);
    try (intros [(? & ? & ? & ?)|(? & ? & ? & ?)]; simplify_eq; done);
    try (intros ? [= <-]; reflexivity);
    try (intros ? ?; discriminate);
    try (intros _; first [ left; eexists; split_and!; [reflexivity|reflexivity|discriminate]
                         | right; eexists; split_and!; [reflexivity|reflexivity|discriminate] ]);
    try (intros _; by eexists).
Qed.

End BlueprintValidatorMore.

(** ** Extract, then validate *)

Module PipelineFacts.
Import DirectMapping RoundTrip RoundTripFacts Pipeline.


Lemma transform_blueprint k item obj :
  transform k item = Returned obj ->
  Py.get "blueprint" obj = Some (JStr (blueprint_of k)).
Proof.
  intros H.
  destruct k; cbn [transform] in H;
    unfold _transform_project, _transform_service, _transform_component,
      _transform_deployment in H;
    PyFacts.returned H; by injection H as <-.
Qed.

Lemma transform_hashable k item obj :
  transform k item = Returned obj -> Rules.blueprint_hashable obj.
Proof.
  intros H%transform_blueprint _. unfold Py.get_or. by rewrite H.
Qed.

Lemma transform_all_hashable k raw objs :
  transform_all k raw = Returned objs -> Forall Rules.blueprint_hashable objs.
Proof.
  revert objs. induction raw as [|item rest IH]; intros objs; cbn [transform_all].
  - intros [= <-]. constructor.
  - intros H. PyFacts.returned H. injection H as <-.
    destruct item as [| | | | | |d]; try done.
    constructor; [by eapply transform_hashable | by apply IH].
Qed.





(** X23.  Validation cannot fail on what the extraction returns: every
    extracted object has a string for blueprint, so the pass reports on
    every object and [main] ends with an exit code, 0 when no error was
    recorded and 1 otherwise. *)
Theorem pipeline_ends_with_exit_code (blueprints : list blueprint) (raw : raw_data)
    (port_objects : list (string * list dict)) :
  extract_all_objects raw = Returned port_objects ->
  exists res,
    Validator.validate_port_objects blueprints port_objects = Returned res
    /\ main blueprints raw
       = Returned (if decide (Validator.validation_errors res = []) then 0 else 1)%Z.
Proof.
  intros H. unfold main. rewrite H. cbn [mbind exc_bind].
  unfold extract_all_objects in H. PyFacts.returned H. injection H as <-.
  edestruct (ValidatorFacts.validate_port_objects_exhaustive blueprints)
    as (res & -> & _ & Hiff & _).
  { repeat constructor; cbn [snd]; by eapply transform_all_hashable. }
  exists res. split; [done|]. cbn [mbind exc_bind].
  destruct (decide (Validator.validation_errors res = [])) as [He|He].
  - by rewrite (proj2 Hiff He).
  - destruct (Validator.valid res); [by destruct He; apply Hiff | done].
Qed.

Lemma pipeline_ends_with_exit_code_witness :
  exists res,
    Validator.validate_port_objects Samples.registry
      [ ("carg-project", []); ("carg-service", []); ("carg-component", []);
        ("carg-deployment",
         [ [ ("identifier", JStr ""); ("title", JStr " -  - ");
             ("blueprint", JStr "cargDeployment");
             ("properties",
              JDict [ ("status", JNull); ("environment", JNull); ("version", JNull);
                      ("deployedBy", JNull); ("deploymentTime", JNull);
                      ("duration", JNull); ("azurePipelineRun", JNull);
                      ("logs", JNull) ]);
             ("relations", JDict [("service", JStr "")]) ] ]) ]
    = Returned res
    /\ main Samples.registry
         {| projects := []; services := []; components := [];
            deployments := [JDict []] |}
       = Returned (if decide (Validator.validation_errors res = []) then 0 else 1)%Z.
Proof.
  exact (pipeline_ends_with_exit_code Samples.registry
           {| projects := []; services := []; components := [];
              deployments := [JDict []] |} _ eq_refl).
Defined.

End PipelineFacts.

(** ** main.py: the start of the integration *)

Module LifecycleFacts.
Import Client ClientOps ClientOpsMore Lifecycle.

(** X24.  Starting the integration registers a webhook only on request:
    when [on_start] has sent a POST, the configuration enables webhooks
    and has a URL, a token and an application host, the client is
    configured, and the remote has granted the permission.  With the
    default configuration, which leaves webhooks disabled, nothing is
    ever posted. *)
Theorem on_start_posts_only_when_enabled {world : Type}
    (respond : world -> request -> outcome * world) (clock : world -> string)
    (fuel : nat) (self : CargAPIClient) (config : dict) (w : world) :
  posts (on_start respond clock fuel self config w).2 <> [] ->
  Py.truthy (Py.get_or "enableWebhooks" (JBool false) config) = true
  /\ Py.truthy (Py.get_or "cargApiUrl" JNull config) = true
  /\ Py.truthy (Py.get_or "cargApiToken" JNull config) = true
  /\ Py.truthy (Py.get_or "appHost" JNull config) = true
  /\ configured self = true
  /\ exists w0 w1 d,
       respond w0 (request_of self "GET" "webhooks/permissions" None None)
         = (Ok (JDict d), w1)
       /\ Py.truthy (Py.get_or "canCreateWebhooks" (JBool false) d) = true.
Proof.
  unfold on_start.
  set (checked := if negb (Py.truthy (Py.get_or "cargApiUrl" JNull config))
                     || negb (Py.truthy (Py.get_or "cargApiToken" JNull config))
                  then _ else _).
  assert (Hchecked : posts checked.2 = []).
  { unfold checked. destruct (_ || _); [done|].
    pose proof (health_check_posts_nothing respond clock fuel self w) as H.
    by destruct (health_check respond clock fuel self w) as [[healthy w1] evs1]. }
  destruct checked as [[returned w1] evs1]. cbn [snd] in Hchecked.
  destruct returned; cbn [negb snd]; [|done].
  destruct (Py.truthy (Py.get_or "enableWebhooks" (JBool false) config)),
    (Py.truthy (Py.get_or "cargApiUrl" JNull config)),
    (Py.truthy (Py.get_or "cargApiToken" JNull config)); cbn [andb snd]; try done.
  destruct (Py.truthy (Py.get_or "appHost" JNull config)); cbn [snd]; [|done].
  pose proof (posts_need_permission respond clock fuel self
                (Py.str (Py.get_or "appHost" JNull config)) w1) as Hperm.
  destruct (create_webhooks respond clock fuel self _ w1) as [[r w2] evs2].
  cbn [snd] in *. rewrite posts_app, Hchecked. cbn [app]. intros Hposts.
  destruct (Hperm Hposts) as [Hc Hgranted]. by split_and!.
Qed.

Lemma on_start_posts_only_when_enabled_witness :
  posts (on_start (scripted (Ok (JDict []))) (fun _ => Samples.noon) 1 Samples.client
           [ ("cargApiUrl", JStr "https://carg.example"); ("cargApiToken", JStr "t");
             ("enableWebhooks", JBool true); ("appHost", JStr "https://port.example") ]
           [ Ok (JDict [("status", JStr "healthy")]);
             Ok (JDict [("canCreateWebhooks", JBool true)]) ]).2 <> []
  /\ configured Samples.client = true.
Proof.
  assert (H : posts (on_start (scripted (Ok (JDict []))) (fun _ => Samples.noon) 1
                       Samples.client
                       [ ("cargApiUrl", JStr "https://carg.example");
                         ("cargApiToken", JStr "t"); ("enableWebhooks", JBool true);
                         ("appHost", JStr "https://port.example") ]
                       [ Ok (JDict [("status", JStr "healthy")]);
                         Ok (JDict [("canCreateWebhooks", JBool true)]) ]).2 <> [])
    by (vm_compute; discriminate).
  split; [exact H|].
  exact (proj1 (proj2 (proj2 (proj2 (proj2
           (on_start_posts_only_when_enabled _ _ _ _ _ _ H)))))).
Defined.

End LifecycleFacts.
